(** * txtxl: grouping a delimited text file by instruction code and
      paginating each group into workbooks

    A shallow embedding of [txtxl.py].  Python text is modelled as a list of
    characters ([ascii], read as code points below 256), Python integers as
    [Z], the insertion-ordered [dict] as an association list, the file
    system as a finite map from canonical paths to files, and the effects of
    the program (files written, files parsed, lines printed, exceptions) by
    a state-and-exception monad over an explicit world.

    What lies outside the program is taken as follows.  Paths are POSIX
    paths, and text files are written without translation of line feeds.
    [os.path.abspath], the file that a path names ([os.path.realpath]),
    whether [os.makedirs] fails, whether writing a text file fails,
    [glob.glob], [pd.read_csv] and whether writing a workbook fails are
    parameters.  Nothing is assumed of them: what a property needs of
    them, such as that a folder can be created or that two paths name
    different files, is among its hypotheses.  A write that fails is taken
    to leave the file as it was, and every exception raised while an
    artifact is converted is one that [except Exception] catches.  The
    lines that print elapsed time and the parsing of the command line are
    left out.

    The file has five parts: the program; the vocabulary in which its
    specification is stated; stage 1, with its lemmas and the properties
    C1, C3, C5, C8, C9 and C10 of the specification; stage 2, with the
    properties C2, C4, C6 and C7; and further properties X1 to X20 of the
    two stages and of [main]. *)

From Stdlib Require Import Ascii ZArith Lia DecimalString.

From Stdlib Require DecimalPos DecimalZ.

From stdpp Require Import base list strings gmap.

#[local] Set Warnings "-clear-no-such-hyp".

Local Open Scope Z_scope.

Local Open Scope list_scope.

(** * Part I: the program *)

(** ** Text *)

Abbreviation str := (list ascii).

(** String literals are read as Python text. *)
Coercion String.list_ascii_of_string : string >-> list.

Definition LF : ascii := "010"%char.

Definition CR : ascii := "013"%char.

Definition SLASH : ascii := "/"%char.

Definition DOT : ascii := "."%char.

(** [str.isspace] on one character, for code points below 256: the ASCII
    controls 9-13 and 28-31, the space, NEL (0x85) and NBSP (0xA0). *)
Definition isspace (c : ascii) : bool :=
  let n := nat_of_ascii c in
  ((9 <=? n) && (n <=? 13) || (28 <=? n) && (n <=? 32)
   || (n =? 133) || (n =? 160))%nat.

Fixpoint lstrip (s : str) : str :=
  match s with
  | c :: s' => if isspace c then lstrip s' else s
  | [] => []
  end.

Definition rstrip (s : str) : str := rev (lstrip (rev s)).

(** [s.strip()] *)
Definition strip (s : str) : str := rstrip (lstrip s).

(** [s.startswith(p)] *)
Fixpoint startswith (p s : str) : bool :=
  match p, s with
  | [], _ => true
  | a :: p', b :: s' => bool_decide (a = b) && startswith p' s'
  | _ :: _, [] => false
  end.

(** [s.endswith(p)] *)
Definition endswith (p s : str) : bool := startswith (rev p) (rev s).

(** The scan of [s.split(sep)] for a non-empty [sep]: [skip] counts the
    characters of a separator just matched that are still to be passed over,
    [cur] is the current field in reverse. *)
Fixpoint split_go (sep : str) (skip : nat) (cur : str) (s : str) : list str :=
  match s with
  | [] => [rev cur]
  | c :: s' =>
      match skip with
      | S k => split_go sep k cur s'
      | O =>
          if startswith sep s
          then rev cur :: split_go sep (pred (length sep)) [] s'
          else split_go sep O (c :: cur) s'
      end
  end.

(** ** Exceptions and results *)

Record exn := Exn { exn_class : string; exn_msg : string }.

Inductive result (A : Type) : Type :=
  | Ok (a : A)
  | Raise (e : exn).

Arguments Ok {A} a.

Arguments Raise {A} e.

Global Instance exn_eq_dec : EqDecision exn.
Proof. solve_decision. Defined.

Global Instance result_eq_dec {A} `{EqDecision A} : EqDecision (result A).
Proof. solve_decision. Defined.

Definition IndexError : exn := Exn "IndexError" "list index out of range".

Definition ValueError_empty_separator : exn := Exn "ValueError" "empty separator".

Definition ZeroDivisionError : exn :=
  Exn "ZeroDivisionError" "integer division or modulo by zero".

Definition FileNotFoundError (path : str) : exn :=
  Exn "FileNotFoundError" (String.string_of_list_ascii path).

Definition result_bind {A B} (r : result A) (k : A -> result B) : result B :=
  match r with
  | Ok a => k a
  | Raise e => Raise e
  end.

(** [s.split(sep)] with an explicit separator: the empty separator raises. *)
Definition split (s sep : str) : result (list str) :=
  match sep with
  | [] => Raise ValueError_empty_separator
  | _ :: _ => Ok (split_go sep O [] s)
  end.

(** [l[i]] for a list and a non-negative literal index. *)
Definition getitem {A} (l : list A) (i : nat) : result A :=
  match l !! i with
  | Some x => Ok x
  | None => Raise IndexError
  end.

(** [str(z)] for an integer. *)
Definition str_of_Z (z : Z) : str := NilZero.string_of_int (Z.to_int z).

(** ** [os.path] (POSIX) *)

(** [p.rfind(c) + 1]: the length of the prefix ending at the last [c],
    [0] when [c] does not occur. *)
Fixpoint after_last (c : ascii) (p : str) : nat :=
  match p with
  | [] => O
  | a :: p' =>
      match after_last c p' with
      | O => if bool_decide (a = c) then 1%nat else O
      | S k => S (S k)
      end
  end.

Fixpoint rstrip_char (c : ascii) (r : str) : str :=
  match r with
  | a :: r' => if bool_decide (a = c) then rstrip_char c r' else r
  | [] => []
  end.

(** [os.path.dirname] *)
Definition dirname (p : str) : str :=
  let head := take (after_last SLASH p) p in
  if forallb (fun a => bool_decide (a = SLASH)) head then head
  else rev (rstrip_char SLASH (rev head)).

(** [os.path.basename] *)
Definition basename (p : str) : str := drop (after_last SLASH p) p.

(** [os.path.splitext]: the extension starts at the last dot of the last
    component, unless only dots precede it there. *)
Definition splitext (p : str) : str * str :=
  let sep1 := after_last SLASH p in
  let dot1 := after_last DOT p in
  if (sep1 <? dot1)%nat
     && negb (forallb (fun a => bool_decide (a = DOT))
                (take (pred dot1 - sep1) (drop sep1 p)))
  then (take (pred dot1) p, drop (pred dot1) p)
  else (p, []).

(** [os.path.join(a, b)] *)
Definition path_join (a b : str) : str :=
  if startswith [SLASH] b then b
  else if bool_decide (a = []) || endswith [SLASH] a then a ++ b
  else a ++ SLASH :: b.

(** ** Files, data frames and the world *)

(** What [open(path, "r")] delivers: universal newlines turn CR LF and a lone
    CR into LF. *)
Fixpoint universal_newlines (s : str) : str :=
  match s with
  | [] => []
  | c :: s' =>
      if bool_decide (c = CR) then
        match s' with
        | c' :: s'' =>
            if bool_decide (c' = LF) then LF :: universal_newlines s''
            else LF :: universal_newlines s'
        | [] => [LF]
        end
      else c :: universal_newlines s'
  end.

(** The lines of a text, each with its line feed; the last one has none when
    the text does not end in a line feed. *)
Fixpoint text_lines (s : str) : list str :=
  match s with
  | [] => []
  | c :: s' =>
      if bool_decide (c = LF) then [LF] :: text_lines s'
      else match text_lines s' with
           | [] => [[c]]
           | l :: ls => (c :: l) :: ls
           end
  end.

(** A parsed table ([dtype=str]): column names and rows of cells, a missing
    cell being [None]. *)
Record DataFrame := mkDataFrame {
  df_columns : list str;
  df_rows : list (list (option str))
}.

(** [len(df)] *)
Definition df_len (df : DataFrame) : Z := Z.of_nat (length (df_rows df)).

(** The bounds of a Python slice [a:b] on a sequence of length [n]. *)
Definition slice_bound (n i : Z) : Z :=
  if i <? 0 then Z.max 0 (i + n) else Z.min i n.

Definition slice {A} (l : list A) (a b : Z) : list A :=
  let n := Z.of_nat (length l) in
  let lo := slice_bound n a in
  let hi := slice_bound n b in
  take (Z.to_nat (hi - lo)) (drop (Z.to_nat lo) l).

(** [df.iloc[a:b].reset_index(drop=True)] *)
Definition iloc (df : DataFrame) (a b : Z) : DataFrame :=
  mkDataFrame (df_columns df) (slice (df_rows df) a b).

(** [range(n)] *)
Definition range (n : Z) : list Z := seqZ 0 n.

(** [a // b] *)
Definition floordiv (a b : Z) : result Z :=
  if b =? 0 then Raise ZeroDivisionError else Ok (a / b).

Inductive file :=
  | TextFile (content : str)
  | Workbook (sheet : str) (df : DataFrame).

(** What a run does to the outside, in order, with the paths as the program
    gives them: a folder created, a text file written, a file handed to
    [pd.read_csv], a workbook written, a line printed.  What fails leaves
    no event.  The lines that print elapsed wall-clock time are left out. *)
Inductive event :=
  | EvMakedirs (path : str)
  | EvWriteText (path content : str)
  | EvReadCsv (path sep : str)
  | EvWriteExcel (path sheet : str) (df : DataFrame)
  | EvPrint (line : str).

(** The files, each under its canonical path, and what the run has done so
    far. *)
Record world := mkWorld {
  files : gmap str file;
  trace : list event
}.

(** ** The state-and-exception monad

    A raised exception leaves the state as it was when it was raised. *)
Definition M (S A : Type) : Type := S -> S * result A.

Definition ret {S A} (a : A) : M S A := fun s => (s, Ok a).

Definition raise {S A} (e : exn) : M S A := fun s => (s, Raise e).

Definition bind {S A B} (m : M S A) (k : A -> M S B) : M S B :=
  fun s => match m s with
           | (s', Ok a) => k a s'
           | (s', Raise e) => (s', Raise e)
           end.

Definition lift {S A} (r : result A) : M S A := fun s => (s, r).

Definition modify {S} (f : S -> S) : M S unit := fun s => (f s, Ok tt).

(** [try: body except Exception as e: handler(e)] *)
Definition try_except {S A} (body : M S A) (handler : exn -> M S A) : M S A :=
  fun s => match body s with
           | (s', Ok a) => (s', Ok a)
           | (s', Raise e) => handler e s'
           end.

Notation "'do' x <- c1 ; c2" := (bind c1 (fun x => c2))
  (at level 10, x name, c1 at level 100, c2 at level 200).

Notation "c1 >> c2" := (bind c1 (fun _ => c2))
  (at level 100, c2 at level 200, right associativity).

Definition emit (e : event) (w : world) : world :=
  mkWorld (files w) (trace w ++ [e]).

(** [print(line)] *)
Definition print (line : str) : M world unit := modify (emit (EvPrint line)).

(** ** The grouping of stage 1 *)

(** [grouped_data]: a [dict] from instruction code to the list of its lines,
    in insertion order. *)
Abbreviation dict := (list (str * list str)).

(** [k in d] *)
Definition dict_has (k : str) (d : dict) : bool :=
  existsb (fun kv => bool_decide (kv.1 = k)) d.

(** [d[k] = []] for a key that is not in [d]: a new last item. *)
Definition dict_new (k : str) (d : dict) : dict := d ++ [(k, [])].

(** [d[k].append(line)] for a key in [d] *)
Definition dict_append (k : str) (line : str) (d : dict) : dict :=
  map (fun kv => if bool_decide (kv.1 = k) then (kv.1, kv.2 ++ [line]) else kv) d.

(** [columns = line.strip().split(delimiter)] *)
Definition columns_of (line delimiter : str) : result (list str) :=
  split (strip line) delimiter.

(** [instruction_code = columns[1]] *)
Definition instruction_code_of (line delimiter : str) : result str :=
  result_bind (columns_of line delimiter) (fun columns => getitem columns 1).

(** The grouping loop over [data_lines]. *)
Fixpoint group_lines (delimiter : str) (data_lines : list str) (grouped_data : dict)
  : result dict :=
  match data_lines with
  | [] => Ok grouped_data
  | line :: rest =>
      result_bind (columns_of line delimiter) (fun columns =>
      result_bind (getitem columns 1) (fun instruction_code =>
      let grouped_data :=
        if dict_has instruction_code grouped_data then grouped_data
        else dict_new instruction_code grouped_data in
      group_lines delimiter rest (dict_append instruction_code line grouped_data)))
  end.

(** What is written for one group: the header, a line feed, the records. *)
Definition artifact_content (header : str) (records : list str) : str :=
  (header ++ [LF]) ++ concat records.

(** ** What the program asks of the operating system *)

Section Pipeline.

(** [os.path.abspath] depends on the working directory of the process. *)
Variable abspath : str -> str.

(** The file that a path names, given by its canonical path
    ([os.path.realpath]): two paths name one file exactly when their
    canonical paths are equal.  The files of the world are kept under their
    canonical paths. *)
Variable realpath : str -> str.

(** The exception, if any, with which creating the folder at a path fails
    when the program asks for it, as when a regular file is in the way or
    permission is denied. *)
Variable makedirs_error : str -> option exn.

(** The exception, if any, with which opening the text file at a path for
    writing and writing a content to it fails, as when the folder of the
    path does not exist. *)
Variable text_error : str -> str -> option exn.

(** [os.makedirs(path, exist_ok=True)] *)
Definition makedirs (path : str) : M world unit :=
  fun w => match makedirs_error path with
           | Some e => (w, Raise e)
           | None => (emit (EvMakedirs path) w, Ok tt)
           end.

(** [with open(path, "r") as file: lines = file.readlines()]; a workbook is
    not text that can be decoded. *)
Definition open_readlines (path : str) : M world (list str) :=
  fun w => match files w !! realpath path with
           | Some (TextFile content) => (w, Ok (text_lines (universal_newlines content)))
           | Some (Workbook _ _) => (w, Raise (Exn "UnicodeDecodeError" ""))
           | None => (w, Raise (FileNotFoundError path))
           end.

(** [with open(path, "w") as out_file: out_file.write(...)]: the file that
    the path names is created or truncated and holds exactly what was
    written; when this fails, the file is taken to be as it was. *)
Definition write_text (path content : str) : M world unit :=
  fun w => match text_error path content with
           | Some e => (w, Raise e)
           | None => (mkWorld (<[realpath path := TextFile content]> (files w))
                        (trace w ++ [EvWriteText path content]), Ok tt)
           end.

(** ** Stage 1: [split_file_by_instruction_code] *)

(** The writing loop over [grouped_data.items()]. *)
Fixpoint write_groups (output_folder header : str) (items : dict) : M world unit :=
  match items with
  | [] => ret tt
  | (instruction_code, records) :: rest =>
      let output_file := path_join output_folder (instruction_code ++ ".txt") in
      write_text output_file (artifact_content header records) >>
      write_groups output_folder header rest
  end.

Definition split_file_by_instruction_code (input_file delimiter : str) : M world str :=
  let input_dir := dirname (abspath input_file) in
  let output_folder := path_join input_dir "intermediate" in
  makedirs output_folder >>
  do lines <- open_readlines input_file;
  do line0 <- lift (getitem lines 0);
  let header := strip line0 in
  let data_lines := drop 1 lines in
  do grouped_data <- lift (group_lines delimiter data_lines []);
  write_groups output_folder header grouped_data >>
  print ("Files created for each Instruction Code in: " ++ output_folder) >>
  ret output_folder.

(** ** Stage 2: [convert_text_to_excel] *)

(** The state of a conversion run: the world and the local list
    [excel_files], which keeps what was appended to it when a file fails. *)
Record conv := mkConv {
  cv_world : world;
  excel_files : list str
}.

Definition in_world {A} (m : M world A) : M conv A :=
  fun s => match m (cv_world s) with
           | (w', r) => (mkConv w' (excel_files s), r)
           end.

(** [glob.glob]: the matches of a pattern, in the order the operating system
    lists them. *)
Variable glob_glob : gmap str file -> str -> list str.

(** [pd.read_csv(path, sep=sep, dtype=str)] on the files present. *)
Variable pd_read_csv : gmap str file -> str -> str -> result DataFrame.

(** The exception, if any, with which writing [df] as a workbook at a path
    fails. *)
Variable excel_error : str -> DataFrame -> option exn.

Definition glob (pattern : str) : M world (list str) :=
  fun w => (w, Ok (glob_glob (files w) pattern)).

Definition read_csv (path sep : str) : M world DataFrame :=
  fun w => (emit (EvReadCsv path sep) w, pd_read_csv (files w) path sep).

(** [with pd.ExcelWriter(path, engine="xlsxwriter") as writer:
       df.to_excel(writer, index=False, sheet_name="Sheet1")]; when this
    fails, the file is taken to be as it was. *)
Definition to_excel (path : str) (df : DataFrame) : M world unit :=
  fun w => match excel_error path df with
           | Some e => (w, Raise e)
           | None => (mkWorld (<[realpath path := Workbook "Sheet1" df]> (files w))
                        (trace w ++ [EvWriteExcel path "Sheet1" df]), Ok tt)
           end.

(** [excel_files.append(path)] *)
Definition excel_files_append (path : str) : M conv unit :=
  modify (fun s => mkConv (cv_world s) (excel_files s ++ [path])).

(** The loop [for i in range(num_splits)]. *)
Fixpoint write_splits (output_folder base_filename : str) (df : DataFrame)
    (max_rows : Z) (indices : list Z) : M conv unit :=
  match indices with
  | [] => ret tt
  | i :: rest =>
      let start_idx := i * max_rows in
      let end_idx := Z.min ((i + 1) * max_rows) (df_len df) in
      let split_df := iloc df start_idx end_idx in
      let split_filename := base_filename ++ "_part" ++ str_of_Z (i + 1) ++ ".xlsx" in
      let output_path := path_join output_folder split_filename in
      in_world (to_excel output_path split_df) >>
      excel_files_append output_path >>
      in_world (print ("Created: " ++ split_filename)) >>
      write_splits output_folder base_filename df max_rows rest
  end.

(** The body of the [try] for one text file. *)
Definition convert_file (output_folder delimiter : str) (max_rows : Z)
    (text_file : str) : M conv unit :=
  do df <- in_world (read_csv text_file delimiter);
  let base_filename := (splitext (basename text_file)).1 in
  if df_len df >? max_rows then
    do num_splits <- lift (floordiv (df_len df + max_rows - 1) max_rows);
    write_splits output_folder base_filename df max_rows (range num_splits)
  else
    let output_path := path_join output_folder (base_filename ++ ".xlsx") in
    in_world (to_excel output_path df) >>
    excel_files_append output_path >>
    in_world (print ("Created: " ++ basename output_path)).

(** [except Exception as e: print(f"Error processing {text_file}: {e}")] *)
Definition report_error (text_file : str) (e : exn) : M conv unit :=
  in_world (print ("Error processing " ++ text_file ++ ": " ++ exn_msg e)).

(** The loop [for text_file in text_files]. *)
Fixpoint convert_files (output_folder delimiter : str) (max_rows : Z)
    (text_files : list str) : M conv unit :=
  match text_files with
  | [] => ret tt
  | text_file :: rest =>
      try_except (convert_file output_folder delimiter max_rows text_file)
        (report_error text_file) >>
      convert_files output_folder delimiter max_rows rest
  end.

(** Runs a block that uses the local [excel_files = []] and gives its final
    value. *)
Definition with_excel_files (body : M conv unit) : M world (list str) :=
  fun w => match body (mkConv w []) with
           | (s, Ok _) => (cv_world s, Ok (excel_files s))
           | (s, Raise e) => (cv_world s, Raise e)
           end.

Definition convert_text_to_excel (input_folder : str) (output_folder : option str)
    (delimiter : str) (max_rows : Z) : M world (list str) :=
  let output_folder := default input_folder output_folder in
  makedirs output_folder >>
  do text_files <- glob (path_join input_folder "*.txt");
  with_excel_files (convert_files output_folder delimiter max_rows text_files).

End Pipeline.

(** ** The command: [main] *)

(** What [parser.parse_args()] gives: the input file, [-d], [-m] and [-o]. *)
Record arguments := mkArguments {
  arg_input_file : str;
  arg_delimiter : str;
  arg_max_rows : Z;
  arg_output_folder : option str
}.

(** [x or y] for an optional string [x]: [None] and the empty string give
    [y]. *)
Definition or_else (x : option str) (y : str) : str :=
  match x with
  | Some (c :: s) => c :: s
  | Some [] | None => y
  end.

(** The loop [for file in created_files: print(file)]. *)
Fixpoint print_files (created_files : list str) : M world unit :=
  match created_files with
  | [] => ret tt
  | file :: rest => print file >> print_files rest
  end.

Section Main.

Variable abspath : str -> str.

Variable realpath : str -> str.

Variable makedirs_error : str -> option exn.

Variable text_error : str -> str -> option exn.

Variable glob_glob : gmap str file -> str -> list str.

Variable pd_read_csv : gmap str file -> str -> str -> result DataFrame.

Variable excel_error : str -> DataFrame -> option exn.

(** [main], from the parsed arguments on; the line that prints the total
    time is left out. *)
Definition main (args : arguments) : M world unit :=
  let input_dir := dirname (abspath (arg_input_file args)) in
  let output_folder :=
    or_else (arg_output_folder args) (path_join input_dir "excel_output") in
  do intermediate_folder <-
    split_file_by_instruction_code abspath realpath makedirs_error text_error
      (arg_input_file args) (arg_delimiter args);
  do created_files <-
    convert_text_to_excel realpath makedirs_error glob_glob pd_read_csv excel_error
      intermediate_folder (Some output_folder) (arg_delimiter args) (arg_max_rows args);
  print (LF :: "Processing complete.") >>
  print ("Total Excel files created: " ++ str_of_Z (Z.of_nat (length created_files))) >>
  print "Created files:" >>
  print_files created_files.

End Main.

(** * Part II: the vocabulary of the specification *)

(** ** Fields, codes and groups *)

(** The line, as the program splits it (stripped of the white space at both
    its ends), has a field at index 1. *)
Definition two_fields (delimiter line : str) : Prop :=
  ∃ columns, columns_of line delimiter = Ok columns ∧ (2 <= length columns)%nat.

(** The line, as the program splits it, has fewer than two fields. *)
Definition few_fields (delimiter line : str) : Prop :=
  ∃ columns, columns_of line delimiter = Ok columns ∧ (length columns < 2)%nat.

(** The codes in the order in which each is first met. *)
Fixpoint first_seen (codes : list str) : list str :=
  match codes with
  | [] => []
  | k :: rest => k :: filter (λ k', k' ≠ k) (first_seen rest)
  end.

(** The lines whose instruction code is [k], in their order. *)
Definition lines_of_code (delimiter k : str) (data_lines : list str) : list str :=
  filter (λ line, instruction_code_of line delimiter = Ok k) data_lines.

(** The group mapping of the data lines whose codes are [codes]: one item per
    code, in first-met order, with the lines of that code. *)
Definition groups_of (delimiter : str) (data_lines codes : list str) : dict :=
  map (λ k, (k, lines_of_code delimiter k data_lines)) (first_seen codes).

(** The codes of the data lines, in their order; a line that has no code
    gives none. *)
Definition codes_of (delimiter : str) (data_lines : list str) : list str :=
  omap (λ line, match instruction_code_of line delimiter with
                | Ok k => Some k
                | Raise _ => None
                end) data_lines.

(** ** Lines *)

(** A line that ends in its line feed, the only one in it. *)
Definition terminated (line : str) : Prop :=
  ∃ body, line = body ++ [LF] ∧ LF ∉ body.

(** What [readlines] gives: terminated lines, except that the last may lack
    the line feed (and then is not empty). *)
Fixpoint lines_shape (ls : list str) : Prop :=
  match ls with
  | [] => True
  | [l] => terminated l ∨ (l ≠ [] ∧ LF ∉ l)
  | l :: rest => terminated l ∧ lines_shape rest
  end.

(** The line without its line feed. *)
Definition chomp (line : str) : str :=
  match rev line with
  | c :: r => if bool_decide (c = LF) then rev r else line
  | [] => line
  end.

(** A line with no white space at either end, its line feed apart. *)
Definition tidy (line : str) : Prop := strip (chomp line) = chomp line.

(** ** Fields and keys in the words of the specification

    The specification splits a line on the delimiter with no trimming other
    than that of the line ending, and takes the field at index 1 as the key. *)

(** The fields of a line: the line without its line feed, split on the
    delimiter. *)
Definition spec_fields (line delimiter : str) : result (list str) :=
  split (chomp line) delimiter.

(** The key of a line: its field at index 1, if it has one. *)
Definition spec_key (line delimiter : str) : option str :=
  match spec_fields line delimiter with
  | Ok fields => fields !! 1%nat
  | Raise _ => None
  end.

(** The line splits into two fields or more. *)
Definition spec_two_fields (delimiter line : str) : Prop :=
  ∃ fields, spec_fields line delimiter = Ok fields ∧ (2 <= length fields)%nat.

(** ** Paths and the files they name *)

(** A name that is one component of a path: no slash in it, and not one of
    the empty name, [.] and [..]. *)
Definition plain_name (n : str) : Prop :=
  SLASH ∉ n ∧ n ≠ [] ∧ n ≠ ("." : str) ∧ n ≠ (".." : str).

(** In the folder, different plain names are different files. *)
Definition names_apart (realpath : str → str) (folder : str) : Prop :=
  ∀ n1 n2, plain_name n1 → plain_name n2 →
    realpath (path_join folder n1) = realpath (path_join folder n2) → n1 = n2.

(** ** What a run did *)

(** The events of a run: what the trace gained. *)
Definition new_events (w w' : world) : list event :=
  drop (length (trace w)) (trace w').

(** The text files written, in order: path and content. *)
Definition text_writes (evs : list event) : list (str * str) :=
  omap (λ e, match e with EvWriteText p c => Some (p, c) | _ => None end) evs.

(** The workbooks written, in order: path and table. *)
Definition excel_writes (evs : list event) : list (str * DataFrame) :=
  omap (λ e, match e with EvWriteExcel p _ df => Some (p, df) | _ => None end) evs.

(** The files handed to [pd.read_csv], in order. *)
Definition csv_reads (evs : list event) : list str :=
  omap (λ e, match e with EvReadCsv p _ => Some p | _ => None end) evs.

(** The folder of the artifacts, beside the input file. *)
Definition intermediate_folder (abspath : str → str) (input_file : str) : str :=
  path_join (dirname (abspath input_file)) "intermediate".

(** The path of the artifact of code [k]. *)
Definition artifact_path (output_folder k : str) : str :=
  path_join output_folder (k ++ ".txt").

(** The events of the writing loop. *)
Definition write_events (output_folder header : str) (items : dict) : list event :=
  map (λ kv, EvWriteText (artifact_path output_folder kv.1)
               (artifact_content header kv.2)) items.

(** The items whose artifacts the writing loop writes: those before the
    first whose artifact cannot be written. *)
Fixpoint written_items (text_error : str → str → option exn)
    (output_folder header : str) (items : dict) : dict :=
  match items with
  | [] => []
  | (k, records) :: rest =>
      match text_error (artifact_path output_folder k) (artifact_content header records) with
      | Some _ => []
      | None => (k, records) :: written_items text_error output_folder header rest
      end
  end.

(** The exception, if any, that ends the writing loop: that of the first
    artifact that cannot be written. *)
Fixpoint write_groups_error (text_error : str → str → option exn)
    (output_folder header : str) (items : dict) : option exn :=
  match items with
  | [] => None
  | (k, records) :: rest =>
      match text_error (artifact_path output_folder k) (artifact_content header records) with
      | Some e => Some e
      | None => write_groups_error text_error output_folder header rest
      end
  end.

(** The lines of the artifacts, each without its first line, in the order
    of the artifacts. *)
Definition rejoin (artifacts : list (str * str)) : list str :=
  concat (map (λ a, drop 1 (text_lines a.2)) artifacts).

(** The trace of a conversion state. *)
Definition cv_trace (s : conv) : list event := trace (cv_world s).

(** The events between two conversion states. *)
Definition conv_events (s s' : conv) : list event :=
  new_events (cv_world s) (cv_world s').

(** The name of part [i + 1]. *)
Definition split_name (base_filename : str) (i : Z) : str :=
  base_filename ++ "_part" ++ str_of_Z (i + 1) ++ ".xlsx".

(** The rows of part [i + 1]. *)
Definition split_batch (df : DataFrame) (max_rows i : Z) : DataFrame :=
  iloc df (i * max_rows) (Z.min ((i + 1) * max_rows) (df_len df)).

(** The events of the loop over the parts. *)
Definition split_events (output_folder base_filename : str) (df : DataFrame)
    (max_rows : Z) (indices : list Z) : list event :=
  flat_map (λ i, [EvWriteExcel (path_join output_folder (split_name base_filename i))
                    "Sheet1" (split_batch df max_rows i);
                  EvPrint ("Created: " ++ split_name base_filename i)]) indices.

(** [k] is the quotient [n / m] rounded up. *)
Definition is_ceil_div (n m k : Z) : Prop := (k - 1) * m < n ≤ k * m.

(** One turn of the loop of stage 2: the [try] with its [except]. *)
Definition convert_step (realpath : str -> str)
    (pd_read_csv : gmap str file -> str -> str -> result DataFrame)
    (excel_error : str -> DataFrame -> option exn)
    (output_folder delimiter : str) (max_rows : Z) (text_file : str) : M conv unit :=
  try_except
    (convert_file realpath pd_read_csv excel_error output_folder delimiter max_rows text_file)
    (report_error text_file).

(** ** Joining fields, and the files after a run *)

(** [sep.join(fields)] *)
Fixpoint str_join (sep : str) (fields : list str) : str :=
  match fields with
  | [] => []
  | [x] => x
  | x :: rest => x ++ sep ++ str_join sep rest
  end.

(** What an event does to the files. *)
Definition replay_event (realpath : str → str) (fs : gmap str file) (e : event)
  : gmap str file :=
  match e with
  | EvWriteText p c => <[realpath p := TextFile c]> fs
  | EvWriteExcel p sheet df => <[realpath p := Workbook sheet df]> fs
  | _ => fs
  end.

(** The files after the events of a run. *)
Definition replay (realpath : str → str) (fs : gmap str file) (evs : list event)
  : gmap str file :=
  foldl (replay_event realpath) fs evs.

(** The paths that the events write, text files and workbooks. *)
Definition written_paths (evs : list event) : list str :=
  omap (λ e, match e with
             | EvWriteText p _ | EvWriteExcel p _ _ => Some p
             | _ => None
             end) evs.

(** How a state of the conversion follows from an earlier one through the
    events [evs]: the trace has gained them, the files are what they make of
    the earlier files, [excel_files] has gained the paths of the workbooks
    written, no text file is written, and every workbook written meets [Q]. *)
Definition conv_follows (realpath : str → str) (Q : str * DataFrame -> Prop)
    (s s' : conv) (evs : list event) : Prop :=
  cv_trace s' = cv_trace s ++ evs
  /\ files (cv_world s') = replay realpath (files (cv_world s)) evs
  /\ excel_files s' = excel_files s ++ (excel_writes evs).*1
  /\ text_writes evs = []
  /\ Forall Q (excel_writes evs).

(** ** Statements that the program does not meet

    Six sentences of the specification, written down as they stand; each is
    refuted on an example below and proved in the form the program meets. *)

(** When every data line splits into two fields or more, the grouping gives
    one group per key, which holds the lines whose field at index 1 is that
    key, in their order, and every line is in the group of its key. *)
Definition grouping_keyed_by_field_1 (delimiter : str) (data_lines : list str) : Prop :=
  Forall (spec_two_fields delimiter) data_lines →
  ∃ grouped_data,
    group_lines delimiter data_lines [] = Ok grouped_data
    ∧ NoDup grouped_data.*1
    ∧ (∀ k records, (k, records) ∈ grouped_data →
         records = filter (λ line, spec_key line delimiter = Some k) data_lines)
    ∧ (∀ line, line ∈ data_lines →
         ∃ k records, spec_key line delimiter = Some k
                      ∧ (k, records) ∈ grouped_data ∧ line ∈ records).

Section Stated.

Variable abspath : str -> str.

Variable realpath : str -> str.

Variable makedirs_error : str -> option exn.

Variable text_error : str -> str -> option exn.

Variable glob_glob : gmap str file -> str -> list str.

Variable pd_read_csv : gmap str file -> str -> str -> result DataFrame.

Variable excel_error : str -> DataFrame -> option exn.

(** A data line with fewer than two fields is reported by a
    [MalformedRecordError], and nothing has been written. *)
Definition malformed_line_reported (input_file delimiter : str) (w : world) : Prop :=
  ∀ content line0 data_lines,
    files w !! realpath input_file = Some (TextFile content) →
    text_lines (universal_newlines content) = line0 :: data_lines →
    Exists (few_fields delimiter) data_lines →
    let run := split_file_by_instruction_code abspath realpath makedirs_error text_error
                 input_file delimiter w in
    (∃ msg, run.2 = Raise (Exn "MalformedRecordError" msg))
    ∧ text_writes (new_events w run.1) = [].

(** Every artifact is the first line of the source as it stands, then the
    records of one code, each ending in a line feed. *)
Definition artifacts_verbatim_and_terminated (input_file delimiter : str) (w : world) : Prop :=
  ∀ content line0 data_lines,
    files w !! realpath input_file = Some (TextFile content) →
    text_lines (universal_newlines content) = line0 :: data_lines →
    let run := split_file_by_instruction_code abspath realpath makedirs_error text_error
                 input_file delimiter w in
    ∀ path text, (path, text) ∈ text_writes (new_events w run.1) →
      ∃ k, let records := lines_of_code delimiter k data_lines in
        text = (chomp line0 ++ [LF]) ++ concat records
        ∧ Forall (λ r, ∃ body, r = body ++ [LF]) records.

(** For an input whose data lines all split into two fields or more, the
    artifacts of the keys, as they are on disk after the run and in the
    order in which the keys are first met, are the data lines up to order
    once the first line of each is removed. *)
Definition artifacts_rejoin_to_data_lines (input_file delimiter : str) (w : world) : Prop :=
  ∀ content line0 data_lines,
    files w !! realpath input_file = Some (TextFile content) →
    text_lines (universal_newlines content) = line0 :: data_lines →
    Forall (spec_two_fields delimiter) data_lines →
    let run := split_file_by_instruction_code abspath realpath makedirs_error text_error
                 input_file delimiter w in
    ∃ output_folder artifacts,
      run.2 = Ok output_folder
      ∧ Forall2 (λ k a, a.1 = artifact_path output_folder k
                        ∧ files run.1 !! realpath a.1 = Some (TextFile a.2))
          (first_seen (omap (λ line, spec_key line delimiter) data_lines)) artifacts
      ∧ rejoin artifacts ≡ₚ data_lines.

(** A table of [n] rows gives the quotient of [n] by [max_rows], rounded up,
    as its number of batches. *)
Definition pagination_makes_ceil_batches (output_folder delimiter : str) (max_rows : Z)
    (text_file : str) (s : conv) : Prop :=
  ∀ df, pd_read_csv (files (cv_world s)) text_file delimiter = Ok df →
    0 < max_rows →
    let n := df_len df in
    let run := convert_file realpath pd_read_csv excel_error output_folder delimiter
                 max_rows text_file s in
    let batches := (excel_writes (conv_events s run.1)).*2 in
    is_ceil_div n max_rows (Z.of_nat (length batches))
    ∧ Forall (λ b, df_len b ≤ max_rows) batches
    ∧ Z.of_nat (sum_list ((λ b, length (df_rows b)) <$> batches)) = n
    ∧ ∀ (i : nat) b, batches !! i = Some b →
        df_rows b
        = take (Z.to_nat (Z.min ((Z.of_nat i + 1) * max_rows) n - Z.of_nat i * max_rows))
            (drop (Z.to_nat (Z.of_nat i * max_rows)) (df_rows df)).

(** A [max_rows] that is not positive is refused by a [ConfigurationError]
    before any artifact is parsed. *)
Definition nonpositive_max_rows_rejected (input_folder : str) (output_folder : option str)
    (delimiter : str) (max_rows : Z) (w : world) : Prop :=
  max_rows ≤ 0 →
  let run := convert_text_to_excel realpath makedirs_error glob_glob pd_read_csv excel_error
               input_folder output_folder delimiter max_rows w in
  (∃ msg, run.2 = Raise (Exn "ConfigurationError" msg))
  ∧ csv_reads (new_events w run.1) = [].

End Stated.

(** ** Example inputs *)

(** The text whose lines are the given ones, each with its line feed. *)
Definition unlines (ls : list string) : str :=
  concat ((fun l : string => (l : str) ++ [LF]) <$> ls).

(** Paths are absolute already. *)
Definition ex_abspath (p : str) : str := p.

(** One step of [os.path.normpath] over the components of a path: empty
    components and [.] are dropped, and [..] takes back the component before
    it, if there is one to take back. *)
Definition normpath_step (initial_slashes : nat) (new_comps : list str) (comp : str)
  : list str :=
  if bool_decide (comp = []) || bool_decide (comp = ("." : str)) then new_comps
  else if negb (bool_decide (comp = (".." : str)))
          || (bool_decide (initial_slashes = O) && bool_decide (new_comps = []))
          || bool_decide (last new_comps = Some (".." : str))
  then new_comps ++ [comp]
  else removelast new_comps.

(** [os.path.normpath] (POSIX) *)
Definition normpath (path : str) : str :=
  match path with
  | [] => "."
  | _ :: _ =>
      let initial_slashes :=
        if startswith "/" path
        then if startswith "//" path && negb (startswith "///" path) then 2%nat else 1%nat
        else O in
      let comps := split_go "/" O [] path in
      let new_comps := foldl (normpath_step initial_slashes) [] comps in
      match replicate initial_slashes SLASH ++ str_join "/" new_comps with
      | [] => "."
      | c :: p => c :: p
      end
  end.

(** A file system without links: the canonical path of an absolute path is
    the path normalised. *)
Definition ex_realpath (p : str) : str := normpath p.

(** Every folder can be created. *)
Definition ex_makedirs_ok (path : str) : option exn := None.

(** Every text file can be written. *)
Definition ex_text_ok (path content : str) : option exn := None.

(** Only the folder [/d/intermediate] exists: a text file elsewhere cannot
    be opened for writing. *)
Definition ex_text_error (path content : str) : option exn :=
  if bool_decide (dirname path = ("/d/intermediate" : str)) then None
  else Some (FileNotFoundError path).

(** A regular file is where the folder [/d/out] should be. *)
Definition ex_makedirs_error (path : str) : option exn :=
  if bool_decide (path = ("/d/out" : str))
  then Some (Exn "FileExistsError" "[Errno 17] File exists: '/d/out'")
  else None.

(** The scenario of the specification: two lines of code [A] around one of
    code [B]. *)
Definition ex_input : str :=
  unlines ["id~code~amount"; "1~A~10"; "2~B~20"; "3~A~30"]%list.

Definition ex_world : world :=
  mkWorld {[ ("/d/in.txt" : str) := TextFile ex_input ]} [].

(** The same folder with one more file, which is neither input, artifact
    nor workbook. *)
Definition ex_notes_world : world :=
  mkWorld (<[ ("/d/notes.md" : str) := TextFile "keep" ]> (files ex_world)) [].

Definition ex_data_lines : list str := drop 1 (text_lines ex_input).

(** A header with a trailing blank and a last line without line feed. *)
Definition ex_ragged_header : str := "id~code " ++ [LF].

Definition ex_ragged_world : world :=
  mkWorld {[ ("/d/in.txt" : str) := TextFile (ex_ragged_header ++ "1~A") ]} [].

(** What the program writes for code [A] of the ragged input. *)
Definition ex_ragged_artifact : str := "id~code" ++ LF :: "1~A".

(** The second data line has a single field. *)
Definition ex_malformed_world : world :=
  mkWorld {[ ("/d/in.txt" : str) := TextFile (unlines ["id~code"; "1~A"; "oops"]%list) ]} [].

(** The header and nothing else. *)
Definition ex_header_only_world : world :=
  mkWorld {[ ("/d/in.txt" : str) := TextFile (unlines ["id~code~amount"]%list) ]} [].

(** A table of [n] rows. *)
Definition ex_df (n : nat) : DataFrame :=
  mkDataFrame [("id" : str); ("code" : str)]
    ((λ i, [Some (str_of_Z (Z.of_nat i)); Some ("A" : str)]) <$> seq 0 n).

(** A folder with three text files. *)
Definition ex_glob (fs : gmap str file) (pattern : str) : list str :=
  [("/d/intermediate/A.txt" : str); ("/d/intermediate/bad.txt" : str);
   ("/d/intermediate/empty.txt" : str)].

(** A parser that gives three rows for [A.txt], no row for [empty.txt] and
    fails on anything else. *)
Definition ex_read_csv (fs : gmap str file) (path sep : str) : result DataFrame :=
  if bool_decide (path = ("/d/intermediate/A.txt" : str)) then Ok (ex_df 3)
  else if bool_decide (path = ("/d/intermediate/empty.txt" : str)) then Ok (ex_df 0)
  else Raise (Exn "ParserError" "Error tokenizing data").

(** Every workbook can be written. *)
Definition ex_no_excel_error (path : str) (df : DataFrame) : option exn := None.

(** An empty world and no file created yet. *)
Definition ex_conv : conv := mkConv (mkWorld ∅ []) [].

(** A blank line at the end of the file. *)
Definition ex_blank_line_world : world :=
  mkWorld {[ ("/d/in.txt" : str) := TextFile (unlines ["id~code"; "1~A"; ""]%list) ]} [].

(** A folder whose two text files both parse. *)
Definition ex_glob_good (fs : gmap str file) (pattern : str) : list str :=
  [("/d/intermediate/A.txt" : str); ("/d/intermediate/empty.txt" : str)].

(** The second part of [A] cannot be written. *)
Definition ex_part2_error (path : str) (df : DataFrame) : option exn :=
  if bool_decide (path = ("/d/excel_output/A_part2.xlsx" : str))
  then Some (Exn "OSError" "No space left on device")
  else None.

(** The command line [txtxl.py /d/in.txt -m 2]. *)
Definition ex_args : arguments := mkArguments "/d/in.txt" "~" 2 None.

(** Three lines of three codes, the second of which, [x/y], names a file in
    a folder that does not exist. *)
Definition ex_slash_world : world :=
  mkWorld {[ ("/d/in.txt" : str)
             := TextFile (unlines ["id~code"; "1~B"; "2~x/y"; "3~C"]%list) ]} [].

(** Two codes, [A] and [./A], that name one file. *)
Definition ex_alias_world : world :=
  mkWorld {[ ("/d/in.txt" : str)
             := TextFile (unlines ["id~code"; "1~A"; "2~./A"]%list) ]} [].

(** Two lines whose fields at index 1 differ by a trailing blank. *)
Definition ex_trailing_blank_lines : list str :=
  [("1~A " ++ [LF] : str); ("2~A" ++ [LF] : str)].

(** The tabulator, a delimiter that is white space. *)
Definition TAB : ascii := "009"%char.

(** The command line [txtxl.py /d/in.txt -m 2 -o /d/out]. *)
Definition ex_args_out : arguments :=
  mkArguments "/d/in.txt" "~" 2 (Some ("/d/out" : str)).

(** * Part III: stage 1, grouping and writing the artifacts *)

#[local] Arguments String.list_ascii_of_string : simpl never.

(** Proves that concrete lines have two fields each. *)
Ltac two_fields_by_computation :=
  repeat constructor; (eexists; split; [vm_compute; reflexivity|cbn; lia]).

(** ** The model on small inputs *)

Example split_examples :
  split "1~A~10" "~" = Ok [("1" : str); ("A" : str); ("10" : str)]
  /\ split "a~~b~" "~" = Ok [("a" : str); []; ("b" : str); []]
  /\ split "a<>b<><>c<" "<>" = Ok [("a" : str); ("b" : str); []; ("c<" : str)]
  /\ split "" "~" = Ok [[]]
  /\ split "a~b" "" = Raise ValueError_empty_separator.
Proof. repeat split; reflexivity. Qed.

Example strip_example : strip ("  a b " ++ [LF]) = ("a b" : str).
Proof. reflexivity. Qed.

Example text_lines_example :
  text_lines (universal_newlines ("a" ++ CR :: LF :: "b" ++ CR :: "c"))
  = [("a" ++ [LF] : str); ("b" ++ [LF] : str); ("c" : str)].
Proof. reflexivity. Qed.

Example dirname_examples :
  dirname "/d/e//in.txt" = ("/d/e" : str) /\ dirname "/in.txt" = ("/" : str)
  /\ dirname "in.txt" = [] /\ basename "/d/e/A.txt" = ("A.txt" : str).
Proof. repeat split; reflexivity. Qed.

Example splitext_examples :
  splitext "/d.x/A.b.txt" = (("/d.x/A.b" : str), (".txt" : str))
  /\ splitext "/d.x/..txt" = (("/d.x/..txt" : str), [])
  /\ splitext "/d.x/.a.txt" = (("/d.x/.a" : str), (".txt" : str))
  /\ splitext "/d.x/.txt" = (("/d.x/.txt" : str), [])
  /\ splitext "/d.x/A" = (("/d.x/A" : str), []).
Proof. repeat split; reflexivity. Qed.

Example path_join_examples :
  path_join "/d" "A.txt" = ("/d/A.txt" : str)
  /\ path_join "/d/" "A.txt" = ("/d/A.txt" : str)
  /\ path_join "/d" "/A.txt" = ("/A.txt" : str)
  /\ path_join "" "A.txt" = ("A.txt" : str).
Proof. repeat split; reflexivity. Qed.

Example str_of_Z_examples :
  str_of_Z 12 = ("12" : str) /\ str_of_Z 0 = ("0" : str) /\ str_of_Z (-3) = ("-3" : str).
Proof. repeat split; reflexivity. Qed.

Example first_seen_example :
  first_seen [("A" : str); ("B" : str); ("A" : str); ("C" : str); ("B" : str)]
  = [("A" : str); ("B" : str); ("C" : str)].
Proof. reflexivity. Qed.

Example group_lines_example :
  group_lines "~" ex_data_lines []
  = Ok [(("A" : str), [("1~A~10" ++ [LF] : str); ("3~A~30" ++ [LF] : str)]);
        (("B" : str), [("2~B~20" ++ [LF] : str)])].
Proof. reflexivity. Qed.

Example stage1_example :
  text_writes (new_events ex_world
     (split_file_by_instruction_code ex_abspath ex_realpath ex_makedirs_ok ex_text_ok
        "/d/in.txt" "~" ex_world).1)
  = [(("/d/intermediate/A.txt" : str), unlines ["id~code~amount"; "1~A~10"; "3~A~30"]%list);
     (("/d/intermediate/B.txt" : str), unlines ["id~code~amount"; "2~B~20"]%list)].
Proof. vm_compute. reflexivity. Qed.

Example stage2_example :
  (convert_text_to_excel ex_realpath ex_makedirs_ok ex_glob ex_read_csv ex_no_excel_error
     "/d/intermediate" (Some ("/d/excel_output" : str)) "~" 2 ex_world).2
  = Ok [("/d/excel_output/A_part1.xlsx" : str); ("/d/excel_output/A_part2.xlsx" : str);
        ("/d/excel_output/empty.xlsx" : str)].
Proof. vm_compute. reflexivity. Qed.

Example slice_examples :
  slice [1; 2; 3; 4; 5] 2 4 = [3; 4] /\ slice [1; 2; 3; 4; 5] 3 9 = [4; 5]
  /\ slice [1; 2; 3; 4; 5] 0 (-1) = [1; 2; 3; 4] /\ slice [1; 2; 3; 4; 5] (-1) (-2) = [].
Proof. repeat split; reflexivity. Qed.

(** ** Codes in first-met order *)

Lemma two_fields_code delimiter line :
  two_fields delimiter line ↔ ∃ k, instruction_code_of line delimiter = Ok k.
Proof.
  unfold two_fields, instruction_code_of, getitem. split.
  - intros (cols & -> & Hlen). simpl.
    destruct cols as [|a [|b cols]]; simpl in *; try lia. eauto.
  - intros [k Hk]. destruct (columns_of line delimiter) as [cols|]; simpl in *; [|done].
    exists cols. split; [done|].
    destruct cols as [|a [|b cols]]; simpl in *; try done; lia.
Qed.

Lemma codes_exist delimiter data :
  Forall (two_fields delimiter) data →
  ∃ codes, Forall2 (λ line c, instruction_code_of line delimiter = Ok c) data codes.
Proof.
  induction 1 as [|line data [k Hk]%two_fields_code _ [codes IH]].
  - exists []. constructor.
  - exists (k :: codes). by constructor.
Qed.

Lemma first_seen_elem codes k : k ∈ first_seen codes ↔ k ∈ codes.
Proof.
  induction codes as [|a codes IH]; simpl; [done|].
  rewrite !elem_of_cons, list_elem_of_filter, IH.
  destruct (decide (k = a)); naive_solver.
Qed.

Lemma first_seen_NoDup codes : NoDup (first_seen codes).
Proof.
  induction codes as [|a codes IH]; simpl; [constructor|].
  constructor; [|by apply NoDup_filter].
  rewrite list_elem_of_filter. naive_solver.
Qed.

Lemma first_seen_snoc codes k :
  first_seen (codes ++ [k])
  = if decide (k ∈ codes) then first_seen codes else first_seen codes ++ [k].
Proof.
  induction codes as [|a codes IH]; simpl; [done|].
  rewrite IH. destruct (decide (k ∈ codes)) as [Hin|Hnin].
  - rewrite decide_True by (by right). done.
  - destruct (decide (k = a)) as [->|Hne].
    + rewrite decide_True by (by left).
      rewrite filter_app, filter_cons_False by naive_solver.
      by rewrite filter_nil, app_nil_r.
    + rewrite decide_False by (rewrite elem_of_cons; naive_solver).
      rewrite filter_app, filter_cons_True by done. done.
Qed.

(** ** The grouping loop *)

Lemma group_lines_app delimiter l1 l2 g :
  group_lines delimiter (l1 ++ l2) g
  = result_bind (group_lines delimiter l1 g) (λ g', group_lines delimiter l2 g').
Proof.
  revert g. induction l1 as [|line l1 IH]; intros g; simpl; [done|].
  destruct (columns_of line delimiter) as [cols|]; simpl; [|done].
  destruct (getitem cols 1) as [k|]; simpl; [|done].
  apply IH.
Qed.

Lemma group_lines_step delimiter line k g :
  instruction_code_of line delimiter = Ok k →
  group_lines delimiter [line] g
  = Ok (dict_append k line (if dict_has k g then g else dict_new k g)).
Proof.
  unfold instruction_code_of. simpl.
  destruct (columns_of line delimiter) as [cols|]; simpl; [|done].
  intros ->. done.
Qed.

Lemma lines_of_code_snoc delimiter k data line :
  lines_of_code delimiter k (data ++ [line])
  = lines_of_code delimiter k data
    ++ (if decide (instruction_code_of line delimiter = Ok k) then [line] else []).
Proof.
  unfold lines_of_code. rewrite filter_app.
  destruct (decide _); [by rewrite filter_cons_True|by rewrite filter_cons_False].
Qed.

Lemma lines_of_code_nil delimiter k data codes :
  Forall2 (λ line c, instruction_code_of line delimiter = Ok c) data codes →
  k ∉ codes → lines_of_code delimiter k data = [].
Proof.
  unfold lines_of_code. induction 1 as [|line c data codes Hc _ IH]; intros Hk; [done|].
  rewrite filter_cons_False; [apply IH|]; rewrite ?Hc; set_solver.
Qed.

Lemma dict_has_groups_of delimiter data codes k :
  dict_has k (groups_of delimiter data codes) = bool_decide (k ∈ codes).
Proof.
  unfold dict_has, groups_of. apply eq_true_iff_eq.
  rewrite bool_decide_eq_true, <- first_seen_elem, existsb_exists.
  setoid_rewrite <- list_elem_of_In. setoid_rewrite list_elem_of_fmap.
  setoid_rewrite bool_decide_eq_true. naive_solver.
Qed.

(** The grouping loop computes, for the codes in first-met order, the lines
    of each code in file order. *)
Lemma group_lines_groups_of delimiter data codes :
  Forall2 (λ line c, instruction_code_of line delimiter = Ok c) data codes →
  group_lines delimiter data [] = Ok (groups_of delimiter data codes).
Proof.
  revert codes. induction data as [|line data IH] using rev_ind; intros codes Hall.
  - by apply Forall2_nil_inv_l in Hall as ->.
  - apply Forall2_app_inv_l in Hall as (cs & cs1 & Hcs & H1 & ->).
    apply Forall2_cons_inv_l in H1 as (k & ? & Hk & ->%Forall2_nil_inv_l & ->).
    rewrite group_lines_app, (IH _ Hcs). cbn [result_bind].
    rewrite (group_lines_step _ _ _ _ Hk). f_equal.
    rewrite dict_has_groups_of. unfold groups_of, dict_append, dict_new.
    rewrite first_seen_snoc. case_bool_decide as Hin.
    + rewrite decide_True by done. rewrite map_map. apply map_ext_in.
      intros c _. simpl. rewrite lines_of_code_snoc.
      case_bool_decide as Hck; subst.
      * by rewrite decide_True.
      * rewrite decide_False, app_nil_r; [done|congruence].
    + rewrite decide_False by done. rewrite !map_app, map_map. simpl.
      rewrite bool_decide_eq_true_2 by done. f_equal.
      * apply map_ext_in. intros c Hc%list_elem_of_In. simpl.
        apply (proj1 (first_seen_elem _ _)) in Hc.
        assert (c ≠ k) as Hck by (intros ->; exact (Hin Hc)).
        rewrite lines_of_code_snoc, bool_decide_eq_false_2 by done.
        rewrite decide_False, app_nil_r; [done|]. rewrite Hk. congruence.
      * rewrite lines_of_code_snoc, (lines_of_code_nil _ _ _ _ Hcs Hin).
        by rewrite decide_True.
Qed.

Lemma groups_of_keys delimiter data codes :
  (groups_of delimiter data codes).*1 = first_seen codes.
Proof. unfold groups_of. induction (first_seen codes); simpl; [done|]. by f_equal. Qed.

Lemma group_lines_ok_two_fields delimiter data g g' :
  group_lines delimiter data g = Ok g' → Forall (two_fields delimiter) data.
Proof.
  revert g. induction data as [|line data IH]; intros g; [constructor|]. simpl.
  destruct (columns_of line delimiter) as [cols|] eqn:Hc; simpl; [|done].
  destruct (getitem cols 1) as [k|] eqn:Hk; simpl; [|done].
  intros Hg. constructor; [|by eapply IH].
  apply two_fields_code. exists k. unfold instruction_code_of. by rewrite Hc.
Qed.

Lemma group_lines_few_fields delimiter data g :
  Exists (few_fields delimiter) data → group_lines delimiter data g = Raise IndexError.
Proof.
  revert g. induction data as [|line data IH]; intros g Hex.
  - by apply Exists_nil in Hex.
  - simpl. assert (∃ cols, columns_of line delimiter = Ok cols) as [cols Hc].
    { assert (delimiter ≠ []) as Hd.
      { apply Exists_exists in Hex as (l & _ & cs & Hcs & _).
        unfold columns_of, split in Hcs. by destruct delimiter. }
      unfold columns_of, split. destruct delimiter; [done|eauto]. }
    rewrite Hc. simpl. unfold getitem at 1.
    destruct (cols !! 1%nat) as [k|] eqn:Hk; simpl; [|done].
    apply IH. apply Exists_cons in Hex as [(cs & Hcs & Hlen)|]; [|done].
    rewrite Hc in Hcs. injection Hcs as <-.
    apply lookup_lt_Some in Hk. lia.
Qed.

Lemma concat_lines_of_code_cons delimiter line k0 data (K : list str) :
  instruction_code_of line delimiter = Ok k0 → NoDup K →
  concat (map (λ k, lines_of_code delimiter k (line :: data)) K)
  ≡ₚ (if decide (k0 ∈ K) then [line] else [])
     ++ concat (map (λ k, lines_of_code delimiter k data) K).
Proof.
  intros Hk0. unfold lines_of_code.
  induction 1 as [|a K Ha Hnd IH]; simpl.
  - done.
  - rewrite IH. destruct (decide (a = k0)) as [->|Hne].
    + rewrite filter_cons_True by done.
      rewrite (decide_True (P := k0 ∈ k0 :: K)) by set_solver.
      by rewrite decide_False by done.
    + rewrite filter_cons_False by congruence.
      destruct (decide (k0 ∈ K)) as [Hin|Hnin].
      * rewrite decide_True by set_solver. simpl. by rewrite Permutation_middle.
      * by rewrite decide_False by set_solver.
Qed.

Lemma concat_groups_of_perm delimiter data codes :
  Forall2 (λ line c, instruction_code_of line delimiter = Ok c) data codes →
  concat (groups_of delimiter data codes).*2 ≡ₚ data.
Proof.
  unfold groups_of. rewrite <- list_fmap_compose.
  assert (∀ K, NoDup K → codes ⊆ K →
    Forall2 (λ line c, instruction_code_of line delimiter = Ok c) data codes →
    concat ((λ k, lines_of_code delimiter k data) <$> K) ≡ₚ data) as Hgen.
  { intros K HK. revert codes. induction data as [|line data IH]; intros codes Hsub Hall.
    - clear. induction K; [done|]. simpl. by rewrite <- IHK.
    - apply Forall2_cons_inv_l in Hall as (k & cs & Hk & Hall & ->).
      rewrite (concat_lines_of_code_cons _ _ _ _ _ Hk HK).
      rewrite decide_True by set_solver. simpl. f_equiv.
      apply (IH cs); [set_solver|done]. }
  intros Hall. apply (Hgen _ (first_seen_NoDup codes)); [|done].
  intros k. by rewrite first_seen_elem.
Qed.

Lemma eq_reflexive_perm {A} (l1 l2 : list A) : l1 = l2 → l1 ≡ₚ l2.
Proof. by intros ->. Qed.

(** ** The shape of lines *)

Lemma lines_shape_cons l ls :
  lines_shape (l :: ls) →
  (terminated l ∨ (ls = [] ∧ l ≠ [] ∧ LF ∉ l)) ∧ lines_shape ls.
Proof. destruct ls; simpl; naive_solver. Qed.

Lemma lines_shape_cons_terminated l ls :
  terminated l → lines_shape ls → lines_shape (l :: ls).
Proof. destruct ls; simpl; naive_solver. Qed.

Lemma text_lines_shape s : lines_shape (text_lines s).
Proof.
  induction s as [|c s IH]; simpl; [done|].
  case_bool_decide as Hc.
  - subst. apply lines_shape_cons_terminated; [|done]. exists []. set_solver.
  - destruct (text_lines s) as [|l ls]; simpl.
    + right. set_solver.
    + apply lines_shape_cons in IH as [[Ht|(-> & Hl & Hnl)] Hls].
      * apply lines_shape_cons_terminated; [|done].
        destruct Ht as (body & -> & Hb). exists (c :: body). set_solver.
      * simpl. right. set_solver.
Qed.

Lemma text_lines_no_LF s : s ≠ [] → LF ∉ s → text_lines s = [s].
Proof.
  induction s as [|c s IH]; [done|]. intros _ Hnl. simpl.
  rewrite bool_decide_eq_false_2 by set_solver.
  destruct s as [|c' s]; [done|]. rewrite IH; [done|done|set_solver].
Qed.

Lemma text_lines_terminated l s :
  terminated l → text_lines (l ++ s) = l :: text_lines s.
Proof.
  intros (body & -> & Hb). induction body as [|c body IH]; simpl.
  - done.
  - rewrite bool_decide_eq_false_2 by set_solver. rewrite IH by set_solver. done.
Qed.

(** Reading back what was written line by line gives the lines. *)
Lemma text_lines_concat ls : lines_shape ls → text_lines (concat ls) = ls.
Proof.
  induction ls as [|l ls IH]; [done|].
  intros [[Ht|(-> & Hl & Hnl)] Hls]%lines_shape_cons; simpl.
  - rewrite text_lines_terminated by done. by rewrite IH.
  - rewrite app_nil_r. by apply text_lines_no_LF.
Qed.

Lemma lines_shape_drop n ls : lines_shape ls → lines_shape (drop n ls).
Proof.
  revert ls. induction n as [|n IH]; intros ls; [by rewrite drop_0|].
  destruct ls as [|l ls]; [done|]. intros [_ H]%lines_shape_cons. by apply IH.
Qed.

Lemma lines_shape_filter (P : str → Prop) `{∀ x, Decision (P x)} ls :
  lines_shape ls → lines_shape (filter P ls).
Proof.
  induction ls as [|l ls IH]; [done|].
  intros [Hl Hls]%lines_shape_cons. destruct (decide (P l)).
  - rewrite filter_cons_True by done. destruct Hl as [Ht|(-> & Hl & Hnl)].
    + apply lines_shape_cons_terminated; auto.
    + rewrite filter_nil. simpl. by right.
  - rewrite filter_cons_False by done. auto.
Qed.

Lemma lines_shape_elem ls r :
  lines_shape ls → r ∈ ls → terminated r ∨ (last ls = Some r ∧ r ≠ [] ∧ LF ∉ r).
Proof.
  induction ls as [|l ls IH]; [by intros _ ?%elem_of_nil|].
  intros [Hl Hls]%lines_shape_cons [->|Hr]%elem_of_cons.
  - destruct Hl as [?|(-> & ? & ?)]; [by left|by right].
  - destruct (IH Hls Hr) as [?|(Hlast & ?)]; [by left|right].
    split; [|done]. destruct ls; [done|]. by rewrite last_cons_cons.
Qed.

(** ** Stripping *)

Lemma lstrip_snoc_space s c :
  isspace c = true →
  lstrip (s ++ [c]) = match lstrip s with [] => [] | t => t ++ [c] end.
Proof.
  intros Hc. induction s as [|a s IH]; simpl; [by rewrite Hc|].
  destruct (isspace a); done.
Qed.

Lemma rstrip_snoc_space s c : isspace c = true → rstrip (s ++ [c]) = rstrip s.
Proof. intros Hc. unfold rstrip. rewrite rev_app_distr. simpl. by rewrite Hc. Qed.

Lemma strip_snoc_space s c : isspace c = true → strip (s ++ [c]) = strip s.
Proof.
  intros Hc. unfold strip. rewrite lstrip_snoc_space by done.
  destruct (lstrip s) as [|a t] eqn:E; [done|]. by apply rstrip_snoc_space.
Qed.

Lemma lstrip_elem x s : x ∈ lstrip s → x ∈ s.
Proof.
  induction s as [|a s IH]; simpl; [done|].
  destruct (isspace a); set_solver.
Qed.

Lemma elem_of_rev {A} (x : A) l : x ∈ rev l ↔ x ∈ l.
Proof. rewrite !list_elem_of_In. symmetry. apply in_rev. Qed.

Lemma strip_elem x s : x ∈ strip s → x ∈ s.
Proof.
  unfold strip, rstrip. rewrite elem_of_rev.
  intros Hx%lstrip_elem. apply lstrip_elem. by apply elem_of_rev.
Qed.

(** The stripped first line of a file holds no line feed. *)
Lemma strip_line_no_LF l : terminated l ∨ LF ∉ l → LF ∉ strip l.
Proof.
  intros [(body & -> & Hb)|Hl].
  - rewrite strip_snoc_space by done. by intros ?%strip_elem.
  - by intros ?%strip_elem.
Qed.

(** ** Lines as the specification splits them *)

Lemma chomp_snoc body : chomp (body ++ [LF]) = body.
Proof.
  unfold chomp. rewrite rev_app_distr. cbn [rev app].
  rewrite bool_decide_eq_true_2 by done. apply rev_involutive.
Qed.

(** Stripping a tidy line only takes its line feed away. *)
Lemma tidy_strip line : tidy line → strip line = chomp line.
Proof.
  unfold tidy. destruct (rev line) as [|c r] eqn:Hr.
  { apply (f_equal (@rev _)) in Hr. rewrite rev_involutive in Hr. by subst. }
  apply (f_equal (@rev _)) in Hr. rewrite rev_involutive in Hr. cbn [rev] in Hr. subst line.
  destruct (decide (c = LF)) as [->|Hc].
  - rewrite chomp_snoc. intros Ht. by rewrite strip_snoc_space.
  - unfold chomp. rewrite rev_app_distr, rev_involutive. cbn [rev app].
    by rewrite bool_decide_eq_false_2.
Qed.

(** On a tidy line the program splits as the specification does. *)
Lemma tidy_columns line delimiter :
  tidy line → columns_of line delimiter = spec_fields line delimiter.
Proof. intros Ht. unfold columns_of, spec_fields. by rewrite tidy_strip. Qed.

Lemma tidy_code line delimiter k :
  tidy line → instruction_code_of line delimiter = Ok k ↔ spec_key line delimiter = Some k.
Proof.
  intros Ht. unfold instruction_code_of, spec_key, getitem. rewrite tidy_columns by done.
  destruct (spec_fields line delimiter) as [fields|e]; cbn [result_bind]; [|done].
  destruct (fields !! 1%nat); split; congruence.
Qed.

Example tab_delimiter_examples :
  spec_key (TAB :: "A" ++ TAB :: "x" ++ [LF]) [TAB] = Some ("A" : str)
  /\ instruction_code_of (TAB :: "A" ++ TAB :: "x" ++ [LF]) [TAB] = Ok ("x" : str)
  /\ spec_fields ("1" ++ [TAB; LF]) [TAB] = Ok [("1" : str); []]
  /\ instruction_code_of ("1" ++ [TAB; LF]) [TAB] = Raise IndexError.
Proof. repeat split; reflexivity. Qed.

(** ** The codes of the data lines *)

Lemma codes_of_Forall2 delimiter data :
  Forall (two_fields delimiter) data →
  Forall2 (λ line c, instruction_code_of line delimiter = Ok c) data
    (codes_of delimiter data).
Proof.
  induction 1 as [|line data [k Hk]%two_fields_code _ IH]; [constructor|].
  unfold codes_of. cbn [omap list_omap]. rewrite Hk. by constructor.
Qed.

Lemma code_of_line_elem delimiter data codes line k :
  Forall2 (λ line c, instruction_code_of line delimiter = Ok c) data codes →
  line ∈ data → instruction_code_of line delimiter = Ok k → k ∈ codes.
Proof.
  intros Hc Hline Hk.
  induction Hc as [|l c ls cs Hlc _ IH]; [by apply elem_of_nil in Hline|].
  apply elem_of_cons in Hline as [->|Hl]; [|right; auto].
  rewrite Hk in Hlc. injection Hlc as ->. by left.
Qed.

(** ** The files after the events of a run *)

Lemma replay_app realpath fs evs1 evs2 :
  replay realpath fs (evs1 ++ evs2) = replay realpath (replay realpath fs evs1) evs2.
Proof. apply foldl_app. Qed.

Lemma written_paths_app evs1 evs2 :
  written_paths (evs1 ++ evs2) = written_paths evs1 ++ written_paths evs2.
Proof. apply omap_app. Qed.

(** A file that no event writes is as it was. *)
Lemma replay_other realpath fs evs q :
  q ∉ realpath <$> written_paths evs → replay realpath fs evs !! q = fs !! q.
Proof.
  revert fs. induction evs as [|e evs IH]; intros fs Hq; [done|].
  cbn [replay foldl]. fold (replay realpath (replay_event realpath fs e) evs).
  destruct e as [p|p c|p sep|p sheet df|l]; cbn [written_paths omap list_omap] in Hq;
    fold (written_paths evs) in Hq; cbn [replay_event].
  1,3,5: by apply IH.
  all: rewrite fmap_cons in Hq; apply not_elem_of_cons in Hq as [Hne Hq];
    rewrite IH by done; by rewrite lookup_insert_ne.
Qed.

(** A file that some event writes does not depend on what was there. *)
Lemma replay_written realpath fs1 fs2 evs q :
  q ∈ realpath <$> written_paths evs →
  replay realpath fs1 evs !! q = replay realpath fs2 evs !! q.
Proof.
  revert fs1 fs2. induction evs as [|e evs IH]; intros fs1 fs2 Hq.
  { by apply elem_of_nil in Hq. }
  cbn [replay foldl].
  fold (replay realpath (replay_event realpath fs1 e) evs).
  fold (replay realpath (replay_event realpath fs2 e) evs).
  destruct (decide (q ∈ realpath <$> written_paths evs)) as [Hin|Hnin]; [by apply IH|].
  rewrite !replay_other by done.
  destruct e as [p|p c|p sep|p sheet df|l]; cbn [written_paths omap list_omap] in Hq;
    fold (written_paths evs) in Hq; try done.
  all: rewrite fmap_cons in Hq; apply elem_of_cons in Hq as [->|Hq]; [|done];
    cbn [replay_event]; by rewrite !lookup_insert_eq.
Qed.

Lemma replay_stage1_events realpath fs path evs line :
  replay realpath fs (EvMakedirs path :: evs ++ [EvPrint line]) = replay realpath fs evs.
Proof.
  change (EvMakedirs path :: evs ++ [EvPrint line])
    with ([EvMakedirs path] ++ evs ++ [EvPrint line]).
  by rewrite !replay_app.
Qed.

(** Doing the same writes again changes nothing. *)
Lemma replay_twice realpath fs evs :
  replay realpath (replay realpath fs evs) evs = replay realpath fs evs.
Proof.
  apply map_eq. intros q.
  destruct (decide (q ∈ realpath <$> written_paths evs)) as [Hin|Hnin].
  - by apply replay_written.
  - by rewrite replay_other.
Qed.

(** ** The writing loop *)

Lemma new_events_app w w' evs : trace w' = trace w ++ evs → new_events w w' = evs.
Proof. unfold new_events. intros ->. by rewrite drop_app_length. Qed.

Lemma written_items_all text_error output_folder header items :
  Forall (λ kv, text_error (artifact_path output_folder kv.1)
                  (artifact_content header kv.2) = None) items →
  written_items text_error output_folder header items = items
  ∧ write_groups_error text_error output_folder header items = None.
Proof.
  induction 1 as [|[k recs] items Hk _ [IH1 IH2]]; [done|].
  cbn [written_items write_groups_error]. cbn [fst snd] in Hk. rewrite Hk.
  split; [by f_equal|done].
Qed.

Lemma written_items_no_error text_error output_folder header items :
  write_groups_error text_error output_folder header items = None →
  written_items text_error output_folder header items = items.
Proof.
  induction items as [|[k recs] items IH]; [done|].
  cbn [written_items write_groups_error].
  destruct (text_error _ _); [done|]. intros H. f_equal. by apply IH.
Qed.

Lemma written_items_elem text_error output_folder header items kv :
  kv ∈ written_items text_error output_folder header items → kv ∈ items.
Proof.
  induction items as [|[k recs] items IH]; [done|].
  cbn [written_items]. destruct (text_error _ _); [by intros ?%elem_of_nil|].
  intros [->|Hin]%elem_of_cons; [by left|right; auto].
Qed.

(** What the writing loop does: it writes the artifacts in turn until one
    cannot be written, and raises the exception of that one. *)
Lemma write_groups_run realpath text_error output_folder header items w :
  write_groups realpath text_error output_folder header items w
  = let evs := write_events output_folder header
                 (written_items text_error output_folder header items) in
    (mkWorld (replay realpath (files w) evs) (trace w ++ evs),
     match write_groups_error text_error output_folder header items with
     | Some e => Raise e
     | None => Ok tt
     end).
Proof.
  revert w. induction items as [|[k recs] items IH]; intros [fs tr].
  { cbn. by rewrite app_nil_r. }
  cbn [write_groups written_items write_groups_error]. unfold bind, write_text.
  fold (artifact_path output_folder k).
  destruct (text_error (artifact_path output_folder k) (artifact_content header recs)).
  { cbn. by rewrite app_nil_r. }
  rewrite IH. cbv zeta. cbn [files trace write_events map fst snd replay foldl replay_event].
  by rewrite <- app_assoc.
Qed.

Lemma text_writes_write_events output_folder header items :
  text_writes (write_events output_folder header items)
  = map (λ kv, (artifact_path output_folder kv.1, artifact_content header kv.2)) items.
Proof. induction items as [|[k recs] items IH]; simpl; [done|]. by f_equal. Qed.

Lemma excel_writes_write_events output_folder header items :
  excel_writes (write_events output_folder header items) = [].
Proof. by induction items as [|[k recs] items IH]. Qed.

Lemma csv_reads_write_events output_folder header items :
  csv_reads (write_events output_folder header items) = [].
Proof. by induction items as [|[k recs] items IH]. Qed.

Lemma written_paths_write_events output_folder header items :
  written_paths (write_events output_folder header items)
  = artifact_path output_folder <$> items.*1.
Proof. induction items as [|[k recs] items IH]; [done|]. cbn. by f_equal. Qed.

Lemma text_writes_stage1 output_folder header items tail :
  text_writes tail = [] →
  text_writes (EvMakedirs output_folder :: write_events output_folder header items ++ tail)
  = map (λ kv, (artifact_path output_folder kv.1, artifact_content header kv.2)) items.
Proof.
  intros Ht. unfold text_writes in *. cbn [omap list_omap]. rewrite omap_app, Ht.
  rewrite app_nil_r. apply text_writes_write_events.
Qed.

Lemma artifact_paths output_folder header (g : dict) :
  (map (λ kv, (artifact_path output_folder kv.1, artifact_content header kv.2)) g).*1
  = map (artifact_path output_folder) g.*1.
Proof. induction g as [|kv g IH]; [done|]. cbn. by f_equal. Qed.

(** When the artifacts are pairwise different files, each is on disk as
    written. *)
Lemma replay_write_events realpath output_folder header items fs k recs :
  NoDup (realpath <$> (artifact_path output_folder <$> items.*1)) →
  (k, recs) ∈ items →
  replay realpath fs (write_events output_folder header items)
    !! realpath (artifact_path output_folder k)
  = Some (TextFile (artifact_content header recs)).
Proof.
  revert fs. induction items as [|[k0 recs0] items IH]; intros fs Hnd Hin.
  { by apply elem_of_nil in Hin. }
  cbn in Hnd. apply NoDup_cons in Hnd as [Hfresh Hnd].
  cbn [write_events map replay foldl replay_event fst snd].
  fold (write_events output_folder header items).
  fold (replay realpath (<[realpath (artifact_path output_folder k0)
                            := TextFile (artifact_content header recs0)]> fs)
          (write_events output_folder header items)).
  apply elem_of_cons in Hin as [[= -> ->]|Hin].
  - rewrite replay_other by (by rewrite written_paths_write_events).
    by rewrite lookup_insert_eq.
  - by apply IH.
Qed.

Lemma plain_artifact_name k : SLASH ∉ k → plain_name (k ++ ".txt").
Proof.
  intros Hk. unfold plain_name. split_and!.
  - rewrite elem_of_app. intros [?|Hin]; [done|]. vm_compute in Hin.
    repeat (apply elem_of_cons in Hin as [Hin|Hin]; [discriminate Hin|]).
    by apply elem_of_nil in Hin.
  - by destruct k.
  - intros H. apply (f_equal length) in H. rewrite length_app in H.
    change (length (".txt" : str)) with 4%nat in H.
    change (length ("." : str)) with 1%nat in H. lia.
  - intros H. apply (f_equal length) in H. rewrite length_app in H.
    change (length (".txt" : str)) with 4%nat in H.
    change (length (".." : str)) with 2%nat in H. lia.
Qed.

(** The artifacts of codes without a slash are different files when the
    names of the folder are apart. *)
Lemma artifact_files_apart realpath output_folder (codes : list str) :
  names_apart realpath output_folder → Forall (λ k, SLASH ∉ k) codes → NoDup codes →
  NoDup (realpath <$> (artifact_path output_folder <$> codes)).
Proof.
  intros Hap Hplain Hnd. rewrite <- list_fmap_compose.
  apply NoDup_fmap_2_strong; [|done].
  intros k1 k2 H1 H2 Heq. cbn in Heq. unfold artifact_path in Heq.
  apply Hap in Heq.
  - by eapply app_inv_tail.
  - apply plain_artifact_name. by apply (proj1 (Forall_forall _ _) Hplain).
  - apply plain_artifact_name. by apply (proj1 (Forall_forall _ _) Hplain).
Qed.

(** ** A run of stage 1 *)

Section Stage1.

Variable abspath : str -> str.

Variable realpath : str -> str.

Variable makedirs_error : str -> option exn.

Variable text_error : str -> str -> option exn.

(** When the folder cannot be created the stage ends there. *)
Lemma split_file_no_folder input_file delimiter w e :
  makedirs_error (intermediate_folder abspath input_file) = Some e →
  split_file_by_instruction_code abspath realpath makedirs_error text_error
    input_file delimiter w
  = (w, Raise e).
Proof.
  intros He. unfold split_file_by_instruction_code, bind, makedirs.
  fold (intermediate_folder abspath input_file). by rewrite He.
Qed.

(** What a run of stage 1 does once the folder has been created and the
    input file read. *)
Lemma split_file_run input_file delimiter w content :
  files w !! realpath input_file = Some (TextFile content) →
  makedirs_error (intermediate_folder abspath input_file) = None →
  split_file_by_instruction_code abspath realpath makedirs_error text_error
    input_file delimiter w
  = let output_folder := intermediate_folder abspath input_file in
    let w1 := emit (EvMakedirs output_folder) w in
    match text_lines (universal_newlines content) with
    | [] => (w1, Raise IndexError)
    | line0 :: data_lines =>
        match group_lines delimiter data_lines [] with
        | Raise e => (w1, Raise e)
        | Ok grouped_data =>
            let evs := write_events output_folder (strip line0)
                         (written_items text_error output_folder (strip line0)
                            grouped_data) in
            let w2 := mkWorld (replay realpath (files w) evs)
                        (trace w ++ EvMakedirs output_folder :: evs) in
            match write_groups_error text_error output_folder (strip line0)
                    grouped_data with
            | Some e => (w2, Raise e)
            | None =>
                (emit (EvPrint ("Files created for each Instruction Code in: "
                                ++ output_folder)) w2,
                 Ok output_folder)
            end
        end
    end.
Proof.
  intros Hf Hm. unfold split_file_by_instruction_code, bind, makedirs, open_readlines,
    lift, print, modify, ret.
  fold (intermediate_folder abspath input_file). rewrite Hm. cbn [emit files]. rewrite Hf.
  destruct (text_lines (universal_newlines content)) as [|line0 data]; [done|].
  cbn [getitem lookup list_lookup drop]. rewrite drop_0.
  destruct (group_lines delimiter data []) as [g|e]; [|done].
  rewrite write_groups_run. cbv zeta. cbn [files trace emit].
  rewrite <- app_assoc. cbn [app].
  by destruct (write_groups_error _ _ _ g).
Qed.

(** What the stage does and how it ends depends on the world only through
    the text of the input file. *)
Lemma stage1_run_same input_file delimiter content :
  ∃ r evs,
    ∀ w, files w !! realpath input_file = Some (TextFile content) →
      split_file_by_instruction_code abspath realpath makedirs_error text_error
        input_file delimiter w
      = (mkWorld (replay realpath (files w) evs) (trace w ++ evs), r).
Proof.
  destruct (makedirs_error (intermediate_folder abspath input_file)) as [e|] eqn:Hm.
  { exists (Raise e), []. intros [fs tr] Hf.
    rewrite (split_file_no_folder _ _ _ _ Hm). cbn. by rewrite app_nil_r. }
  destruct (text_lines (universal_newlines content)) as [|line0 data] eqn:Hl.
  { eexists _, [EvMakedirs _]. intros w Hf.
    by rewrite (split_file_run _ _ _ _ Hf Hm), Hl. }
  destruct (group_lines delimiter data []) as [g|e] eqn:Hg.
  2:{ eexists _, [EvMakedirs _]. intros w Hf.
      by rewrite (split_file_run _ _ _ _ Hf Hm), Hl, Hg. }
  destruct (write_groups_error text_error (intermediate_folder abspath input_file)
              (strip line0) g) as [e|] eqn:He.
  - eexists _, (EvMakedirs _ :: write_events _ _ _). intros w Hf.
    rewrite (split_file_run _ _ _ _ Hf Hm), Hl, Hg. cbv zeta. rewrite He. reflexivity.
  - exists (Ok (intermediate_folder abspath input_file)),
      (EvMakedirs (intermediate_folder abspath input_file)
       :: write_events (intermediate_folder abspath input_file) (strip line0)
            (written_items text_error (intermediate_folder abspath input_file)
               (strip line0) g)
       ++ [EvPrint ("Files created for each Instruction Code in: "
                    ++ intermediate_folder abspath input_file)]).
    intros w Hf.
    rewrite (split_file_run _ _ _ _ Hf Hm), Hl, Hg. cbv zeta. rewrite He.
    unfold emit. cbn [files trace]. rewrite replay_stage1_events.
    by rewrite <- app_assoc.
Qed.

(** What the stage does when the data lines have codes and every artifact
    can be written. *)
Lemma stage1_events_ok input_file delimiter w content line0 data_lines codes :
  files w !! realpath input_file = Some (TextFile content) →
  text_lines (universal_newlines content) = line0 :: data_lines →
  Forall2 (λ line c, instruction_code_of line delimiter = Ok c) data_lines codes →
  let output_folder := intermediate_folder abspath input_file in
  let items := groups_of delimiter data_lines codes in
  makedirs_error output_folder = None →
  Forall (λ kv, text_error (artifact_path output_folder kv.1)
                  (artifact_content (strip line0) kv.2) = None) items →
  split_file_by_instruction_code abspath realpath makedirs_error text_error
    input_file delimiter w
  = (mkWorld (replay realpath (files w) (write_events output_folder (strip line0) items))
       (trace w ++ EvMakedirs output_folder
                   :: write_events output_folder (strip line0) items
                   ++ [EvPrint ("Files created for each Instruction Code in: "
                                ++ output_folder)]),
     Ok output_folder).
Proof.
  intros Hf Hl Hc. cbv zeta. intros Hm Hw.
  rewrite (split_file_run _ _ _ _ Hf Hm), Hl. cbv zeta.
  rewrite (group_lines_groups_of _ _ _ Hc).
  destruct (written_items_all _ _ _ _ Hw) as [-> ->].
  unfold emit. cbn [files trace]. by rewrite <- app_assoc.
Qed.

Lemma stage1_events_raise input_file delimiter w content line0 data_lines e :
  files w !! realpath input_file = Some (TextFile content) →
  text_lines (universal_newlines content) = line0 :: data_lines →
  makedirs_error (intermediate_folder abspath input_file) = None →
  group_lines delimiter data_lines [] = Raise e →
  split_file_by_instruction_code abspath realpath makedirs_error text_error
    input_file delimiter w
  = (emit (EvMakedirs (intermediate_folder abspath input_file)) w, Raise e).
Proof. intros Hf Hl Hm He. by rewrite (split_file_run _ _ _ _ Hf Hm), Hl, He. Qed.

(** The text files the stage writes: none, or the artifacts of the first
    items of the group mapping. *)
Lemma stage1_text_writes input_file delimiter w content line0 data_lines :
  files w !! realpath input_file = Some (TextFile content) →
  text_lines (universal_newlines content) = line0 :: data_lines →
  let output_folder := intermediate_folder abspath input_file in
  let run := split_file_by_instruction_code abspath realpath makedirs_error text_error
               input_file delimiter w in
  text_writes (new_events w run.1) = []
  ∨ ∃ codes,
      Forall2 (λ line c, instruction_code_of line delimiter = Ok c) data_lines codes
      ∧ text_writes (new_events w run.1)
        = map (λ kv, (artifact_path output_folder kv.1,
                      artifact_content (strip line0) kv.2))
            (written_items text_error output_folder (strip line0)
               (groups_of delimiter data_lines codes))
      ∧ (∀ out, run.2 = Ok out →
           out = output_folder
           ∧ written_items text_error output_folder (strip line0)
               (groups_of delimiter data_lines codes)
             = groups_of delimiter data_lines codes).
Proof.
  intros Hf Hl. cbv zeta.
  destruct (makedirs_error (intermediate_folder abspath input_file)) as [e|] eqn:Hm.
  { left. rewrite (split_file_no_folder _ _ _ _ Hm). cbn [fst].
    by erewrite new_events_app by (by rewrite app_nil_r). }
  destruct (group_lines delimiter data_lines []) as [g|e] eqn:Hg.
  2:{ left. rewrite (stage1_events_raise _ _ _ _ _ _ _ Hf Hl Hm Hg). cbn [fst].
      by erewrite new_events_app by reflexivity. }
  destruct (codes_exist _ _ (group_lines_ok_two_fields _ _ _ _ Hg)) as [codes Hc].
  right. exists codes. split; [done|].
  rewrite (split_file_run _ _ _ _ Hf Hm), Hl, Hg. cbv zeta.
  rewrite (group_lines_groups_of _ _ _ Hc) in Hg. injection Hg as <-.
  destruct (write_groups_error _ _ _ _) as [e|] eqn:He; cbn [fst snd].
  - split; [|done]. erewrite new_events_app by reflexivity.
    rewrite <- (app_nil_r (write_events _ _ _)). by apply text_writes_stage1.
  - split.
    + erewrite new_events_app; [|cbn [emit trace]; by rewrite <- app_assoc].
      by apply text_writes_stage1.
    + intros out [= <-]. split; [done|]. by apply written_items_no_error.
Qed.

(** ** The properties of stage 1 *)

Lemma lines_of_code_tidy delimiter k data :
  Forall tidy data →
  lines_of_code delimiter k data = filter (λ line, spec_key line delimiter = Some k) data.
Proof.
  unfold lines_of_code. induction 1 as [|line data Ht _ IH]; [done|].
  rewrite !filter_cons, IH. pose proof (tidy_code line delimiter k Ht) as Hiff.
  destruct (decide (instruction_code_of line delimiter = Ok k)) as [H|H];
    destruct (decide (spec_key line delimiter = Some k)) as [H'|H']; [done| | |done].
  - destruct H'. by apply Hiff.
  - destruct H. by apply Hiff.
Qed.

(** C1, as the program has it.  When every data line, stripped of the white
    space at both its ends, has at least two fields, the grouping loop
    succeeds; no code has two groups; the group of a code holds exactly the
    data lines whose stripped form has that code as its field at index 1, in
    the order of the file; every data line is in the group of its code and
    in no other; and the groups together hold the data lines, each as often
    as the file.  When the data lines are tidy, this is the grouping by the
    field at index 1 of the specification. *)
Theorem C1_grouping_partitions_in_order (delimiter : str) (data_lines : list str) :
  Forall (two_fields delimiter) data_lines →
  (∃ grouped_data,
     group_lines delimiter data_lines [] = Ok grouped_data
     ∧ NoDup grouped_data.*1
     ∧ (∀ k records, (k, records) ∈ grouped_data →
          records = lines_of_code delimiter k data_lines)
     ∧ (∀ line, line ∈ data_lines →
          ∃ k records,
            instruction_code_of line delimiter = Ok k
            ∧ (k, records) ∈ grouped_data ∧ line ∈ records
            ∧ ∀ k' records', (k', records') ∈ grouped_data → line ∈ records' →
                k' = k ∧ records' = records)
     ∧ concat grouped_data.*2 ≡ₚ data_lines)
  ∧ (Forall tidy data_lines → grouping_keyed_by_field_1 delimiter data_lines).
Proof.
  intros Hwf. destruct (codes_exist _ _ Hwf) as [codes Hcodes].
  assert (∀ k records, (k, records) ∈ groups_of delimiter data_lines codes →
            records = lines_of_code delimiter k data_lines) as Hrec.
  { unfold groups_of. intros k records (k0 & [= -> ->] & _)%list_elem_of_fmap. done. }
  assert (∀ line, line ∈ data_lines →
            ∃ k, instruction_code_of line delimiter = Ok k
                 ∧ (k, lines_of_code delimiter k data_lines)
                   ∈ groups_of delimiter data_lines codes
                 ∧ line ∈ lines_of_code delimiter k data_lines) as Hmem.
  { intros line Hline.
    pose proof (proj1 (Forall_forall _ _) Hwf line Hline) as Htf.
    apply (proj1 (two_fields_code _ _)) in Htf as [k Hk].
    exists k. split_and!; [done| |].
    - unfold groups_of. apply list_elem_of_fmap. exists k. split; [done|].
      apply first_seen_elem. by eapply code_of_line_elem.
    - unfold lines_of_code. by apply list_elem_of_filter. }
  split.
  - exists (groups_of delimiter data_lines codes). split_and!.
    + by apply group_lines_groups_of.
    + rewrite groups_of_keys. apply first_seen_NoDup.
    + done.
    + intros line Hline. destruct (Hmem line Hline) as (k & Hk & Hin & Hl).
      exists k, (lines_of_code delimiter k data_lines). split_and!; [done..|].
      intros k' records' Hin' Hl'. rewrite (Hrec _ _ Hin') in Hl' |- *.
      unfold lines_of_code in Hl'. apply list_elem_of_filter in Hl' as [Hk' _].
      rewrite Hk in Hk'. by injection Hk' as ->.
    + by apply concat_groups_of_perm.
  - intros Htidy _. exists (groups_of delimiter data_lines codes). split_and!.
    + by apply group_lines_groups_of.
    + rewrite groups_of_keys. apply first_seen_NoDup.
    + intros k records Hin. rewrite (Hrec _ _ Hin). by apply lines_of_code_tidy.
    + intros line Hline. destruct (Hmem line Hline) as (k & Hk & Hin & Hl).
      exists k, (lines_of_code delimiter k data_lines). split_and!; [|done..].
      apply tidy_code; [|done]. by apply (proj1 (Forall_forall _ _) Htidy).
Qed.

(** C3, as the program has it.  When some data line has fewer than two
    fields, the stage, once it has created its folder, raises the built-in
    [IndexError] of the failed [columns[1]], which names no line, and it
    does so before anything is written: the files are as before and the run
    has only created the folder. *)
Theorem C3_malformed_line_raises_IndexError input_file delimiter w content line0 data_lines :
  files w !! realpath input_file = Some (TextFile content) →
  text_lines (universal_newlines content) = line0 :: data_lines →
  makedirs_error (intermediate_folder abspath input_file) = None →
  Exists (few_fields delimiter) data_lines →
  split_file_by_instruction_code abspath realpath makedirs_error text_error
    input_file delimiter w
  = (mkWorld (files w) (trace w ++ [EvMakedirs (intermediate_folder abspath input_file)]),
     Raise (Exn "IndexError" "list index out of range")).
Proof.
  intros Hf Hl Hm Hex. apply (stage1_events_raise _ _ _ _ _ _ _ Hf Hl Hm).
  by apply group_lines_few_fields.
Qed.

(** C5, as the program has it.  Take an input with a header whose data
    lines all have two fields, and let the artifacts be, for the codes in
    the order in which they are first met, the header line followed by the
    lines of the code.  When the folder can be created, every artifact can
    be written and the paths of the artifacts name pairwise different files,
    the stage returns, these artifacts are what it writes, in this order,
    each is on disk under its path after the run, each starts with the
    header line, and the artifacts without their first lines, joined in
    this order, are the data lines up to order, none lost and none twice. *)
Theorem C5_rejoined_artifacts_are_the_data_lines input_file delimiter w content line0 data_lines :
  files w !! realpath input_file = Some (TextFile content) →
  text_lines (universal_newlines content) = line0 :: data_lines →
  Forall (two_fields delimiter) data_lines →
  let output_folder := intermediate_folder abspath input_file in
  let artifacts :=
    (λ k, (artifact_path output_folder k,
           artifact_content (strip line0) (lines_of_code delimiter k data_lines)))
    <$> first_seen (codes_of delimiter data_lines) in
  makedirs_error output_folder = None →
  Forall (λ a, text_error a.1 a.2 = None) artifacts →
  NoDup (realpath <$> artifacts.*1) →
  let run := split_file_by_instruction_code abspath realpath makedirs_error text_error
               input_file delimiter w in
  run.2 = Ok output_folder
  ∧ text_writes (new_events w run.1) = artifacts
  ∧ Forall (λ a, files run.1 !! realpath a.1 = Some (TextFile a.2)) artifacts
  ∧ Forall (λ a, ∃ rest, text_lines a.2 = (strip line0 ++ [LF]) :: rest) artifacts
  ∧ rejoin artifacts ≡ₚ data_lines.
Proof.
  intros Hf Hl Hwf. cbv zeta. intros Hm Hw Hnd.
  pose proof (codes_of_Forall2 _ _ Hwf) as Hc.
  set (codes := codes_of delimiter data_lines) in *.
  pose (folder := intermediate_folder abspath input_file).
  assert (map (λ kv, (artifact_path folder kv.1, artifact_content (strip line0) kv.2))
            (groups_of delimiter data_lines codes)
          = (λ k, (artifact_path folder k,
                   artifact_content (strip line0) (lines_of_code delimiter k data_lines)))
            <$> first_seen codes) as Harts.
  { unfold groups_of. by rewrite map_map. }
  rewrite (stage1_events_ok _ delimiter _ _ _ _ _ Hf Hl Hc Hm).
  2:{ apply Forall_forall. intros [k recs] Hin. cbn [fst snd].
      unfold groups_of in Hin. apply list_elem_of_fmap in Hin as (k0 & [= -> ->] & Hk0).
      apply (proj1 (Forall_forall _ _) Hw
               (artifact_path folder k0,
                artifact_content (strip line0) (lines_of_code delimiter k0 data_lines))).
      apply list_elem_of_fmap. by exists k0. }
  cbn [fst snd].
  pose proof (text_lines_shape (universal_newlines content)) as Hshape.
  rewrite Hl in Hshape. apply lines_shape_cons in Hshape as [H0 Hdata].
  assert (∀ k,
    text_lines (artifact_content (strip line0) (lines_of_code delimiter k data_lines))
    = (strip line0 ++ [LF]) :: lines_of_code delimiter k data_lines) as Hback.
  { intros k. unfold artifact_content.
    rewrite text_lines_terminated, text_lines_concat; [done|by apply lines_shape_filter|].
    exists (strip line0). split; [done|]. apply strip_line_no_LF.
    destruct H0 as [?|(_ & _ & ?)]; auto. }
  split_and!.
  - done.
  - erewrite new_events_app by reflexivity.
    rewrite text_writes_stage1 by done. exact Harts.
  - apply Forall_forall. intros a (k & -> & Hk)%list_elem_of_fmap. cbn [fst snd files].
    apply replay_write_events.
    + rewrite groups_of_keys. rewrite <- list_fmap_compose.
      rewrite <- !list_fmap_compose in Hnd. exact Hnd.
    + unfold groups_of. apply list_elem_of_fmap. by exists k.
  - apply Forall_forall. intros a (k & -> & Hk)%list_elem_of_fmap. cbn [fst snd].
    rewrite Hback. eauto.
  - trans (concat (groups_of delimiter data_lines codes).*2);
      [|by apply concat_groups_of_perm].
    unfold rejoin, groups_of. apply eq_reflexive_perm. clear Hw Hnd Harts.
    induction (first_seen codes) as [|k K IH]; [done|].
    cbn [map fmap list_fmap concat fst snd]. by rewrite Hback, IH.
Qed.

(** C8, as the program has it.  Every artifact written is the first line of
    the source stripped of the white space at both its ends, a line feed,
    and then the lines of one code exactly as they were read, of which there
    is at least one; read back line by line it gives that header line and
    those records apart; and every record ends in a line feed except,
    possibly, the last line of the source, written as it is. *)
Theorem C8_artifact_is_header_then_records input_file delimiter w content line0 data_lines :
  files w !! realpath input_file = Some (TextFile content) →
  text_lines (universal_newlines content) = line0 :: data_lines →
  let run := split_file_by_instruction_code abspath realpath makedirs_error text_error
               input_file delimiter w in
  ∀ path text, (path, text) ∈ text_writes (new_events w run.1) →
    ∃ k, let records := lines_of_code delimiter k data_lines in
      path = artifact_path (intermediate_folder abspath input_file) k
      ∧ records ≠ []
      ∧ text = (strip line0 ++ [LF]) ++ concat records
      ∧ text_lines text = (strip line0 ++ [LF]) :: records
      ∧ ∀ r, r ∈ records →
          terminated r ∨ (last data_lines = Some r ∧ r ≠ [] ∧ LF ∉ r).
Proof.
  intros Hf Hl. cbv zeta. intros path text Hin.
  pose proof (text_lines_shape (universal_newlines content)) as Hshape.
  rewrite Hl in Hshape. apply lines_shape_cons in Hshape as [H0 Hdata].
  destruct (stage1_text_writes _ delimiter _ _ _ _ Hf Hl) as [Hno|(codes & Hc & He & _)];
    cbv zeta in *.
  { rewrite Hno in Hin. by apply elem_of_nil in Hin. }
  rewrite He in Hin.
  apply list_elem_of_fmap in Hin as ([k recs] & [= -> ->] & Hin). cbn [fst snd].
  apply written_items_elem in Hin. unfold groups_of in Hin.
  apply list_elem_of_fmap in Hin as (k0 & [= -> ->] & Hk0).
  apply (proj1 (first_seen_elem _ _)) in Hk0.
  exists k0. cbv zeta.
  assert (lines_shape (lines_of_code delimiter k0 data_lines)) as Hrs
    by (by apply lines_shape_filter).
  split_and!.
  - done.
  - clear -Hc Hk0. unfold lines_of_code.
    induction Hc as [|l c ls cs Hlc _ IH]; [by apply elem_of_nil in Hk0|].
    apply elem_of_cons in Hk0 as [->|Hk0].
    + by rewrite filter_cons_True.
    + destruct (decide (instruction_code_of l delimiter = Ok k0)).
      * by rewrite filter_cons_True.
      * rewrite filter_cons_False by done. auto.
  - done.
  - unfold artifact_content.
    rewrite text_lines_terminated, text_lines_concat; [done|done|].
    exists (strip line0). split; [done|]. apply strip_line_no_LF.
    destruct H0 as [?|(_ & _ & ?)]; auto.
  - intros r Hr. apply (lines_shape_elem _ _ Hdata).
    unfold lines_of_code in Hr. by apply list_elem_of_filter in Hr as [_ ?].
Qed.

(** C9.  Two runs that read the same text with the same delimiter, from
    whatever worlds, end alike (the same folder returned or the same
    exception) and do the same things in the same order; and when they
    return, the groups, and the artifacts written, come in the order in
    which the codes are first met in the data lines. *)
Theorem C9_grouping_is_deterministic input_file delimiter w1 w2 content :
  files w1 !! realpath input_file = Some (TextFile content) →
  files w2 !! realpath input_file = Some (TextFile content) →
  let data_lines := drop 1 (text_lines (universal_newlines content)) in
  let run1 := split_file_by_instruction_code abspath realpath makedirs_error text_error
                input_file delimiter w1 in
  let run2 := split_file_by_instruction_code abspath realpath makedirs_error text_error
                input_file delimiter w2 in
  run1.2 = run2.2
  ∧ new_events w1 run1.1 = new_events w2 run2.1
  ∧ ∀ output_folder, run1.2 = Ok output_folder →
      ∃ grouped_data codes,
        group_lines delimiter data_lines [] = Ok grouped_data
        ∧ Forall2 (λ line c, instruction_code_of line delimiter = Ok c) data_lines codes
        ∧ grouped_data.*1 = first_seen codes
        ∧ (text_writes (new_events w1 run1.1)).*1
          = map (artifact_path output_folder) (first_seen codes).
Proof.
  intros Hf1 Hf2. cbv zeta.
  destruct (stage1_run_same input_file delimiter content) as (r & evs & Hsame).
  pose proof (Hsame _ Hf1) as Hr1. pose proof (Hsame _ Hf2) as Hr2.
  split_and!.
  - by rewrite Hr1, Hr2.
  - rewrite Hr1, Hr2. cbn [fst]. by rewrite !(new_events_app _ _ evs).
  - intros out Hout.
    destruct (makedirs_error (intermediate_folder abspath input_file)) as [e|] eqn:Hm.
    { by rewrite (split_file_no_folder _ _ _ _ Hm) in Hout. }
    rewrite (split_file_run _ _ _ _ Hf1 Hm) in Hout |- *. cbv zeta in Hout |- *.
    destruct (text_lines (universal_newlines content)) as [|line0 data] eqn:Hl; [done|].
    change (drop 1 (line0 :: data)) with data.
    destruct (group_lines delimiter data []) as [g|e] eqn:Hg; [|done].
    destruct (codes_exist _ _ (group_lines_ok_two_fields _ _ _ _ Hg)) as [codes Hc].
    pose proof Hg as Hg'. rewrite (group_lines_groups_of _ _ _ Hc) in Hg'.
    injection Hg' as <-.
    destruct (write_groups_error _ _ _ _) eqn:He; [done|]. injection Hout as <-.
    rewrite (written_items_no_error _ _ _ _ He). cbn [fst].
    exists (groups_of delimiter data codes), codes.
    split_and!; [done|done|apply groups_of_keys|].
    erewrite new_events_app; [|cbn [emit trace]; by rewrite <- app_assoc].
    rewrite <- app_comm_cons.
    by rewrite text_writes_stage1, artifact_paths, groups_of_keys.
Qed.

(** C10.  When the input has the header line and nothing else, the group
    mapping is empty and the stage, once it has created its folder, returns
    it, having printed its closing line and nothing more: no file is
    written. *)
Theorem C10_header_only_input input_file delimiter w content line0 :
  files w !! realpath input_file = Some (TextFile content) →
  text_lines (universal_newlines content) = [line0] →
  let output_folder := intermediate_folder abspath input_file in
  makedirs_error output_folder = None →
  group_lines delimiter (drop 1 [line0]) [] = Ok []
  ∧ split_file_by_instruction_code abspath realpath makedirs_error text_error
      input_file delimiter w
    = (mkWorld (files w)
         (trace w ++ [EvMakedirs output_folder;
                      EvPrint ("Files created for each Instruction Code in: "
                               ++ output_folder)]),
       Ok output_folder).
Proof.
  intros Hf Hl. cbv zeta. intros Hm. split; [done|].
  rewrite (split_file_run _ _ _ _ Hf Hm), Hl. cbn. unfold emit. cbn [files trace].
  by rewrite <- app_assoc.
Qed.

End Stage1.
(** ** Stage 1 on the examples *)

Example normpath_examples :
  normpath "/d/intermediate/./A.txt" = ("/d/intermediate/A.txt" : str)
  /\ normpath "/d/intermediate/x/../A.txt" = ("/d/intermediate/A.txt" : str)
  /\ normpath "//d///in.txt" = ("//d/in.txt" : str)
  /\ normpath "///d/in.txt/" = ("/d/in.txt" : str)
  /\ normpath "/../d" = ("/d" : str)
  /\ normpath "a/../../b" = ("../b" : str)
  /\ normpath "" = ("." : str).
Proof. repeat split; reflexivity. Qed.

Lemma C1_grouping_partitions_in_order_witness :
  Forall (two_fields "~") ex_data_lines
  /\ (exists grouped_data, group_lines "~" ex_data_lines [] = Ok grouped_data
        /\ concat grouped_data.*2 ≡ₚ ex_data_lines)
  /\ grouping_keyed_by_field_1 "~" ex_data_lines.
Proof.
  assert (Forall (two_fields "~") ex_data_lines) as Hwf by two_fields_by_computation.
  split; [exact Hwf|].
  destruct (C1_grouping_partitions_in_order "~" ex_data_lines Hwf)
    as [(g & Hg & _ & _ & _ & Hp) Hspec].
  split; [exists g; split; assumption|].
  apply Hspec. repeat constructor.
Defined.

Lemma C1_trailing_blank_counterexample :
  ~ grouping_keyed_by_field_1 "~" ex_trailing_blank_lines.
Proof.
  intros H. destruct H as (g & Hg & _ & Hrec & _).
  { repeat constructor; (eexists; split; [vm_compute; reflexivity|cbn; lia]). }
  vm_compute in Hg. injection Hg as <-.
  pose proof (Hrec ("A" : str) ex_trailing_blank_lines ltac:(constructor)) as Heq.
  assert (("1~A " ++ [LF] : str) ∈ ex_trailing_blank_lines) as Hin by constructor.
  rewrite Heq in Hin. apply list_elem_of_filter in Hin as [Hkey _].
  vm_compute in Hkey. discriminate Hkey.
Qed.

Lemma C3_malformed_line_counterexample :
  ~ malformed_line_reported ex_abspath ex_realpath ex_makedirs_ok ex_text_ok
      "/d/in.txt" "~" ex_malformed_world.
Proof.
  intros H.
  destruct (H _ _ _ eq_refl eq_refl) as [[msg Hmsg] _].
  - apply Exists_cons_tl, Exists_cons_hd. eexists. split; [vm_compute; reflexivity|cbn; lia].
  - vm_compute in Hmsg. discriminate Hmsg.
Qed.

Lemma C3_malformed_line_raises_IndexError_witness :
  split_file_by_instruction_code ex_abspath ex_realpath ex_makedirs_ok ex_text_ok
    "/d/in.txt" "~" ex_malformed_world
  = (mkWorld (files ex_malformed_world) [EvMakedirs ("/d/intermediate" : str)],
     Raise (Exn "IndexError" "list index out of range")).
Proof.
  apply (C3_malformed_line_raises_IndexError ex_abspath ex_realpath ex_makedirs_ok
           ex_text_ok "/d/in.txt" "~" ex_malformed_world _ _ _ eq_refl eq_refl eq_refl).
  apply Exists_cons_tl, Exists_cons_hd. eexists. split; [vm_compute; reflexivity|cbn; lia].
Defined.

Lemma C5_rejoined_artifacts_are_the_data_lines_witness :
  let run := split_file_by_instruction_code ex_abspath ex_realpath ex_makedirs_ok
               ex_text_ok "/d/in.txt" "~" ex_world in
  let artifacts :=
    [(("/d/intermediate/A.txt" : str), unlines ["id~code~amount"; "1~A~10"; "3~A~30"]%list);
     (("/d/intermediate/B.txt" : str), unlines ["id~code~amount"; "2~B~20"]%list)] in
  run.2 = Ok ("/d/intermediate" : str)
  /\ Forall (fun a => files run.1 !! ex_realpath a.1 = Some (TextFile a.2)) artifacts
  /\ rejoin artifacts ≡ₚ ex_data_lines.
Proof.
  assert (Forall (two_fields "~") ex_data_lines) as Hwf by two_fields_by_computation.
  destruct (C5_rejoined_artifacts_are_the_data_lines ex_abspath ex_realpath ex_makedirs_ok
              ex_text_ok "/d/in.txt" "~" ex_world _ _ _ eq_refl eq_refl Hwf eq_refl)
    as (Hr & _ & Hdisk & _ & Hperm).
  - apply Forall_forall. reflexivity.
  - vm_compute. repeat constructor; rewrite ?elem_of_cons, ?elem_of_nil; intuition discriminate.
  - split_and!; [exact Hr|exact Hdisk|exact Hperm].
Defined.

Lemma C5_aliased_codes_counterexample :
  ~ artifacts_rejoin_to_data_lines ex_abspath ex_realpath ex_makedirs_ok ex_text_ok
      "/d/in.txt" "~" ex_alias_world.
Proof.
  intros H.
  pose (data := [("1~A" ++ [LF] : str); ("2~./A" ++ [LF] : str)]).
  destruct (H (unlines ["id~code"; "1~A"; "2~./A"]%list) ("id~code" ++ [LF]) data)
    as (out & arts & Hr & Hdisk & Hperm); [reflexivity|reflexivity| |].
  { subst data. repeat constructor; (eexists; split; [vm_compute; reflexivity|cbn; lia]). }
  clear H. vm_compute in Hr. injection Hr as <-.
  change (first_seen (omap (λ line, spec_key line "~") data))
    with [("A" : str); ("./A" : str)] in Hdisk.
  apply Forall2_cons_inv_l in Hdisk as ([p1 t1] & arts' & [Hp1 H1] & Hdisk & ->).
  apply Forall2_cons_inv_l in Hdisk as ([p2 t2] & arts'' & [Hp2 H2] & Hdisk & ->).
  apply Forall2_nil_inv_l in Hdisk as ->.
  cbn [fst snd] in Hp1, H1, Hp2, H2. subst p1 p2.
  vm_compute in H1. injection H1 as <-. vm_compute in H2. injection H2 as <-.
  assert (∀ l, l ≡ₚ data → ("1~A" ++ [LF] : str) ∈ l) as Hmem.
  { intros l ->. constructor. }
  apply Hmem in Hperm. set (l := rejoin _) in Hperm. vm_compute in l. subst l.
  rewrite !elem_of_cons, elem_of_nil in Hperm.
  destruct Hperm as [Hin|[Hin|[]]]; vm_compute in Hin; discriminate Hin.
Qed.

Lemma C8_ragged_input_counterexample :
  ~ artifacts_verbatim_and_terminated ex_abspath ex_realpath ex_makedirs_ok ex_text_ok
      "/d/in.txt" "~" ex_ragged_world.
Proof.
  intros H.
  destruct (H (ex_ragged_header ++ "1~A") ex_ragged_header [("1~A" : str)]
              eq_refl eq_refl ("/d/intermediate/A.txt" : str) ex_ragged_artifact)
    as (k & Htext & _).
  - vm_compute. constructor.
  - apply (f_equal (take 9)) in Htext. vm_compute in Htext. discriminate Htext.
Qed.

Lemma C8_artifact_is_header_then_records_witness :
  exists k, text_lines ex_ragged_artifact
       = (strip ex_ragged_header ++ [LF]) :: lines_of_code "~" k [("1~A" : str)].
Proof.
  destruct (C8_artifact_is_header_then_records ex_abspath ex_realpath ex_makedirs_ok
              ex_text_ok "/d/in.txt" "~" ex_ragged_world
              (ex_ragged_header ++ "1~A") ex_ragged_header [("1~A" : str)]
              eq_refl eq_refl ("/d/intermediate/A.txt" : str) ex_ragged_artifact)
    as (k & _ & _ & _ & Hlines & _).
  - vm_compute. constructor.
  - exists k. exact Hlines.
Defined.

Lemma C9_grouping_is_deterministic_witness :
  let earlier := emit (EvPrint "earlier run") ex_world in
  new_events ex_world
    (split_file_by_instruction_code ex_abspath ex_realpath ex_makedirs_ok ex_text_ok
       "/d/in.txt" "~" ex_world).1
  = new_events earlier
      (split_file_by_instruction_code ex_abspath ex_realpath ex_makedirs_ok ex_text_ok
         "/d/in.txt" "~" earlier).1
  /\ exists grouped_data codes,
       group_lines "~" ex_data_lines [] = Ok grouped_data
       /\ grouped_data.*1 = first_seen codes.
Proof.
  destruct (C9_grouping_is_deterministic ex_abspath ex_realpath ex_makedirs_ok ex_text_ok
              "/d/in.txt" "~" ex_world (emit (EvPrint "earlier run") ex_world) ex_input
              eq_refl eq_refl)
    as (_ & Hev & Horder).
  split; [exact Hev|].
  destruct (Horder ("/d/intermediate" : str) eq_refl) as (g & codes & Hg & _ & Hk & _).
  exists g, codes. split; assumption.
Defined.

Lemma C10_header_only_input_witness :
  split_file_by_instruction_code ex_abspath ex_realpath ex_makedirs_ok ex_text_ok
    "/d/in.txt" "~" ex_header_only_world
  = (mkWorld (files ex_header_only_world)
       [EvMakedirs ("/d/intermediate" : str);
        EvPrint ("Files created for each Instruction Code in: /d/intermediate" : str)],
     Ok ("/d/intermediate" : str)).
Proof.
  exact (proj2 (C10_header_only_input ex_abspath ex_realpath ex_makedirs_ok ex_text_ok
                  "/d/in.txt" "~" ex_header_only_world
                  (unlines ["id~code~amount"]%list) ("id~code~amount" ++ [LF])
                  eq_refl eq_refl eq_refl)).
Defined.
(** * Part IV: stage 2, paginating and emitting the workbooks *)

(** ** Pieces of a list *)

Lemma length_concat_sum {A} (ls : list (list A)) :
  length (concat ls) = sum_list (length <$> ls).
Proof. induction ls as [|l ls IH]; [done|]. cbn. by rewrite length_app, IH. Qed.

Lemma take_min_length {A} (l : list A) (m : nat) :
  take (m `min` length l) l = take m l.
Proof.
  destruct (decide (m ≤ length l)%nat).
  - by rewrite Nat.min_l.
  - rewrite Nat.min_r by lia. by rewrite !take_ge by lia.
Qed.

(** Cutting a list into [k] consecutive pieces of [m] elements and joining
    them gives back its first [k * m] elements. *)
Lemma concat_chunks {A} (l : list A) (m k : nat) :
  concat ((λ i, take m (drop (i * m) l)) <$> seq 0 k) = take (k * m) l.
Proof.
  induction k as [|k IH]; [done|].
  rewrite seq_S, fmap_app, concat_app, IH. cbn [fmap list_fmap concat plus].
  rewrite app_nil_r, take_take_drop. f_equal. lia.
Qed.

(** The rows of part [i + 1] when [max_rows] is positive and the part starts
    inside the table. *)
Lemma split_batch_rows df max_rows (i : nat) :
  0 < max_rows → Z.of_nat i * max_rows ≤ df_len df →
  df_rows (split_batch df max_rows (Z.of_nat i))
  = take (Z.to_nat max_rows) (drop (i * Z.to_nat max_rows) (df_rows df)).
Proof.
  intros Hm Hi. unfold split_batch, iloc, slice, slice_bound, df_len in *.
  cbn [df_rows].
  set (n := Z.of_nat (length (df_rows df))) in *.
  destruct (Z.ltb_spec (Z.of_nat i * max_rows) 0); [lia|].
  destruct (Z.ltb_spec (((Z.of_nat i + 1) * max_rows) `min` n) 0); [lia|].
  replace (Z.to_nat ((Z.of_nat i * max_rows) `min` n)) with (i * Z.to_nat max_rows)%nat by lia.
  rewrite <- (take_min_length (drop _ _) (Z.to_nat max_rows)). f_equal.
  rewrite length_drop. lia.
Qed.

Lemma excel_writes_split_events output_folder base df max_rows indices :
  excel_writes (split_events output_folder base df max_rows indices)
  = (λ i, (path_join output_folder (split_name base i), split_batch df max_rows i))
    <$> indices.
Proof. induction indices as [|i rest IH]; [done|]. cbn. by f_equal. Qed.

(** ** A run of stage 2 *)

Section Stage2.

Variable realpath : str -> str.

Variable makedirs_error : str -> option exn.

Variable glob_glob : gmap str file -> str -> list str.

Variable pd_read_csv : gmap str file -> str -> str -> result DataFrame.

Variable excel_error : str -> DataFrame -> option exn.

Lemma write_splits_cons output_folder base df max_rows i rest s :
  write_splits realpath excel_error output_folder base df max_rows (i :: rest) s
  = let path := path_join output_folder (split_name base i) in
    match excel_error path (split_batch df max_rows i) with
    | Some e => (s, Raise e)
    | None =>
        write_splits realpath excel_error output_folder base df max_rows rest
          (mkConv
             (mkWorld (<[realpath path := Workbook "Sheet1" (split_batch df max_rows i)]>
                         (files (cv_world s)))
                (cv_trace s ++ [EvWriteExcel path "Sheet1" (split_batch df max_rows i);
                                EvPrint ("Created: " ++ split_name base i)]))
             (excel_files s ++ [path]))
    end.
Proof.
  destruct s as [[fs tr] ef]. cbn [write_splits]. cbv zeta.
  unfold bind, in_world, to_excel at 1. fold (split_name base i).
  fold (split_batch df max_rows i). cbn [cv_world excel_files].
  destruct (excel_error _ _); [done|].
  unfold excel_files_append, print, cv_trace. unfold modify, emit.
  cbn [cv_world excel_files files trace]. by rewrite <- app_assoc.
Qed.

Lemma write_splits_reads output_folder base df max_rows indices s :
  ∃ evs, cv_trace (write_splits realpath excel_error output_folder base df max_rows indices s).1
         = cv_trace s ++ evs ∧ csv_reads evs = [].
Proof.
  revert s. induction indices as [|i rest IH]; intros s.
  - exists []. by rewrite app_nil_r.
  - rewrite write_splits_cons. cbv zeta.
    destruct (excel_error _ _) as [e|].
    + exists []. by rewrite app_nil_r.
    + match goal with |- context [write_splits realpath excel_error _ _ _ _ rest ?s1] =>
        destruct (IH s1) as (evs & -> & Hevs) end.
      eexists. unfold cv_trace at 1. cbn [cv_world trace].
      rewrite <- !app_assoc. split; [reflexivity|]. done.
Qed.

Lemma write_splits_run output_folder base df max_rows indices s :
  (∀ p d, excel_error p d = None) →
  let run := write_splits realpath excel_error output_folder base df max_rows indices s in
  run.2 = Ok tt
  ∧ cv_trace run.1 = cv_trace s ++ split_events output_folder base df max_rows indices
  ∧ excel_files run.1
    = excel_files s ++ map (λ i, path_join output_folder (split_name base i)) indices.
Proof.
  intros Hno. revert s. induction indices as [|i rest IH]; intros s; cbv zeta.
  - cbn. by rewrite !app_nil_r.
  - rewrite write_splits_cons. cbv zeta. rewrite Hno.
    match goal with |- context [write_splits realpath excel_error _ _ _ _ rest ?s1] =>
      destruct (IH s1) as (-> & -> & ->) end.
    unfold cv_trace at 1. cbn [cv_world trace excel_files split_events flat_map map].
    by rewrite <- !app_assoc.
Qed.

(** What the body of the [try] does for one file. *)
Lemma convert_file_run output_folder delimiter max_rows text_file s :
  convert_file realpath pd_read_csv excel_error output_folder delimiter max_rows text_file s
  = let s1 := mkConv (emit (EvReadCsv text_file delimiter) (cv_world s)) (excel_files s) in
    match pd_read_csv (files (cv_world s)) text_file delimiter with
    | Raise e => (s1, Raise e)
    | Ok df =>
        let base := (splitext (basename text_file)).1 in
        if df_len df >? max_rows then
          if max_rows =? 0 then (s1, Raise ZeroDivisionError)
          else write_splits realpath excel_error output_folder base df max_rows
                 (range ((df_len df + max_rows - 1) / max_rows)) s1
        else
          let path := path_join output_folder (base ++ ".xlsx") in
          match excel_error path df with
          | Some e => (s1, Raise e)
          | None =>
              (mkConv
                 (mkWorld (<[realpath path := Workbook "Sheet1" df]> (files (cv_world s)))
                    (cv_trace s ++ [EvReadCsv text_file delimiter;
                                    EvWriteExcel path "Sheet1" df;
                                    EvPrint ("Created: " ++ basename path)]))
                 (excel_files s ++ [path]), Ok tt)
          end
    end.
Proof.
  destruct s as [[fs tr] ef]. unfold convert_file, bind at 1, in_world at 1, read_csv.
  cbn [cv_world excel_files files]. cbv zeta.
  destruct (pd_read_csv fs text_file delimiter) as [df|e]; [|done].
  destruct (df_len df >? max_rows).
  - unfold bind, lift, floordiv. by destruct (max_rows =? 0).
  - unfold bind, in_world, to_excel. cbn [cv_world excel_files files trace emit].
    destruct (excel_error _ _); [done|].
    unfold excel_files_append, print, cv_trace. unfold modify, emit.
    cbn [cv_world excel_files files trace]. by rewrite <- !app_assoc.
Qed.

Lemma convert_file_reads output_folder delimiter max_rows text_file s :
  ∃ evs, cv_trace (convert_file realpath pd_read_csv excel_error output_folder delimiter max_rows
                     text_file s).1
         = cv_trace s ++ EvReadCsv text_file delimiter :: evs ∧ csv_reads evs = [].
Proof.
  rewrite convert_file_run. cbv zeta.
  destruct (pd_read_csv _ _ _) as [df|e]; [|by exists []].
  destruct (df_len df >? max_rows).
  - destruct (max_rows =? 0); [by exists []|].
    match goal with |- context [write_splits realpath excel_error _ _ _ _ ?idx ?s1] =>
      destruct (write_splits_reads output_folder (splitext (basename text_file)).1
                  df max_rows idx s1) as (evs & -> & Hevs) end.
    exists evs. unfold cv_trace at 1. cbn [cv_world emit trace].
    by rewrite <- app_assoc.
  - destruct (excel_error _ _); [by exists []|]. eexists. split; [reflexivity|done].
Qed.

Lemma convert_step_ok output_folder delimiter max_rows text_file s :
  (convert_step realpath pd_read_csv excel_error output_folder delimiter max_rows
     text_file s).2 = Ok tt.
Proof.
  unfold convert_step, try_except.
  destruct (convert_file realpath pd_read_csv excel_error _ _ _ _ s) as [s' [[]|e]]; done.
Qed.

Lemma convert_step_reads output_folder delimiter max_rows text_file s :
  ∃ evs, cv_trace (convert_step realpath pd_read_csv excel_error output_folder delimiter max_rows
                     text_file s).1
         = cv_trace s ++ EvReadCsv text_file delimiter :: evs ∧ csv_reads evs = [].
Proof.
  destruct (convert_file_reads output_folder delimiter max_rows text_file s)
    as (evs & Hev & Hevs).
  unfold convert_step, try_except.
  destruct (convert_file realpath pd_read_csv excel_error _ _ _ _ s) as [s' [[]|e]]; cbn [fst] in *.
  - by exists evs.
  - exists (evs ++ [EvPrint ("Error processing " ++ text_file ++ ": " ++ exn_msg e)]).
    unfold report_error, in_world, print, modify, emit, cv_trace in *.
    cbn [fst cv_world trace]. rewrite Hev, <- app_assoc. split; [done|].
    unfold csv_reads in *. rewrite omap_app, Hevs. done.
Qed.

Lemma convert_files_cons output_folder delimiter max_rows text_file rest s :
  convert_files realpath pd_read_csv excel_error output_folder delimiter max_rows
    (text_file :: rest) s
  = convert_files realpath pd_read_csv excel_error output_folder delimiter max_rows rest
      (convert_step realpath pd_read_csv excel_error output_folder delimiter max_rows
         text_file s).1.
Proof.
  cbn [convert_files]. unfold bind.
  fold (convert_step realpath pd_read_csv excel_error output_folder delimiter max_rows text_file).
  pose proof (convert_step_ok output_folder delimiter max_rows text_file s) as Hok.
  destruct (convert_step realpath pd_read_csv excel_error _ _ _ _ s) as [s' r].
  cbn in Hok. by subst.
Qed.

Lemma convert_files_app output_folder delimiter max_rows l1 l2 s :
  convert_files realpath pd_read_csv excel_error output_folder delimiter max_rows (l1 ++ l2) s
  = convert_files realpath pd_read_csv excel_error output_folder delimiter max_rows l2
      (convert_files realpath pd_read_csv excel_error output_folder delimiter max_rows l1 s).1.
Proof.
  revert s. induction l1 as [|f l1 IH]; intros s; [done|].
  cbn [app]. by rewrite !convert_files_cons, IH.
Qed.

(** The loop never raises. *)
Lemma convert_files_ok output_folder delimiter max_rows text_files s :
  (convert_files realpath pd_read_csv excel_error output_folder delimiter max_rows
     text_files s).2 = Ok tt.
Proof.
  revert s. induction text_files as [|f l IH]; intros s; [done|].
  by rewrite convert_files_cons.
Qed.

(** The loop hands every file to the parser, once, in order. *)
Lemma convert_files_reads output_folder delimiter max_rows text_files s :
  ∃ evs, cv_trace (convert_files realpath pd_read_csv excel_error output_folder delimiter max_rows
                     text_files s).1
         = cv_trace s ++ evs ∧ csv_reads evs = text_files.
Proof.
  revert s. induction text_files as [|f l IH]; intros s.
  - exists []. by rewrite app_nil_r.
  - rewrite convert_files_cons.
    destruct (convert_step_reads output_folder delimiter max_rows f s) as (e1 & H1 & Hr1).
    destruct (IH (convert_step realpath pd_read_csv excel_error output_folder delimiter
                    max_rows f s).1)
      as (e2 & H2 & Hr2).
    exists (EvReadCsv f delimiter :: e1 ++ e2). rewrite H2, H1, <- app_assoc.
    split; [done|]. unfold csv_reads in *. cbn [omap list_omap].
    by rewrite omap_app, Hr1, Hr2.
Qed.

(** What the whole stage does: the folder, the listing, the loop. *)
Lemma convert_text_to_excel_run input_folder output_folder delimiter max_rows w :
  convert_text_to_excel realpath makedirs_error glob_glob pd_read_csv excel_error
    input_folder output_folder delimiter max_rows w
  = let out := default input_folder output_folder in
    match makedirs_error out with
    | Some e => (w, Raise e)
    | None =>
        let s := (convert_files realpath pd_read_csv excel_error out delimiter max_rows
                    (glob_glob (files w) (path_join input_folder "*.txt"))
                    (mkConv (emit (EvMakedirs out) w) [])).1 in
        (cv_world s, Ok (excel_files s))
    end.
Proof.
  unfold convert_text_to_excel, bind, makedirs, glob, with_excel_files. cbv zeta.
  destruct (makedirs_error (default input_folder output_folder)); [done|].
  cbn [emit files].
  pose proof (convert_files_ok (default input_folder output_folder) delimiter max_rows
    (glob_glob (files w) (path_join input_folder "*.txt"))
    (mkConv (emit (EvMakedirs (default input_folder output_folder)) w) [])) as Hok.
  unfold emit in *. cbn [files] in *.
  destruct (convert_files realpath pd_read_csv excel_error _ _ _ _ _) as [s r].
  cbn in Hok. by subst.
Qed.

Lemma convert_file_split output_folder delimiter max_rows text_file s df :
  pd_read_csv (files (cv_world s)) text_file delimiter = Ok df →
  (∀ p d, excel_error p d = None) →
  df_len df > max_rows → max_rows ≠ 0 →
  let base := (splitext (basename text_file)).1 in
  let indices := range ((df_len df + max_rows - 1) / max_rows) in
  let run := convert_file realpath pd_read_csv excel_error output_folder delimiter max_rows
               text_file s in
  run.2 = Ok tt
  ∧ excel_writes (conv_events s run.1)
    = (λ i, (path_join output_folder (split_name base i), split_batch df max_rows i))
      <$> indices
  ∧ excel_files run.1
    = excel_files s ++ ((λ i, path_join output_folder (split_name base i)) <$> indices).
Proof.
  intros Hdf Hno Hgt Hm0. cbv zeta. rewrite convert_file_run, Hdf. cbv zeta.
  rewrite (proj2 (Z.gtb_gt _ _)) by lia. rewrite (proj2 (Z.eqb_neq _ _)) by done.
  match goal with |- context [write_splits realpath excel_error ?o ?b ?d ?m ?idx ?s1] =>
    destruct (write_splits_run o b d m idx s1 Hno) as (Hr & Ht & He) end.
  split_and!; [done| |].
  - unfold conv_events. unfold cv_trace in Ht. cbn [cv_world emit trace] in Ht.
    rewrite <- app_assoc in Ht. rewrite (new_events_app _ _ _ Ht).
    cbn [app]. unfold excel_writes at 1. cbn [omap list_omap].
    apply excel_writes_split_events.
  - rewrite He. cbn [excel_files]. by f_equal.
Qed.

Lemma convert_file_single output_folder delimiter max_rows text_file s df :
  pd_read_csv (files (cv_world s)) text_file delimiter = Ok df →
  (∀ p d, excel_error p d = None) →
  df_len df ≤ max_rows →
  let path := path_join output_folder ((splitext (basename text_file)).1 ++ ".xlsx") in
  let run := convert_file realpath pd_read_csv excel_error output_folder delimiter max_rows
               text_file s in
  run.2 = Ok tt
  ∧ excel_writes (conv_events s run.1) = [(path, df)]
  ∧ excel_files run.1 = excel_files s ++ [path].
Proof.
  intros Hdf Hno Hle. cbv zeta. rewrite convert_file_run, Hdf. cbv zeta.
  rewrite Z.gtb_ltb, (proj2 (Z.ltb_ge _ _)) by lia.
  rewrite Hno. cbn [fst snd excel_files]. split_and!; [done| |done].
  unfold conv_events. cbn [cv_world]. erewrite new_events_app; [|reflexivity]. done.
Qed.

(** ** The properties of stage 2 *)

(** C2, as the program has it.  For a parsed table of [n] rows and a
    positive [max_rows] (and workbooks that can be written), the conversion
    of the artifact returns; it writes one batch when [n = 0], and otherwise
    as many batches as the quotient of [n] by [max_rows] rounded up; every
    batch has at most [max_rows] rows; the sizes add up to [n]; batch
    [i + 1] holds the rows of the table from index [i * max_rows] up to, not
    including, [min ((i + 1) * max_rows) n], under the columns of the table;
    and the batches joined in order are the rows of the table. *)
Theorem C2_pagination_batches output_folder delimiter max_rows text_file s df :
  pd_read_csv (files (cv_world s)) text_file delimiter = Ok df →
  (∀ p d, excel_error p d = None) →
  0 < max_rows →
  let n := df_len df in
  let run := convert_file realpath pd_read_csv excel_error output_folder delimiter max_rows
               text_file s in
  let batches := (excel_writes (conv_events s run.1)).*2 in
  let k := Z.of_nat (length batches) in
  run.2 = Ok tt
  ∧ (if decide (n = 0) then k = 1 else is_ceil_div n max_rows k)
  ∧ Forall (λ b, df_len b ≤ max_rows) batches
  ∧ Z.of_nat (sum_list ((λ b, length (df_rows b)) <$> batches)) = n
  ∧ (∀ (i : nat) b, batches !! i = Some b →
       df_columns b = df_columns df
       ∧ df_rows b
         = take (Z.to_nat (Z.min ((Z.of_nat i + 1) * max_rows) n - Z.of_nat i * max_rows))
             (drop (Z.to_nat (Z.of_nat i * max_rows)) (df_rows df)))
  ∧ concat (df_rows <$> batches) = df_rows df.
Proof.
  intros Hdf Hno Hm. cbv zeta.
  destruct (decide (df_len df ≤ max_rows)) as [Hle|Hgt].
  - destruct (convert_file_single output_folder delimiter max_rows text_file s df
                Hdf Hno Hle) as (Hr & Hw & _). cbv zeta in Hr, Hw.
    rewrite Hw. cbn [fmap list_fmap snd length sum_list sum_list_with concat].
    unfold df_len in *. split_and!.
    + done.
    + case_decide; [done|]. unfold is_ceil_div. lia.
    + by constructor.
    + unfold id. lia.
    + intros [|i] b [=]; subst b. split; [done|].
      rewrite drop_0, take_ge; [done|lia].
    + by rewrite app_nil_r.
  - assert (df_len df > max_rows) as Hgt' by lia.
    destruct (convert_file_split output_folder delimiter max_rows text_file s df
                Hdf Hno Hgt' ltac:(lia)) as (Hr & Hw & _). cbv zeta in Hr, Hw.
    rewrite Hw, <- list_fmap_compose.
    set (q := (df_len df + max_rows - 1) / max_rows).
    assert ((q - 1) * max_rows < df_len df ≤ q * max_rows) as Hq.
    { pose proof (Z.div_mod (df_len df + max_rows - 1) max_rows ltac:(lia)) as Hdm.
      pose proof (Z.mod_pos_bound (df_len df + max_rows - 1) max_rows Hm) as Hmod.
      fold q in Hdm. nia. }
    assert (0 ≤ q) as Hq0 by nia.
    unfold range, seqZ. rewrite <- list_fmap_compose.
    set (m := Z.to_nat max_rows). set (k := Z.to_nat q).
    assert (∀ i, (i < k)%nat →
      df_rows (split_batch df max_rows (Z.of_nat i + 0))
      = take m (drop (i * m) (df_rows df))) as Hrows.
    { intros i Hi. rewrite Z.add_0_r. apply split_batch_rows; [done|]. nia. }
    assert (df_rows <$> ((snd ∘ (λ i, (path_join output_folder
               (split_name (splitext (basename text_file)).1 i),
               split_batch df max_rows i))) ∘ (λ i, Z.of_nat i + 0) <$> seq 0 k)
            = (λ i, take m (drop (i * m) (df_rows df))) <$> seq 0 k) as Hall.
    { rewrite <- list_fmap_compose. apply list_fmap_ext.
      intros i j [-> Hj]%lookup_seq. cbn. apply Hrows. lia. }
    assert (concat (df_rows <$> ((snd ∘ (λ i, (path_join output_folder
               (split_name (splitext (basename text_file)).1 i),
               split_batch df max_rows i))) ∘ (λ i, Z.of_nat i + 0) <$> seq 0 k))
            = df_rows df) as Hcat.
    { rewrite Hall, concat_chunks. apply take_ge. unfold df_len in *. nia. }
    rewrite length_fmap, length_seq. split_and!.
    + done.
    + rewrite decide_False by lia. unfold is_ceil_div, k. lia.
    + apply Forall_fmap, Forall_forall. intros i [_ Hi]%elem_of_seq. cbn.
      unfold df_len. rewrite Hrows by lia. rewrite length_take. lia.
    + pose proof (f_equal length Hcat) as Hlen.
      rewrite length_concat_sum, <- list_fmap_compose in Hlen.
      unfold df_len. f_equal. exact Hlen.
    + intros i b Hb. rewrite list_lookup_fmap in Hb.
      destruct (seq 0 k !! i) as [j|] eqn:Hj; [|done].
      apply lookup_seq in Hj as [-> Hj]. cbn in Hb. injection Hb as <-.
      split; [done|]. rewrite Hrows by done.
      rewrite <- (take_min_length (drop _ _) m), length_drop.
      replace ((Z.of_nat i + 1) * max_rows) with (Z.of_nat i * max_rows + max_rows) by lia.
      replace (i * m)%nat with (Z.to_nat (Z.of_nat i * max_rows)) by (unfold m; nia).
      assert (0 ≤ Z.of_nat i * max_rows) as Hp by nia.
      unfold m, df_len. clear -Hp Hm.
      generalize dependent (Z.of_nat i * max_rows). intros p Hp. f_equal. lia.
    + done.
Qed.

(** C4, as the program has it.  With a [max_rows] that is zero or negative
    the stage does not stop before parsing: [max_rows] is never looked at
    before the loop.  When the folder of the workbooks cannot be created, the
    stage raises the exception of [os.makedirs], as it does for any
    [max_rows]; otherwise it returns its list of created files, and every
    artifact found in the folder has been handed to the parser. *)
Theorem C4_nonpositive_max_rows_still_parses input_folder output_folder delimiter max_rows w :
  max_rows ≤ 0 →
  let run := convert_text_to_excel realpath makedirs_error glob_glob pd_read_csv excel_error
               input_folder output_folder delimiter max_rows w in
  match makedirs_error (default input_folder output_folder) with
  | Some e => run = (w, Raise e)
  | None =>
      (∃ created, run.2 = Ok created)
      ∧ csv_reads (new_events w run.1)
        = glob_glob (files w) (path_join input_folder "*.txt")
  end.
Proof.
  intros _. cbv zeta. rewrite convert_text_to_excel_run. cbv zeta.
  destruct (makedirs_error (default input_folder output_folder)); [done|].
  cbn [fst snd]. split; [eauto|].
  match goal with
  | |- context [convert_files realpath pd_read_csv excel_error ?o ?d ?m ?l ?s] =>
      destruct (convert_files_reads o d m l s) as (evs & Hev & Hr)
  end.
  unfold cv_trace in Hev. cbn [cv_world emit trace] in Hev. rewrite <- app_assoc in Hev.
  rewrite (new_events_app _ _ _ Hev). unfold csv_reads in *. cbn [omap list_omap app].
  done.
Qed.

(** C6.  When the conversion of one artifact raises, whatever the
    artifacts before it did, the loop goes on with the artifacts after it
    from the state the failure left, the error having been printed for that
    artifact; the loop as a whole returns normally; and every artifact of
    the list has been handed to the parser, in order. *)
Theorem C6_failing_artifact_is_isolated output_folder delimiter max_rows before bad after s e :
  let s1 := (convert_files realpath pd_read_csv excel_error output_folder delimiter max_rows
               before s).1 in
  let failed := convert_file realpath pd_read_csv excel_error output_folder delimiter max_rows
                  bad s1 in
  failed.2 = Raise e →
  let run := convert_files realpath pd_read_csv excel_error output_folder delimiter max_rows
               (before ++ bad :: after) s in
  run = convert_files realpath pd_read_csv excel_error output_folder delimiter max_rows after
          (mkConv (emit (EvPrint ("Error processing " ++ bad ++ ": " ++ exn_msg e))
                     (cv_world failed.1))
             (excel_files failed.1))
  ∧ run.2 = Ok tt
  ∧ csv_reads (conv_events s run.1) = before ++ bad :: after.
Proof.
  cbv zeta. intros Hfail. split_and!.
  - rewrite convert_files_app, convert_files_cons. f_equal.
    unfold convert_step, try_except.
    destruct (convert_file realpath pd_read_csv excel_error _ _ _ bad _) as [s2 r2].
    cbn [snd fst] in *. by subst.
  - apply convert_files_ok.
  - destruct (convert_files_reads output_folder delimiter max_rows
                (before ++ bad :: after) s) as (evs & Hev & Hr).
    unfold conv_events. by rewrite (new_events_app _ _ _ Hev).
Qed.

(** C7.  For a parsed table of [n] rows (and workbooks that can be
    written), the files created are those of the workbooks written; when
    [n <= max_rows] there is exactly one, it holds the whole table and its
    name is the base name of the artifact with [.xlsx]; when [n > max_rows]
    the workbooks are named [<base>_part<i>.xlsx] for [i] from 1 on. *)
Theorem C7_batch_file_names output_folder delimiter max_rows text_file s df :
  pd_read_csv (files (cv_world s)) text_file delimiter = Ok df →
  (∀ p d, excel_error p d = None) →
  let base := (splitext (basename text_file)).1 in
  let run := convert_file realpath pd_read_csv excel_error output_folder delimiter max_rows
               text_file s in
  let written := excel_writes (conv_events s run.1) in
  excel_files run.1 = excel_files s ++ written.*1
  ∧ (df_len df ≤ max_rows →
       run.2 = Ok tt ∧ written = [(path_join output_folder (base ++ ".xlsx"), df)])
  ∧ (df_len df > max_rows →
       written.*1
       = (λ i, path_join output_folder (base ++ "_part" ++ str_of_Z i ++ ".xlsx"))
         <$> seqZ 1 (Z.of_nat (length written))).
Proof.
  intros Hdf Hno. cbv zeta.
  destruct (decide (df_len df ≤ max_rows)) as [Hle|Hgt].
  - destruct (convert_file_single output_folder delimiter max_rows text_file s df
                Hdf Hno Hle) as (Hr & Hw & He). cbv zeta in Hr, Hw, He.
    rewrite Hw, He. split_and!; [done|done|lia].
  - destruct (decide (max_rows = 0)) as [->|Hm0].
    + rewrite convert_file_run, Hdf. cbv zeta.
      rewrite (proj2 (Z.gtb_gt _ _)) by lia. cbn [Z.eqb fst snd excel_files].
      unfold conv_events. cbn [cv_world].
      erewrite new_events_app; [|reflexivity]. cbn.
      split_and!; [by rewrite app_nil_r|lia|done].
    + destruct (convert_file_split output_folder delimiter max_rows text_file s df
                  Hdf Hno ltac:(lia) Hm0) as (Hr & Hw & He). cbv zeta in Hr, Hw, He.
      rewrite Hw, He, <- list_fmap_compose. split_and!; [done|lia|]. intros _.
      rewrite length_fmap. unfold range, seqZ.
      rewrite length_fmap, length_seq, Nat2Z.id, <- !list_fmap_compose.
      apply list_fmap_ext. intros i j _. cbn. unfold split_name.
      by rewrite Z.add_0_r.
Qed.

End Stage2.

(** ** Stage 2 on the examples *)

Lemma C2_zero_rows_counterexample :
  ~ pagination_makes_ceil_batches ex_realpath ex_read_csv ex_no_excel_error
      "/d/excel_output" "~" 1 "/d/intermediate/empty.txt" ex_conv.
Proof.
  intros H. destruct (H (ex_df 0) eq_refl ltac:(lia)) as [[Hlt _] _].
  vm_compute in Hlt. discriminate Hlt.
Qed.

Lemma C2_pagination_batches_witness :
  (excel_writes (conv_events ex_conv
     (convert_file ex_realpath ex_read_csv ex_no_excel_error "/d/excel_output" "~" 2
        "/d/intermediate/A.txt" ex_conv).1)).*2
  = [mkDataFrame (df_columns (ex_df 3)) (take 2 (df_rows (ex_df 3)));
     mkDataFrame (df_columns (ex_df 3)) (drop 2 (df_rows (ex_df 3)))]
  /\ concat (df_rows <$> (excel_writes (conv_events ex_conv
       (convert_file ex_realpath ex_read_csv ex_no_excel_error "/d/excel_output" "~" 2
          "/d/intermediate/A.txt" ex_conv).1)).*2)
    = df_rows (ex_df 3).
Proof.
  split; [vm_compute; reflexivity|].
  exact (proj2 (proj2 (proj2 (proj2 (proj2
    (C2_pagination_batches ex_realpath ex_read_csv ex_no_excel_error "/d/excel_output" "~" 2
       "/d/intermediate/A.txt" ex_conv (ex_df 3) eq_refl (fun _ _ => eq_refl)
       ltac:(lia))))))).
Defined.

Lemma C4_nonpositive_max_rows_counterexample :
  ~ nonpositive_max_rows_rejected ex_realpath ex_makedirs_ok ex_glob ex_read_csv
      ex_no_excel_error "/d/intermediate" (Some ("/d/excel_output" : str)) "~" 0 ex_world.
Proof.
  intros H. destruct (H ltac:(lia)) as [[msg Hmsg] _].
  vm_compute in Hmsg. discriminate Hmsg.
Qed.

Lemma C4_nonpositive_max_rows_still_parses_witness :
  csv_reads (new_events ex_world
    (convert_text_to_excel ex_realpath ex_makedirs_ok ex_glob ex_read_csv ex_no_excel_error
       "/d/intermediate" (Some ("/d/excel_output" : str)) "~" 0 ex_world).1)
  = ex_glob (files ex_world) (path_join "/d/intermediate" "*.txt")
  /\ convert_text_to_excel ex_realpath ex_makedirs_error ex_glob ex_read_csv
       ex_no_excel_error "/d/intermediate" (Some ("/d/out" : str)) "~" 0 ex_world
     = (ex_world, Raise (Exn "FileExistsError" "[Errno 17] File exists: '/d/out'")).
Proof.
  split.
  - exact (proj2 (C4_nonpositive_max_rows_still_parses ex_realpath ex_makedirs_ok ex_glob
                    ex_read_csv ex_no_excel_error "/d/intermediate"
                    (Some ("/d/excel_output" : str)) "~" 0 ex_world ltac:(lia))).
  - exact (C4_nonpositive_max_rows_still_parses ex_realpath ex_makedirs_error ex_glob
             ex_read_csv ex_no_excel_error "/d/intermediate"
             (Some ("/d/out" : str)) "~" 0 ex_world ltac:(lia)).
Defined.

Lemma C6_failing_artifact_is_isolated_witness :
  (convert_files ex_realpath ex_read_csv ex_no_excel_error "/d/excel_output" "~" 2
     [("/d/intermediate/A.txt" : str); ("/d/intermediate/bad.txt" : str);
      ("/d/intermediate/empty.txt" : str)] ex_conv).2 = Ok tt
  /\ csv_reads (conv_events ex_conv
      (convert_files ex_realpath ex_read_csv ex_no_excel_error "/d/excel_output" "~" 2
         [("/d/intermediate/A.txt" : str); ("/d/intermediate/bad.txt" : str);
          ("/d/intermediate/empty.txt" : str)] ex_conv).1)
    = [("/d/intermediate/A.txt" : str); ("/d/intermediate/bad.txt" : str);
       ("/d/intermediate/empty.txt" : str)].
Proof.
  exact (proj2 (C6_failing_artifact_is_isolated ex_realpath ex_read_csv ex_no_excel_error
                  "/d/excel_output" "~" 2 [("/d/intermediate/A.txt" : str)]
                  "/d/intermediate/bad.txt" [("/d/intermediate/empty.txt" : str)]
                  ex_conv (Exn "ParserError" "Error tokenizing data") eq_refl)).
Defined.

Lemma C7_batch_file_names_witness :
  (excel_writes (conv_events ex_conv
     (convert_file ex_realpath ex_read_csv ex_no_excel_error "/d/excel_output" "~" 3
        "/d/intermediate/A.txt" ex_conv).1)
   = [(("/d/excel_output/A.xlsx" : str), ex_df 3)])
  /\ (excel_writes (conv_events ex_conv
       (convert_file ex_realpath ex_read_csv ex_no_excel_error "/d/excel_output" "~" 2
          "/d/intermediate/A.txt" ex_conv).1)).*1
    = [("/d/excel_output/A_part1.xlsx" : str); ("/d/excel_output/A_part2.xlsx" : str)].
Proof.
  split.
  - exact (proj2 (proj1 (proj2 (C7_batch_file_names ex_realpath ex_read_csv ex_no_excel_error
             "/d/excel_output" "~" 3 "/d/intermediate/A.txt" ex_conv (ex_df 3)
             eq_refl (fun _ _ => eq_refl))) ltac:(vm_compute; discriminate))).
  - exact (proj2 (proj2 (C7_batch_file_names ex_realpath ex_read_csv ex_no_excel_error
             "/d/excel_output" "~" 2 "/d/intermediate/A.txt" ex_conv (ex_df 3)
             eq_refl (fun _ _ => eq_refl))) ltac:(vm_compute; reflexivity)).
Defined.

(** * Part V: further properties of the program *)

(** ** Splitting and joining *)

Lemma split_go_skip sep pre cur s :
  split_go sep (length pre) cur (pre ++ s) = split_go sep O cur s.
Proof.
  induction pre as [|c pre IH]; [by destruct s|]. exact IH.
Qed.

Lemma split_go_not_nil sep skip cur s : split_go sep skip cur s <> [].
Proof.
  revert skip cur. induction s as [|c s IH]; intros skip cur; [done|].
  cbn [split_go]. destruct skip; [|apply IH].
  destruct (startswith sep (c :: s)); [done|apply IH].
Qed.

Lemma startswith_app p s : startswith p s = true -> exists t, s = p ++ t.
Proof.
  revert s. induction p as [|a p IH]; intros s; [by exists s|].
  destruct s as [|b s]; [done|]. cbn [startswith].
  intros [->%bool_decide_eq_true Hp]%andb_true_iff.
  destruct (IH _ Hp) as [t ->]. by exists t.
Qed.

Lemma str_join_cons sep x l :
  l <> [] -> str_join sep (x :: l) = x ++ sep ++ str_join sep l.
Proof. by destruct l. Qed.

Lemma str_join_split_go sep (n : nat) : forall cur s,
  sep <> [] -> (length s < n)%nat ->
  str_join sep (split_go sep O cur s) = rev cur ++ s.
Proof.
  induction n as [|n IH]; intros cur s Hsep Hlen; [lia|].
  destruct s as [|c s]; [by rewrite app_nil_r|].
  cbn [split_go]. destruct (startswith sep (c :: s)) eqn:Hs.
  - destruct (startswith_app _ _ Hs) as [t Ht].
    destruct sep as [|a sep]; [done|]. injection Ht as -> ->.
    cbn [length pred]. rewrite split_go_skip.
    rewrite str_join_cons by apply split_go_not_nil.
    rewrite IH; [done|done|]. cbn [length] in Hlen. rewrite length_app in Hlen. lia.
  - rewrite IH; [|done|cbn [length] in Hlen; lia].
    cbn [rev]. by rewrite <- app_assoc.
Qed.

(** X1.  Splitting never loses a character: the columns of a line, which
    are at least one, joined again by the delimiter are the stripped line. *)
Theorem X1_columns_join_back line delimiter columns :
  columns_of line delimiter = Ok columns ->
  columns <> [] /\ str_join delimiter columns = strip line.
Proof.
  unfold columns_of, split. destruct delimiter as [|a d]; [done|].
  intros [= <-]. split; [apply split_go_not_nil|].
  by rewrite (str_join_split_go _ (S (length (strip line)))) by (done || lia).
Qed.

(** ** Stage 1: when it returns, and what it leaves on disk *)

Lemma lstrip_blank s : forallb isspace s = true -> lstrip s = [].
Proof.
  induction s as [|c s IH]; [done|]. cbn [forallb lstrip].
  intros [-> Hs]%andb_true_iff. by apply IH.
Qed.

Lemma blank_few_fields delimiter line :
  delimiter <> [] -> forallb isspace line = true -> few_fields delimiter line.
Proof.
  intros Hd Hb. exists [[]]. split; [|cbn; lia].
  unfold columns_of, strip. rewrite lstrip_blank by done.
  unfold split. by destruct delimiter.
Qed.

Lemma written_items_fail text_error output_folder header before item after e :
  Forall (λ kv, text_error (artifact_path output_folder kv.1)
                  (artifact_content header kv.2) = None) before →
  text_error (artifact_path output_folder item.1) (artifact_content header item.2) = Some e →
  written_items text_error output_folder header (before ++ item :: after) = before
  ∧ write_groups_error text_error output_folder header (before ++ item :: after) = Some e.
Proof.
  intros Hok Hbad. induction Hok as [|[k recs] before Hk _ [IH1 IH2]].
  - destruct item as [k recs]. cbn [app written_items write_groups_error fst snd] in *.
    by rewrite Hbad.
  - cbn [app written_items write_groups_error fst snd] in *. rewrite Hk.
    split; [by f_equal|done].
Qed.

Section MoreStage1.

Variable abspath : str -> str.

Variable realpath : str -> str.

Variable makedirs_error : str -> option exn.

Variable text_error : str -> str -> option exn.

(** Whatever the stage does, the files after it are what its events make of
    the files before it, the only paths it writes are paths of artifacts,
    and it neither parses nor writes a workbook. *)
Lemma stage1_follows input_file delimiter w :
  let output_folder := intermediate_folder abspath input_file in
  let run := split_file_by_instruction_code abspath realpath makedirs_error text_error
               input_file delimiter w in
  ∃ evs, run.1 = mkWorld (replay realpath (files w) evs) (trace w ++ evs)
         ∧ excel_writes evs = [] ∧ csv_reads evs = []
         ∧ Forall (λ p, ∃ k, p = artifact_path output_folder k) (written_paths evs).
Proof.
  cbv zeta.
  destruct (makedirs_error (intermediate_folder abspath input_file)) as [e|] eqn:Hm.
  { exists []. rewrite (split_file_no_folder _ _ _ _ _ _ _ _ Hm). destruct w. cbn.
    by rewrite app_nil_r. }
  destruct (files w !! realpath input_file) as [[content|sh df]|] eqn:Hf.
  2,3: exists [EvMakedirs (intermediate_folder abspath input_file)];
       unfold split_file_by_instruction_code, bind, makedirs, open_readlines;
       fold (intermediate_folder abspath input_file); rewrite Hm; cbn [emit files];
       rewrite Hf; by split_and!.
  rewrite (split_file_run _ _ _ _ _ _ _ _ Hf Hm). cbv zeta.
  destruct (text_lines (universal_newlines content)) as [|line0 data].
  { exists [EvMakedirs (intermediate_folder abspath input_file)]. by split_and!. }
  destruct (group_lines delimiter data []) as [g|e].
  2:{ exists [EvMakedirs (intermediate_folder abspath input_file)]. by split_and!. }
  set (items := written_items _ _ _ g).
  assert (∀ tail, excel_writes tail = [] → csv_reads tail = [] → written_paths tail = [] →
            let evs := EvMakedirs (intermediate_folder abspath input_file)
                       :: write_events (intermediate_folder abspath input_file)
                            (strip line0) items ++ tail in
            excel_writes evs = [] ∧ csv_reads evs = []
            ∧ Forall (λ p, ∃ k, p = artifact_path (intermediate_folder abspath input_file) k)
                (written_paths evs)) as Hevs.
  { intros tail H1 H2 H3. cbv zeta.
    change (EvMakedirs (intermediate_folder abspath input_file)
            :: write_events (intermediate_folder abspath input_file) (strip line0) items
            ++ tail)
      with ([EvMakedirs (intermediate_folder abspath input_file)]
            ++ write_events (intermediate_folder abspath input_file) (strip line0) items
            ++ tail).
    unfold excel_writes, csv_reads, written_paths in *. rewrite !omap_app, H1, H2, H3.
    fold (excel_writes (write_events (intermediate_folder abspath input_file)
                          (strip line0) items)).
    fold (csv_reads (write_events (intermediate_folder abspath input_file)
                       (strip line0) items)).
    fold (written_paths (write_events (intermediate_folder abspath input_file)
                           (strip line0) items)).
    rewrite excel_writes_write_events, csv_reads_write_events, written_paths_write_events.
    cbn [omap list_omap app]. rewrite app_nil_r. split_and!; [done..|].
    apply Forall_fmap, Forall_forall. intros k _. by exists k. }
  destruct (write_groups_error _ _ _ g).
  - eexists (EvMakedirs _ :: write_events _ _ items ++ []). split.
    + by rewrite app_nil_r.
    + by apply Hevs.
  - eexists (EvMakedirs _ :: write_events _ _ items ++ [EvPrint _]). split.
    + unfold emit. cbn [files trace]. rewrite replay_stage1_events.
      by rewrite <- app_assoc.
    + by apply Hevs.
Qed.

(** X2.  When the input file is missing the stage, once it has created its
    folder, raises [FileNotFoundError], and when the file is empty
    [IndexError] (there is no [lines[0]]); in both cases nothing else has
    happened. *)
Theorem X2_stage1_without_header input_file delimiter w :
  makedirs_error (intermediate_folder abspath input_file) = None →
  let failed e := (mkWorld (files w)
                     (trace w ++ [EvMakedirs (intermediate_folder abspath input_file)]),
                   @Raise str e) in
  (files w !! realpath input_file = None →
   split_file_by_instruction_code abspath realpath makedirs_error text_error
     input_file delimiter w
   = failed (FileNotFoundError input_file))
  ∧ (files w !! realpath input_file = Some (TextFile []) →
     split_file_by_instruction_code abspath realpath makedirs_error text_error
       input_file delimiter w
     = failed IndexError).
Proof.
  intros Hm. cbv zeta. split; intros Hf.
  - unfold split_file_by_instruction_code, bind, makedirs, open_readlines.
    fold (intermediate_folder abspath input_file). rewrite Hm. cbn [emit files].
    by rewrite Hf.
  - by rewrite (split_file_run _ _ _ _ _ _ _ _ Hf Hm).
Qed.

(** X3.  For an input with a header, once the folder has been created: the
    stage returns the folder when every data line has two fields and every
    artifact can be written; and when some data line has no second field it
    raises, having only created the folder: no artifact is written for the
    lines before the bad one. *)
Theorem X3_stage1_returns_iff_two_fields input_file delimiter w content line0 data_lines :
  files w !! realpath input_file = Some (TextFile content) →
  text_lines (universal_newlines content) = line0 :: data_lines →
  makedirs_error (intermediate_folder abspath input_file) = None →
  let run := split_file_by_instruction_code abspath realpath makedirs_error text_error
               input_file delimiter w in
  (Forall (two_fields delimiter) data_lines → (∀ p c, text_error p c = None) →
   run.2 = Ok (intermediate_folder abspath input_file))
  ∧ (¬ Forall (two_fields delimiter) data_lines →
     ∃ e, run = (mkWorld (files w)
                   (trace w ++ [EvMakedirs (intermediate_folder abspath input_file)]),
                 Raise e)).
Proof.
  intros Hf Hl Hm. cbv zeta. split.
  - intros Hwf Hw. destruct (codes_exist _ _ Hwf) as [codes Hc].
    rewrite (stage1_events_ok abspath realpath makedirs_error text_error _ delimiter
               _ _ _ _ _ Hf Hl Hc Hm); [done|].
    apply Forall_forall. intros kv _. apply Hw.
  - intros Hnot. destruct (group_lines delimiter data_lines []) as [g|e] eqn:Hg.
    + destruct Hnot. by eapply group_lines_ok_two_fields.
    + exists e. by apply stage1_events_raise with content line0 data_lines.
Qed.

(** X4.  With the empty delimiter and at least one data line, the stage,
    once it has created its folder, raises the [ValueError] of [split] and
    writes nothing. *)
Theorem X4_stage1_empty_delimiter input_file w content line0 line1 rest :
  files w !! realpath input_file = Some (TextFile content) →
  text_lines (universal_newlines content) = line0 :: line1 :: rest →
  makedirs_error (intermediate_folder abspath input_file) = None →
  split_file_by_instruction_code abspath realpath makedirs_error text_error
    input_file [] w
  = (mkWorld (files w) (trace w ++ [EvMakedirs (intermediate_folder abspath input_file)]),
     Raise (Exn "ValueError" "empty separator")).
Proof.
  intros Hf Hl Hm. by apply stage1_events_raise with content line0 (line1 :: rest).
Qed.

(** X5.  A data line of white space only, such as an empty last line,
    makes the stage, once it has created its folder, raise [IndexError] and
    write nothing, whatever the other lines are. *)
Theorem X5_stage1_blank_line input_file delimiter w content line0 data_lines :
  files w !! realpath input_file = Some (TextFile content) →
  text_lines (universal_newlines content) = line0 :: data_lines →
  makedirs_error (intermediate_folder abspath input_file) = None →
  delimiter ≠ [] →
  Exists (λ line, forallb isspace line = true) data_lines →
  split_file_by_instruction_code abspath realpath makedirs_error text_error
    input_file delimiter w
  = (mkWorld (files w) (trace w ++ [EvMakedirs (intermediate_folder abspath input_file)]),
     Raise (Exn "IndexError" "list index out of range")).
Proof.
  intros Hf Hl Hm Hd Hex.
  apply stage1_events_raise with content line0 data_lines; [done..|].
  apply group_lines_few_fields. eapply Exists_impl; [exact Hex|].
  intros line Hb. by apply blank_few_fields.
Qed.

(** X6.  When the artifact of a code cannot be written, as for a code that
    names a file in a folder that does not exist, the stage raises the
    exception of that artifact: the artifacts of the codes met before it
    have been written, those of the codes after it are not, and the closing
    line is not printed. *)
Theorem X6_unwritable_artifact_stops_stage1 input_file delimiter w content line0 data_lines
    before k after e :
  files w !! realpath input_file = Some (TextFile content) →
  text_lines (universal_newlines content) = line0 :: data_lines →
  Forall (two_fields delimiter) data_lines →
  first_seen (codes_of delimiter data_lines) = before ++ k :: after →
  let output_folder := intermediate_folder abspath input_file in
  let artifact k := (artifact_path output_folder k,
                     artifact_content (strip line0)
                       (lines_of_code delimiter k data_lines)) in
  makedirs_error output_folder = None →
  Forall (λ k', text_error (artifact k').1 (artifact k').2 = None) before →
  text_error (artifact k).1 (artifact k).2 = Some e →
  let run := split_file_by_instruction_code abspath realpath makedirs_error text_error
               input_file delimiter w in
  run.2 = Raise e
  ∧ new_events w run.1
    = EvMakedirs output_folder
      :: ((λ k', EvWriteText (artifact k').1 (artifact k').2) <$> before).
Proof.
  intros Hf Hl Hwf Hcodes. cbv zeta. intros Hm Hok Hbad.
  pose proof (codes_of_Forall2 _ _ Hwf) as Hc.
  rewrite (split_file_run _ _ _ _ _ _ _ _ Hf Hm), Hl. cbv zeta.
  rewrite (group_lines_groups_of _ _ _ Hc). unfold groups_of. rewrite Hcodes, map_app.
  cbn [map].
  match goal with
  | |- context [written_items _ ?o ?h (?b ++ ?i :: ?a)] =>
      destruct (written_items_fail text_error o h b i a e) as [-> ->]
  end.
  - apply Forall_forall. intros kv (k' & <- & Hk')%list_elem_of_In%in_map_iff.
    apply (proj1 (Forall_forall _ _) Hok k'). by apply list_elem_of_In.
  - exact Hbad.
  - cbn [fst snd]. split; [done|]. erewrite new_events_app by reflexivity. f_equal.
    unfold write_events. rewrite map_map. clear. by induction before; [|cbn; f_equal].
Qed.

(** X7.  When the folder can be created and text files written, no code
    holds a slash, and different plain names in the folder are different
    files, the artifacts of different codes are different files: after the
    stage, the artifact of the code of every data line is on disk, with the
    header line and all the lines of that code. *)
Theorem X7_stage1_artifacts_on_disk input_file delimiter w content line0 data_lines :
  files w !! realpath input_file = Some (TextFile content) →
  text_lines (universal_newlines content) = line0 :: data_lines →
  let output_folder := intermediate_folder abspath input_file in
  makedirs_error output_folder = None →
  (∀ p c, text_error p c = None) →
  names_apart realpath output_folder →
  Forall (λ line, ∃ k, instruction_code_of line delimiter = Ok k ∧ SLASH ∉ k)
    data_lines →
  let run := split_file_by_instruction_code abspath realpath makedirs_error text_error
               input_file delimiter w in
  ∀ line k, line ∈ data_lines → instruction_code_of line delimiter = Ok k →
    files run.1 !! realpath (artifact_path output_folder k)
    = Some (TextFile (artifact_content (strip line0)
                        (lines_of_code delimiter k data_lines))).
Proof.
  intros Hf Hl. cbv zeta. intros Hm Hw Hap Hall line k Hline Hk.
  assert (∃ codes,
    Forall2 (λ line c, instruction_code_of line delimiter = Ok c) data_lines codes
    ∧ Forall (λ c, SLASH ∉ c) codes) as (codes & Hc & Hns).
  { clear -Hall. induction Hall as [|l ls (c & Hlc & Hs) _ (cs & IH1 & IH2)].
    - exists []. split; constructor.
    - exists (c :: cs). split; by constructor. }
  rewrite (stage1_events_ok abspath realpath makedirs_error text_error _ delimiter
             _ _ _ _ _ Hf Hl Hc Hm).
  2:{ apply Forall_forall. intros kv _. apply Hw. }
  cbn [fst files]. apply replay_write_events.
  - rewrite groups_of_keys. apply artifact_files_apart; [done| |apply first_seen_NoDup].
    apply Forall_forall. intros c Hcin. apply (proj1 (first_seen_elem _ _)) in Hcin.
    by apply (proj1 (Forall_forall _ _) Hns).
  - unfold groups_of. apply list_elem_of_In, in_map_iff. exists k. split; [done|].
    apply list_elem_of_In, first_seen_elem. by eapply code_of_line_elem.
Qed.

(** X8.  Running the stage again on what the first run left, the input
    file being still there, ends in the same way, does the same things and
    leaves the files as they were. *)
Theorem X8_stage1_twice input_file delimiter w content :
  files w !! realpath input_file = Some (TextFile content) →
  let run1 := split_file_by_instruction_code abspath realpath makedirs_error text_error
                input_file delimiter w in
  files run1.1 !! realpath input_file = Some (TextFile content) →
  let run2 := split_file_by_instruction_code abspath realpath makedirs_error text_error
                input_file delimiter run1.1 in
  run2.2 = run1.2
  ∧ new_events run1.1 run2.1 = new_events w run1.1
  ∧ files run2.1 = files run1.1.
Proof.
  intros Hf. cbv zeta. intros Hf1.
  destruct (stage1_run_same abspath realpath makedirs_error text_error
              input_file delimiter content) as (r & evs & Hsame).
  pose proof (Hsame _ Hf) as Hr1.
  rewrite Hr1 in Hf1 |- *. cbn [fst] in Hf1 |- *.
  rewrite (Hsame _ Hf1). cbn [fst snd files trace].
  split_and!; [done| |apply replay_twice].
  by rewrite !(new_events_app _ _ evs).
Qed.

End MoreStage1.

(** ** Stage 2: what every run keeps *)

Lemma excel_writes_app evs1 evs2 :
  excel_writes (evs1 ++ evs2) = excel_writes evs1 ++ excel_writes evs2.
Proof. apply omap_app. Qed.

Lemma text_writes_app evs1 evs2 :
  text_writes (evs1 ++ evs2) = text_writes evs1 ++ text_writes evs2.
Proof. apply omap_app. Qed.

Lemma written_paths_excel evs :
  text_writes evs = [] -> written_paths evs = (excel_writes evs).*1.
Proof.
  induction evs as [|e evs IH]; [done|].
  destruct e as [p|p c|p sep|p sheet df|l]; cbn; intros H; try done; try by apply IH.
  f_equal. by apply IH.
Qed.

Lemma conv_follows_refl realpath Q s : conv_follows realpath Q s s [].
Proof.
  unfold conv_follows. rewrite !app_nil_r. split_and!; done || constructor.
Qed.

Lemma conv_follows_trans realpath Q s1 s2 s3 evs1 evs2 :
  conv_follows realpath Q s1 s2 evs1 -> conv_follows realpath Q s2 s3 evs2 ->
  conv_follows realpath Q s1 s3 (evs1 ++ evs2).
Proof.
  intros (Ht1 & Hf1 & He1 & Hw1 & HQ1) (Ht2 & Hf2 & He2 & Hw2 & HQ2).
  unfold conv_follows.
  rewrite Ht2, Ht1, Hf2, Hf1, He2, He1, replay_app, excel_writes_app, text_writes_app,
    Hw1, Hw2, fmap_app, <- !app_assoc.
  split_and!; try done. by apply Forall_app.
Qed.

Lemma conv_follows_print realpath Q s line :
  conv_follows realpath Q s (mkConv (emit (EvPrint line) (cv_world s)) (excel_files s))
    [EvPrint line].
Proof.
  unfold conv_follows, cv_trace. cbn. rewrite app_nil_r. split_and!; done || constructor.
Qed.

Lemma conv_follows_write realpath (Q : str * DataFrame -> Prop) s path df line :
  Q (path, df) ->
  conv_follows realpath Q s
    (mkConv (mkWorld (<[realpath path := Workbook "Sheet1" df]> (files (cv_world s)))
               (cv_trace s ++ [EvWriteExcel path "Sheet1" df; EvPrint line]))
       (excel_files s ++ [path]))
    [EvWriteExcel path "Sheet1" df; EvPrint line].
Proof.
  intros HQ. unfold conv_follows, cv_trace. cbn.
  split_and!; try done. by repeat constructor.
Qed.

Lemma conv_follows_read realpath (Q : str * DataFrame -> Prop) s path sep :
  conv_follows realpath Q s (mkConv (emit (EvReadCsv path sep) (cv_world s)) (excel_files s))
    [EvReadCsv path sep].
Proof.
  unfold conv_follows, cv_trace. cbn. rewrite app_nil_r. split_and!; done || constructor.
Qed.

Section Follows.

Variable realpath : str -> str.

Variable pd_read_csv : gmap str file -> str -> str -> result DataFrame.

Variable excel_error : str -> DataFrame -> option exn.

Variable Q : str * DataFrame -> Prop.

Lemma write_splits_follows output_folder base df max_rows indices s :
  (forall i, i ∈ indices ->
     Q (path_join output_folder (split_name base i), split_batch df max_rows i)) ->
  exists evs,
    conv_follows realpath Q s
      (write_splits realpath excel_error output_folder base df max_rows indices s).1 evs
    /\ csv_reads evs = [].
Proof.
  revert s. induction indices as [|i rest IH]; intros s HQ.
  - exists []. split; [apply conv_follows_refl|done].
  - rewrite write_splits_cons. cbv zeta.
    destruct (excel_error _ _) as [e|].
    + exists []. split; [apply conv_follows_refl|done].
    + match goal with |- context [write_splits _ _ _ _ _ _ rest ?s1] =>
        destruct (IH s1) as (evs & Hev & Hr) end.
      { intros j Hj. apply HQ. by right. }
      eexists ([_; _] ++ evs). split.
      * eapply conv_follows_trans; [|exact Hev].
        apply conv_follows_write. apply HQ. by left.
      * exact Hr.
Qed.

Variable max_rows : Z.

Hypothesis Q_single : forall output_folder base df,
  df_len df <= max_rows -> Q (path_join output_folder (base ++ ".xlsx"), df).

Hypothesis Q_split : forall output_folder base df i,
  df_len df > max_rows -> max_rows <> 0 ->
  0 <= i < (df_len df + max_rows - 1) / max_rows ->
  Q (path_join output_folder (split_name base i), split_batch df max_rows i).

Lemma convert_file_follows output_folder delimiter text_file s :
  exists evs,
    conv_follows realpath Q s
      (convert_file realpath pd_read_csv excel_error output_folder delimiter max_rows text_file s).1
      (EvReadCsv text_file delimiter :: evs)
    /\ csv_reads evs = [].
Proof.
  rewrite convert_file_run. cbv zeta.
  pose proof (conv_follows_read realpath Q s text_file delimiter) as Hread.
  destruct (pd_read_csv _ _ _) as [df|e]; [|by exists []].
  destruct (Z.gtb_spec (df_len df) max_rows) as [Hgt|Hle].
  - destruct (Z.eqb_spec max_rows 0) as [H0|H0]; [by exists []|].
    match goal with |- context [write_splits _ _ ?o ?b ?d ?m ?idx ?s1] =>
      destruct (write_splits_follows o b d m idx s1) as (evs & Hev & Hr) end.
    { unfold range. intros i Hi%elem_of_seqZ. apply Q_split; lia. }
    exists evs. split; [|done].
    exact (conv_follows_trans _ _ _ _ _ _ _ Hread Hev).
  - destruct (excel_error _ _) as [e|]; [by exists []|].
    exists [EvWriteExcel
              (path_join output_folder ((splitext (basename text_file)).1 ++ ".xlsx"))
              "Sheet1" df;
            EvPrint ("Created: " ++ basename
              (path_join output_folder ((splitext (basename text_file)).1 ++ ".xlsx")))].
    split; [|reflexivity].
    unfold conv_follows, cv_trace. cbn.
    split_and!; try done. repeat constructor. by apply Q_single.
Qed.

Lemma convert_step_follows output_folder delimiter text_file s :
  exists evs,
    conv_follows realpath Q s
      (convert_step realpath pd_read_csv excel_error output_folder delimiter max_rows text_file s).1
      (EvReadCsv text_file delimiter :: evs)
    /\ csv_reads evs = [].
Proof.
  destruct (convert_file_follows output_folder delimiter text_file s) as (evs & Hev & Hr).
  unfold convert_step, try_except.
  destruct (convert_file _ _ _ _ _ _ _ s) as [s' [[]|e]]; cbn [fst] in *.
  - by exists evs.
  - eexists (evs ++ [_]). split.
    + eapply (conv_follows_trans realpath Q _ _ _ (EvReadCsv text_file delimiter :: evs) _ Hev).
      apply conv_follows_print.
    + unfold csv_reads in *. by rewrite omap_app, Hr.
Qed.

Lemma convert_files_follows output_folder delimiter text_files s :
  exists evs,
    conv_follows realpath Q s
      (convert_files realpath pd_read_csv excel_error output_folder delimiter max_rows
         text_files s).1
      evs
    /\ csv_reads evs = text_files.
Proof.
  revert s. induction text_files as [|f l IH]; intros s.
  - exists []. split; [apply conv_follows_refl|done].
  - rewrite convert_files_cons.
    destruct (convert_step_follows output_folder delimiter f s) as (e1 & H1 & Hr1).
    destruct (IH (convert_step realpath pd_read_csv excel_error output_folder delimiter
                    max_rows f s).1) as (e2 & H2 & Hr2).
    exists ((EvReadCsv f delimiter :: e1) ++ e2). split.
    + by eapply conv_follows_trans.
    + unfold csv_reads in *. rewrite omap_app. cbn. by rewrite Hr1, Hr2.
Qed.

End Follows.

Lemma startswith_app_same p s : startswith p (p ++ s) = true.
Proof. induction p as [|a p IH]; [done|]. cbn. by rewrite bool_decide_eq_true_2. Qed.

Lemma endswith_app suf s : endswith suf (s ++ suf) = true.
Proof. unfold endswith. rewrite rev_app_distr. apply startswith_app_same. Qed.

(** A joined path ends as its last component does. *)
Lemma endswith_path_join suf a x : endswith suf (path_join a (x ++ suf)) = true.
Proof.
  unfold path_join. destruct (startswith [SLASH] (x ++ suf)); [apply endswith_app|].
  destruct (_ || _).
  - rewrite app_assoc. apply endswith_app.
  - change (a ++ SLASH :: x ++ suf) with (a ++ (SLASH :: x) ++ suf).
    rewrite app_assoc. apply endswith_app.
Qed.

(** The slices of a table that has at most one row, when [max_rows] is
    negative, are empty. *)
Lemma split_batch_negative df max_rows i :
  max_rows < 0 -> 0 <= i < (df_len df + max_rows - 1) / max_rows ->
  df_rows (split_batch df max_rows i) = [].
Proof.
  intros Hm Hi. unfold split_batch, iloc, slice, slice_bound, df_len in *. cbn [df_rows].
  set (n := Z.of_nat (length (df_rows df))) in *.
  assert (n <= 1) as Hn.
  { pose proof (Z.div_mod (n + max_rows - 1) max_rows ltac:(lia)) as Hdm.
    pose proof (Z.mod_neg_bound (n + max_rows - 1) max_rows Hm) as Hmod.
    set (q := (n + max_rows - 1) / max_rows) in *. nia. }
  assert (0 <= n) as Hn0 by lia.
  assert ((i + 1) * max_rows <= -1) as Hi1 by nia.
  assert (i * max_rows <= 0) as Hi0 by nia.
  rewrite (Z.min_l _ n) by lia.
  destruct (Z.ltb_spec ((i + 1) * max_rows) 0); [|lia].
  match goal with |- take ?k _ = _ => replace k with O; [done|] end.
  destruct (Z.ltb_spec (i * max_rows) 0); lia.
Qed.

Section MoreStage2.

Variable realpath : str -> str.

Variable makedirs_error : str -> option exn.

Variable glob_glob : gmap str file -> str -> list str.

Variable pd_read_csv : gmap str file -> str -> str -> result DataFrame.

Variable excel_error : str -> DataFrame -> option exn.

(** What every run of the stage keeps, whatever fails on the way. *)
Lemma convert_text_to_excel_follows (Q : str * DataFrame -> Prop) max_rows
    input_folder output_folder delimiter w :
  (forall out base df, df_len df <= max_rows -> Q (path_join out (base ++ ".xlsx"), df)) ->
  (forall out base df i, df_len df > max_rows -> max_rows <> 0 ->
     0 <= i < (df_len df + max_rows - 1) / max_rows ->
     Q (path_join out (split_name base i), split_batch df max_rows i)) ->
  let out := default input_folder output_folder in
  let run := convert_text_to_excel realpath makedirs_error glob_glob pd_read_csv excel_error
               input_folder output_folder delimiter max_rows w in
  match makedirs_error out with
  | Some e => run = (w, Raise e)
  | None =>
      exists evs,
        trace run.1 = trace w ++ EvMakedirs out :: evs
        /\ run.2 = Ok (excel_writes evs).*1
        /\ files run.1 = replay realpath (files w) evs
        /\ text_writes evs = []
        /\ Forall Q (excel_writes evs)
        /\ csv_reads evs = glob_glob (files w) (path_join input_folder "*.txt")
  end.
Proof.
  intros HQ1 HQ2. cbv zeta. rewrite convert_text_to_excel_run. cbv zeta.
  destruct (makedirs_error (default input_folder output_folder)); [done|].
  cbn [fst snd].
  match goal with |- context [convert_files _ _ _ ?o ?d ?m ?l ?s] =>
    destruct (convert_files_follows realpath pd_read_csv excel_error Q m HQ1 HQ2 o d l s)
      as (evs & (Ht & Hf & He & Hw & HQ) & Hr) end.
  exists evs. unfold cv_trace in Ht. cbn [cv_world excel_files emit trace files] in *.
  rewrite <- app_assoc in Ht. rewrite He.
  split_and!; done.
Qed.

(** X9.  Once its folder has been created, the stage returns, and the list
    it returns is the list of the paths of the workbooks written, in the
    order of writing, whatever fails on the way. *)
Theorem X9_created_files_are_the_workbooks_written input_folder output_folder delimiter
    max_rows w :
  makedirs_error (default input_folder output_folder) = None ->
  let run := convert_text_to_excel realpath makedirs_error glob_glob pd_read_csv excel_error
               input_folder output_folder delimiter max_rows w in
  run.2 = Ok (excel_writes (new_events w run.1)).*1.
Proof.
  intros Hm. cbv zeta.
  pose proof (convert_text_to_excel_follows (fun _ => True) max_rows input_folder
                output_folder delimiter w ltac:(done) ltac:(done)) as H.
  cbv zeta in H. rewrite Hm in H. destruct H as (evs & Hev & Hr & _).
  by rewrite Hr, (new_events_app _ _ _ Hev).
Qed.

(** X10.  The stage writes no text file, every path it writes ends in
    [.xlsx], and every file that no path ending in [.xlsx] names holds what
    it held before. *)
Theorem X10_stage2_writes_only_xlsx input_folder output_folder delimiter max_rows w :
  let run := convert_text_to_excel realpath makedirs_error glob_glob pd_read_csv excel_error
               input_folder output_folder delimiter max_rows w in
  text_writes (new_events w run.1) = []
  /\ Forall (fun pb => endswith ".xlsx" pb.1 = true) (excel_writes (new_events w run.1))
  /\ forall q, (forall p, endswith ".xlsx" p = true -> realpath p <> q) ->
       files run.1 !! q = files w !! q.
Proof.
  cbv zeta.
  pose proof (convert_text_to_excel_follows (fun pb => endswith ".xlsx" pb.1 = true)
                max_rows input_folder output_folder delimiter w) as H.
  cbv zeta in H.
  destruct (makedirs_error (default input_folder output_folder)).
  - rewrite H.
    + cbn [fst]. unfold new_events. rewrite drop_all. by split_and!.
    + intros. apply endswith_path_join.
    + intros. unfold split_name. cbn [fst]. rewrite 2!app_assoc. apply endswith_path_join.
  - destruct H as (evs & Hev & _ & Hf & Ht & HQ & _).
    + intros. apply endswith_path_join.
    + intros. unfold split_name. cbn [fst]. rewrite 2!app_assoc. apply endswith_path_join.
    + rewrite (new_events_app _ _ (EvMakedirs (default input_folder output_folder) :: evs))
        by done.
      change (text_writes (EvMakedirs (default input_folder output_folder) :: evs))
        with (text_writes evs).
      change (excel_writes (EvMakedirs (default input_folder output_folder) :: evs))
        with (excel_writes evs).
      rewrite Hf. split_and!; [done|done|].
      intros q Hq. apply replay_other. rewrite written_paths_excel by done.
      intros (p0 & Heq & Hin)%list_elem_of_fmap.
      apply list_elem_of_fmap in Hin as ([p b] & -> & Hin). cbn [fst] in Heq.
      apply (Hq p); [|done]. by apply (proj1 (Forall_forall _ _) HQ (p, b)).
Qed.

(** X11.  With a [max_rows] that is zero or negative, every workbook
    the stage writes has no row: no data reaches a workbook. *)
Theorem X11_nonpositive_max_rows_writes_no_row input_folder output_folder delimiter max_rows w :
  max_rows <= 0 ->
  let run := convert_text_to_excel realpath makedirs_error glob_glob pd_read_csv excel_error
               input_folder output_folder delimiter max_rows w in
  Forall (fun pb => df_rows pb.2 = []) (excel_writes (new_events w run.1)).
Proof.
  intros Hm. cbv zeta.
  pose proof (convert_text_to_excel_follows (fun pb => df_rows pb.2 = [])
                max_rows input_folder output_folder delimiter w) as H.
  cbv zeta in H.
  destruct (makedirs_error (default input_folder output_folder)).
  - rewrite H.
    + cbn [fst]. unfold new_events. by rewrite drop_all.
    + intros out base df Hle. cbn [snd]. unfold df_len in Hle.
      destruct (df_rows df); [done|]. cbn [length] in Hle. lia.
    + intros out base df i Hgt H0 Hi. cbn [snd]. apply split_batch_negative; [lia|done].
  - destruct H as (evs & Hev & _ & _ & _ & HQ & _).
    + intros out base df Hle. cbn [snd]. unfold df_len in Hle.
      destruct (df_rows df); [done|]. cbn [length] in Hle. lia.
    + intros out base df i Hgt H0 Hi. cbn [snd]. apply split_batch_negative; [lia|done].
    + by rewrite (new_events_app _ _ _ Hev).
Qed.

End MoreStage2.

(** ** Stage 2: the parts of one artifact *)

Lemma str_of_Z_inj z1 z2 : str_of_Z z1 = str_of_Z z2 -> z1 = z2.
Proof.
  unfold str_of_Z. intros H.
  apply (f_equal String.string_of_list_ascii) in H.
  rewrite !String.string_of_list_ascii_of_string in H.
  assert (forall z, Z.to_int z <> Decimal.Pos Decimal.Nil
               /\ Z.to_int z <> Decimal.Neg Decimal.Nil) as Hnn.
  { intros [|p|p]; cbn; split; try discriminate;
      intros [= Hp]; by apply DecimalPos.Unsigned.to_uint_nonnil in Hp. }
  apply (f_equal NilZero.int_of_string) in H.
  rewrite !NilZero.isi in H by apply Hnn.
  injection H as H. by apply DecimalZ.to_int_inj.
Qed.

(** The decimal of an integer holds no slash. *)
Lemma str_of_Z_no_slash z : SLASH ∉ str_of_Z z.
Proof.
  assert (forall u, SLASH ∉ String.list_ascii_of_string (NilEmpty.string_of_uint u))
    as Hu.
  { induction u as [|u IH|u IH|u IH|u IH|u IH|u IH|u IH|u IH|u IH|u IH];
      cbn [NilEmpty.string_of_uint String.list_ascii_of_string];
      [apply not_elem_of_nil|..]; apply not_elem_of_cons; by split. }
  assert (forall u, SLASH ∉ String.list_ascii_of_string (NilZero.string_of_uint u)) as Hn.
  { intros [|u|u|u|u|u|u|u|u|u|u]; try apply Hu.
    cbn. apply not_elem_of_cons. split; [done|apply not_elem_of_nil]. }
  unfold str_of_Z. destruct (Z.to_int z) as [u|u]; cbn [NilZero.string_of_int].
  - apply Hn.
  - cbn [String.list_ascii_of_string]. apply not_elem_of_cons. split; [done|apply Hn].
Qed.

(** The last component of a path holds no slash. *)
Lemma basename_no_slash p : SLASH ∉ basename p.
Proof.
  unfold basename. induction p as [|a p IH]; [apply not_elem_of_nil|].
  cbn [after_last]. destruct (after_last SLASH p) as [|k].
  - rewrite drop_0 in IH. case_bool_decide as Ha.
    + cbn [drop]. by rewrite drop_0.
    + rewrite drop_0. apply not_elem_of_cons. split; [congruence|done].
  - exact IH.
Qed.

Lemma splitext_base_elem x p : x ∈ (splitext p).1 -> x ∈ p.
Proof.
  unfold splitext. destruct (_ && _); cbn [fst]; [|done].
  apply (subseteq_take (pred (after_last DOT p)) p).
Qed.

(** The names of the parts are plain names. *)
Lemma plain_split_name text_file i :
  plain_name (split_name (splitext (basename text_file)).1 i).
Proof.
  unfold plain_name, split_name. split_and!.
  - rewrite !elem_of_app. intros [H|[H|[H|H]]].
    + apply splitext_base_elem in H. by apply basename_no_slash in H.
    + vm_compute in H. repeat (apply elem_of_cons in H as [H|H]; [discriminate H|]).
      by apply elem_of_nil in H.
    + by apply str_of_Z_no_slash in H.
    + vm_compute in H. repeat (apply elem_of_cons in H as [H|H]; [discriminate H|]).
      by apply elem_of_nil in H.
  - intros H. apply (f_equal length) in H. rewrite !length_app in H.
    change (length ("_part" : str)) with 5%nat in H. cbn [length] in H. lia.
  - intros H. apply (f_equal length) in H. rewrite !length_app in H.
    change (length ("_part" : str)) with 5%nat in H.
    change (length ("." : str)) with 1%nat in H. lia.
  - intros H. apply (f_equal length) in H. rewrite !length_app in H.
    change (length ("_part" : str)) with 5%nat in H.
    change (length (".." : str)) with 2%nat in H. lia.
Qed.

Lemma split_name_inj base i j : split_name base i = split_name base j -> i = j.
Proof.
  unfold split_name.
  intros H%app_inv_head%app_inv_head%app_inv_tail%str_of_Z_inj. lia.
Qed.

Section Parts.

Variable realpath : str -> str.

Variable pd_read_csv : gmap str file -> str -> str -> result DataFrame.

Variable excel_error : str -> DataFrame -> option exn.

Lemma write_splits_files_other output_folder base df max_rows indices s q :
  (forall i, i ∈ indices -> realpath (path_join output_folder (split_name base i)) <> q) ->
  files (cv_world (write_splits realpath excel_error output_folder base df max_rows
                     indices s).1) !! q
  = files (cv_world s) !! q.
Proof.
  revert s. induction indices as [|i rest IH]; intros s Hp; [done|].
  rewrite write_splits_cons. cbv zeta. destruct (excel_error _ _); [done|].
  rewrite IH by (intros j Hj; apply Hp; by right). cbn [cv_world files].
  rewrite lookup_insert_ne; [done|]. apply Hp. by left.
Qed.

Lemma write_splits_files output_folder text_file df max_rows indices s i :
  (forall p d, excel_error p d = None) ->
  names_apart realpath output_folder ->
  NoDup indices -> i ∈ indices ->
  let base := (splitext (basename text_file)).1 in
  files (cv_world (write_splits realpath excel_error output_folder base df max_rows
                     indices s).1)
    !! realpath (path_join output_folder (split_name base i))
  = Some (Workbook "Sheet1" (split_batch df max_rows i)).
Proof.
  intros Hno Hap. cbv zeta. revert s.
  induction indices as [|j rest IH]; intros s Hnd Hi.
  { by apply elem_of_nil in Hi. }
  apply NoDup_cons in Hnd as [Hj Hnd].
  rewrite write_splits_cons. cbv zeta. rewrite Hno.
  apply elem_of_cons in Hi as [->|Hi].
  - rewrite write_splits_files_other.
    + cbn [cv_world files]. by rewrite lookup_insert_eq.
    + intros k Hk Heq. apply Hap in Heq; [|apply plain_split_name..].
      apply split_name_inj in Heq. by subst.
  - by apply IH.
Qed.

Lemma write_splits_fails output_folder base df max_rows before j after s e :
  (forall i, i ∈ before ->
     excel_error (path_join output_folder (split_name base i)) (split_batch df max_rows i)
     = None) ->
  excel_error (path_join output_folder (split_name base j)) (split_batch df max_rows j)
  = Some e ->
  let run := write_splits realpath excel_error output_folder base df max_rows
               (before ++ j :: after) s in
  run.2 = Raise e
  /\ cv_trace run.1 = cv_trace s ++ split_events output_folder base df max_rows before
  /\ excel_files run.1
    = excel_files s ++ ((fun i => path_join output_folder (split_name base i)) <$> before).
Proof.
  intros Hok Hbad. cbv zeta. revert s.
  induction before as [|i rest IH]; intros s.
  - cbn [app]. rewrite write_splits_cons. cbv zeta. rewrite Hbad.
    cbn. by rewrite !app_nil_r.
  - cbn [app]. rewrite write_splits_cons. cbv zeta. rewrite Hok by (by left).
    match goal with |- context [write_splits _ _ _ _ _ _ (rest ++ _) ?s1] =>
      destruct (IH ltac:(intros k Hk; apply Hok; by right) s1) as (-> & -> & ->) end.
    unfold cv_trace at 1. cbn [cv_world trace excel_files split_events flat_map fmap list_fmap].
    by rewrite <- !app_assoc.
Qed.

(** X12.  With a negative [max_rows], an artifact of two rows or more is
    passed over in silence: the number of parts computed for it is zero or
    negative, so that its conversion returns normally after the parse, with
    no workbook written and no error printed. *)
Theorem X12_negative_max_rows_skips_artifact output_folder delimiter max_rows text_file s df :
  pd_read_csv (files (cv_world s)) text_file delimiter = Ok df ->
  max_rows < 0 -> 2 <= df_len df ->
  (exists num_splits,
     floordiv (df_len df + max_rows - 1) max_rows = Ok num_splits /\ num_splits <= 0)
  /\ convert_file realpath pd_read_csv excel_error output_folder delimiter max_rows
       text_file s
     = (mkConv (emit (EvReadCsv text_file delimiter) (cv_world s)) (excel_files s), Ok tt).
Proof.
  intros Hdf Hm Hn.
  assert ((df_len df + max_rows - 1) / max_rows <= 0) as Hq.
  { pose proof (Z.div_mod (df_len df + max_rows - 1) max_rows ltac:(lia)) as Hdm.
    pose proof (Z.mod_neg_bound (df_len df + max_rows - 1) max_rows Hm) as Hmod.
    set (q := (df_len df + max_rows - 1) / max_rows) in *. nia. }
  split.
  - exists ((df_len df + max_rows - 1) / max_rows). split; [|done].
    unfold floordiv. by rewrite (proj2 (Z.eqb_neq _ _)) by lia.
  - rewrite convert_file_run, Hdf. cbv zeta.
    rewrite (proj2 (Z.gtb_gt _ _)) by lia. rewrite (proj2 (Z.eqb_neq _ _)) by lia.
    unfold range, seqZ. replace (Z.to_nat _) with O by lia. done.
Qed.

Example negative_max_rows_examples :
  floordiv (3 + (-1) - 1) (-1) = Ok (-1) /\ range (-1) = []
  /\ floordiv (2 + (-5) - 1) (-5) = Ok 0 /\ floordiv (1 + (-5) - 1) (-5) = Ok 1.
Proof. repeat split; reflexivity. Qed.

(** X13.  With [max_rows = 0], an artifact of one row or more fails on
    the division: the turn of the loop returns, with the error printed after
    the parse, no workbook written and no file added to the list. *)
Theorem X13_zero_max_rows_reports_division output_folder delimiter text_file s df :
  pd_read_csv (files (cv_world s)) text_file delimiter = Ok df ->
  1 <= df_len df ->
  convert_step realpath pd_read_csv excel_error output_folder delimiter 0 text_file s
  = (mkConv
       (mkWorld (files (cv_world s))
          (cv_trace s ++ [EvReadCsv text_file delimiter;
                          EvPrint ("Error processing " ++ text_file ++ ": "
                                   ++ exn_msg ZeroDivisionError)]))
       (excel_files s), Ok tt).
Proof.
  intros Hdf Hn. unfold convert_step, try_except. rewrite convert_file_run, Hdf. cbv zeta.
  rewrite (proj2 (Z.gtb_gt _ _)) by lia. cbn [Z.eqb].
  unfold report_error, in_world, print, modify, emit, cv_trace.
  cbn [cv_world excel_files files trace]. by rewrite <- app_assoc.
Qed.

(** X14.  When a table has more rows than a positive [max_rows] (and
    workbooks can be written), it is split into at least two parts and no
    part is empty: every part has between one and [max_rows] rows. *)
Theorem X14_split_has_two_parts_none_empty output_folder delimiter max_rows text_file s df :
  pd_read_csv (files (cv_world s)) text_file delimiter = Ok df ->
  (forall p d, excel_error p d = None) ->
  0 < max_rows < df_len df ->
  let run := convert_file realpath pd_read_csv excel_error output_folder delimiter max_rows
               text_file s in
  let batches := (excel_writes (conv_events s run.1)).*2 in
  (2 <= length batches)%nat /\ Forall (fun b => 1 <= df_len b <= max_rows) batches.
Proof.
  intros Hdf Hno [Hm Hgt]. cbv zeta.
  destruct (convert_file_split realpath pd_read_csv excel_error output_folder delimiter max_rows
              text_file s df Hdf Hno ltac:(lia) ltac:(lia)) as (_ & Hw & _).
  cbv zeta in Hw. rewrite Hw, <- list_fmap_compose.
  set (q := (df_len df + max_rows - 1) / max_rows).
  assert ((q - 1) * max_rows < df_len df <= q * max_rows) as Hq.
  { pose proof (Z.div_mod (df_len df + max_rows - 1) max_rows ltac:(lia)) as Hdm.
    pose proof (Z.mod_pos_bound (df_len df + max_rows - 1) max_rows Hm) as Hmod.
    fold q in Hdm. nia. }
  split.
  - rewrite length_fmap. unfold range. rewrite length_seqZ. nia.
  - apply Forall_fmap, Forall_forall. unfold range. intros i Hi%elem_of_seqZ. cbn.
    unfold df_len at 1 2. replace i with (Z.of_nat (Z.to_nat i)) by lia.
    rewrite split_batch_rows; [|done|nia].
    rewrite length_take, length_drop. unfold df_len in *. nia.
Qed.

(** X15.  When workbooks can be written and different plain names in the
    folder of the workbooks are different files, the parts of one artifact
    are different files: every part is on disk after the conversion, under
    its own name and with its own rows. *)
Theorem X15_parts_are_all_on_disk output_folder delimiter max_rows text_file s df :
  pd_read_csv (files (cv_world s)) text_file delimiter = Ok df ->
  (forall p d, excel_error p d = None) ->
  names_apart realpath output_folder ->
  df_len df > max_rows -> max_rows <> 0 ->
  let base := (splitext (basename text_file)).1 in
  let run := convert_file realpath pd_read_csv excel_error output_folder delimiter max_rows
               text_file s in
  forall i, 0 <= i < (df_len df + max_rows - 1) / max_rows ->
    files (cv_world run.1) !! realpath (path_join output_folder (split_name base i))
    = Some (Workbook "Sheet1" (split_batch df max_rows i)).
Proof.
  intros Hdf Hno Hap Hgt Hm0. cbv zeta. intros i Hi.
  rewrite convert_file_run, Hdf. cbv zeta.
  rewrite (proj2 (Z.gtb_gt _ _)) by lia. rewrite (proj2 (Z.eqb_neq _ _)) by done.
  apply write_splits_files; [done|done|apply NoDup_seqZ|].
  unfold range. apply elem_of_seqZ. lia.
Qed.

(** X16.  When writing a part fails, the parts written before it stay:
    they are the workbooks written for the artifact, they are in the list of
    created files, and the turn of the loop ends by printing the error. *)
Theorem X16_failing_part_keeps_earlier_parts output_folder delimiter max_rows text_file s df j e :
  pd_read_csv (files (cv_world s)) text_file delimiter = Ok df ->
  df_len df > max_rows -> max_rows <> 0 ->
  0 <= j < (df_len df + max_rows - 1) / max_rows ->
  let base := (splitext (basename text_file)).1 in
  let part i := path_join output_folder (split_name base i) in
  (forall i, 0 <= i < j -> excel_error (part i) (split_batch df max_rows i) = None) ->
  excel_error (part j) (split_batch df max_rows j) = Some e ->
  let run := convert_step realpath pd_read_csv excel_error output_folder delimiter max_rows
               text_file s in
  run.2 = Ok tt
  /\ excel_writes (conv_events s run.1)
    = (fun i => (part i, split_batch df max_rows i)) <$> seqZ 0 j
  /\ excel_files run.1 = excel_files s ++ (part <$> seqZ 0 j)
  /\ last (cv_trace run.1)
    = Some (EvPrint ("Error processing " ++ text_file ++ ": " ++ exn_msg e)).
Proof.
  intros Hdf Hgt Hm0 Hj. cbv zeta. intros Hok Hbad.
  unfold convert_step, try_except. rewrite convert_file_run, Hdf. cbv zeta.
  rewrite (proj2 (Z.gtb_gt _ _)) by lia. rewrite (proj2 (Z.eqb_neq _ _)) by done.
  unfold range.
  replace ((df_len df + max_rows - 1) / max_rows)
    with (j + (1 + ((df_len df + max_rows - 1) / max_rows - j - 1))) by lia.
  rewrite seqZ_app by lia. rewrite (seqZ_cons (0 + j)) by lia.
  rewrite Z.add_0_l.
  match goal with |- context [write_splits _ _ ?o ?b ?d ?m (?l1 ++ j :: ?l2) ?s1] =>
    destruct (write_splits_fails o b d m l1 j l2 s1 e) as (Hr & Ht & He) end.
  { intros i Hi%elem_of_seqZ. apply Hok. lia. }
  { done. }
  cbv zeta in Hr, Ht, He.
  destruct (write_splits _ _ _ _ _ _ _ _) as [s2 r2]. cbn [fst snd] in *. subst r2.
  unfold report_error, in_world, print, modify. cbn [fst snd cv_world excel_files].
  split_and!.
  - done.
  - unfold conv_events. cbn [cv_world]. unfold cv_trace in Ht.
    cbn [cv_world emit trace] in Ht. unfold emit at 1. cbn [trace].
    rewrite Ht, <- !app_assoc. erewrite new_events_app; [|reflexivity].
    cbn [app]. unfold excel_writes at 1. cbn [omap list_omap].
    fold (excel_writes (split_events output_folder (splitext (basename text_file)).1
                          df max_rows (seqZ 0 j) ++ [EvPrint
       ("Error processing " ++ text_file ++ ": " ++ exn_msg e)])).
    rewrite excel_writes_app, excel_writes_split_events. cbn. by rewrite app_nil_r.
  - exact He.
  - unfold cv_trace, emit. cbn [cv_world trace]. by rewrite last_snoc.
Qed.

End Parts.
(** ** Stage 2: artifacts that all fit *)

Section Fit.

Variable realpath : str -> str.

Variable makedirs_error : str -> option exn.

Variable glob_glob : gmap str file -> str -> list str.

Variable pd_read_csv : gmap str file -> str -> str -> result DataFrame.

Variable excel_error : str -> DataFrame -> option exn.

Lemma convert_files_all_fit output_folder delimiter max_rows text_files s :
  (forall p d, excel_error p d = None) ->
  (forall fs f, f ∈ text_files ->
     exists df, pd_read_csv fs f delimiter = Ok df /\ df_len df <= max_rows) ->
  excel_files (convert_files realpath pd_read_csv excel_error output_folder delimiter
                 max_rows text_files s).1
  = excel_files s
    ++ ((fun f => path_join output_folder ((splitext (basename f)).1 ++ ".xlsx"))
        <$> text_files).
Proof.
  intros Hno. revert s. induction text_files as [|f l IH]; intros s Hfit.
  - cbn. by rewrite app_nil_r.
  - rewrite convert_files_cons, IH by (intros fs g Hg; apply Hfit; by right).
    destruct (Hfit (files (cv_world s)) f ltac:(by left)) as (df & Hdf & Hle).
    destruct (convert_file_single realpath pd_read_csv excel_error output_folder delimiter
                max_rows f s df Hdf Hno Hle) as (Hr & _ & He).
    cbv zeta in Hr, He. unfold convert_step, try_except.
    destruct (convert_file _ _ _ _ _ _ _ s) as [s' r]. cbn [fst snd] in *. subst r.
    cbn [fst]. rewrite He. cbn [fmap list_fmap]. by rewrite <- app_assoc.
Qed.

(** X17.  When the folder can be created, every artifact parses to at most
    [max_rows] rows and workbooks can be written, the stage returns one
    workbook per artifact, named after it, in the order of the listing. *)
Theorem X17_one_workbook_per_fitting_artifact input_folder output_folder delimiter max_rows w :
  makedirs_error (default input_folder output_folder) = None ->
  (forall p d, excel_error p d = None) ->
  (forall fs f, f ∈ glob_glob (files w) (path_join input_folder "*.txt") ->
     exists df, pd_read_csv fs f delimiter = Ok df /\ df_len df <= max_rows) ->
  (convert_text_to_excel realpath makedirs_error glob_glob pd_read_csv excel_error
     input_folder output_folder delimiter max_rows w).2
  = Ok ((fun f => path_join (default input_folder output_folder)
                    ((splitext (basename f)).1 ++ ".xlsx"))
        <$> glob_glob (files w) (path_join input_folder "*.txt")).
Proof.
  intros Hm Hno Hfit. rewrite convert_text_to_excel_run. cbv zeta. rewrite Hm. cbn [snd].
  by rewrite convert_files_all_fit.
Qed.

End Fit.

(** ** The command *)

Lemma print_files_run created w :
  print_files created w = (mkWorld (files w) (trace w ++ (EvPrint <$> created)), Ok tt).
Proof.
  revert w. induction created as [|f l IH]; intros w.
  - destruct w. cbn. by rewrite app_nil_r.
  - cbn [print_files]. unfold bind, print, modify, emit. cbn [fst snd].
    rewrite IH. cbn [files trace fmap list_fmap]. by rewrite <- app_assoc.
Qed.

Section MoreMain.

Variable abspath : str -> str.

Variable realpath : str -> str.

Variable makedirs_error : str -> option exn.

Variable text_error : str -> str -> option exn.

Variable glob_glob : gmap str file -> str -> list str.

Variable pd_read_csv : gmap str file -> str -> str -> result DataFrame.

Variable excel_error : str -> DataFrame -> option exn.

(** What [main] does, by the ends of the two stages. *)
Lemma main_run args w :
  main abspath realpath makedirs_error text_error glob_glob pd_read_csv excel_error args w
  = let run1 := split_file_by_instruction_code abspath realpath makedirs_error text_error
                  (arg_input_file args) (arg_delimiter args) w in
    match run1.2 with
    | Raise e => (run1.1, Raise e)
    | Ok folder =>
        let output_folder :=
          or_else (arg_output_folder args)
            (path_join (dirname (abspath (arg_input_file args))) "excel_output") in
        let run2 := convert_text_to_excel realpath makedirs_error glob_glob pd_read_csv
                      excel_error folder (Some output_folder) (arg_delimiter args)
                      (arg_max_rows args) run1.1 in
        match run2.2 with
        | Raise e => (run2.1, Raise e)
        | Ok created =>
            (mkWorld (files run2.1)
               (trace run2.1
                ++ [EvPrint (LF :: "Processing complete.");
                    EvPrint ("Total Excel files created: "
                             ++ str_of_Z (Z.of_nat (length created)));
                    EvPrint "Created files:"]
                ++ (EvPrint <$> created)), Ok tt)
        end
    end.
Proof.
  unfold main. cbv zeta. unfold bind at 1.
  destruct (split_file_by_instruction_code _ _ _ _ _ _ w) as [w1 [folder|e]]; [|done].
  cbn [fst snd]. unfold bind at 1.
  destruct (convert_text_to_excel _ _ _ _ _ _ _ _ _ w1) as [w2 [created|e]]; [|done].
  cbn [fst snd]. unfold bind, print, modify, emit. cbn [fst snd files trace].
  rewrite print_files_run. cbn [files trace]. by rewrite <- !app_assoc.
Qed.

Lemma stage1_ok_folder input_file delimiter w folder :
  (split_file_by_instruction_code abspath realpath makedirs_error text_error
     input_file delimiter w).2 = Ok folder ->
  folder = intermediate_folder abspath input_file.
Proof.
  unfold split_file_by_instruction_code, bind, makedirs, open_readlines, lift, print,
    modify, ret.
  fold (intermediate_folder abspath input_file).
  destruct (makedirs_error _); [done|]. cbn [emit files].
  destruct (files w !! realpath input_file) as [[content|sh df]|]; [|done..].
  destruct (getitem _ 0); [|done]. destruct (group_lines _ _ _); [|done].
  destruct (write_groups _ _ _ _ _ _) as [w2 [[]|e]]; [|done]. by intros [= <-].
Qed.

(** X18.  When the grouping raises, [main] raises the same exception at
    once, and when the grouping returns but the folder of the workbooks
    cannot be created, [main] raises the exception of [os.makedirs]: in both
    cases the world is as the grouping left it, nothing is parsed, no
    workbook is written and no summary is printed. *)
Theorem X18_main_stops_when_a_stage_raises args w :
  let run1 := split_file_by_instruction_code abspath realpath makedirs_error text_error
                (arg_input_file args) (arg_delimiter args) w in
  let output_folder :=
    or_else (arg_output_folder args)
      (path_join (dirname (abspath (arg_input_file args))) "excel_output") in
  let run := main abspath realpath makedirs_error text_error glob_glob pd_read_csv
               excel_error args w in
  (forall e, run1.2 = Raise e -> run = (run1.1, Raise e))
  /\ (forall folder e, run1.2 = Ok folder -> makedirs_error output_folder = Some e ->
       run = (run1.1, Raise e)).
Proof.
  cbv zeta. split.
  - intros e He. rewrite main_run. cbv zeta. by rewrite He.
  - intros folder e Hok Hm. rewrite main_run. cbv zeta. rewrite Hok.
    rewrite convert_text_to_excel_run. cbv zeta. cbn [from_option id].
    by rewrite Hm.
Qed.

(** X19.  When the grouping returns and the folder of the workbooks can be
    created, [main] returns normally whatever happens to the artifacts: it
    converts what the listing of the intermediate folder gives after the
    grouping, into the folder given or else [excel_output] beside the input,
    and ends by printing the number of workbooks written and their paths. *)
Theorem X19_main_returns_when_grouping_returns args w folder :
  let run1 := split_file_by_instruction_code abspath realpath makedirs_error text_error
                (arg_input_file args) (arg_delimiter args) w in
  run1.2 = Ok folder ->
  let output_folder :=
    or_else (arg_output_folder args)
      (path_join (dirname (abspath (arg_input_file args))) "excel_output") in
  makedirs_error output_folder = None ->
  let run := main abspath realpath makedirs_error text_error glob_glob pd_read_csv
               excel_error args w in
  run.2 = Ok tt
  /\ folder = intermediate_folder abspath (arg_input_file args)
  /\ exists evs,
      let created := (excel_writes evs).*1 in
      trace run.1
      = trace run1.1
        ++ EvMakedirs output_folder :: evs
        ++ [EvPrint (LF :: "Processing complete.");
            EvPrint ("Total Excel files created: "
                     ++ str_of_Z (Z.of_nat (length created)));
            EvPrint "Created files:"]
        ++ (EvPrint <$> created)
      /\ files run.1 = replay realpath (files run1.1) evs
      /\ text_writes evs = []
      /\ csv_reads evs = glob_glob (files run1.1) (path_join folder "*.txt").
Proof.
  cbv zeta. intros Hok Hm. rewrite main_run. cbv zeta. rewrite Hok.
  pose proof (convert_text_to_excel_follows realpath makedirs_error glob_glob pd_read_csv
    excel_error (fun _ => True) (arg_max_rows args) folder
    (Some (or_else (arg_output_folder args)
             (path_join (dirname (abspath (arg_input_file args))) "excel_output")))
    (arg_delimiter args)
    (split_file_by_instruction_code abspath realpath makedirs_error text_error
       (arg_input_file args) (arg_delimiter args) w).1
    ltac:(done) ltac:(done)) as H.
  cbv zeta in H. cbn [from_option id] in H. rewrite Hm in H.
  destruct H as (evs & Hev & Hr & Hf & Ht & _ & Hreads).
  rewrite Hr. cbn [fst snd files trace].
  split_and!; [done|by eapply stage1_ok_folder|].
  exists evs. cbv zeta. rewrite Hev, Hf, <- !app_assoc. by split_and!.
Qed.

(** X20.  [main] leaves every file as it was, except the files named by
    the paths of artifacts, [<intermediate folder>/<code>.txt], and the
    files named by paths that end in [.xlsx]. *)
Theorem X20_main_changes_only_artifacts_and_workbooks args w q :
  (forall k, realpath (artifact_path
                         (intermediate_folder abspath (arg_input_file args)) k) <> q) ->
  (forall p, endswith ".xlsx" p = true -> realpath p <> q) ->
  files (main abspath realpath makedirs_error text_error glob_glob pd_read_csv excel_error
           args w).1 !! q
  = files w !! q.
Proof.
  intros Hq Hx.
  destruct (stage1_follows abspath realpath makedirs_error text_error
              (arg_input_file args) (arg_delimiter args) w) as (evs1 & H1 & _ & _ & Hw1).
  cbv zeta in H1, Hw1. rewrite main_run. cbv zeta. rewrite H1. cbn [fst].
  assert (replay realpath (files w) evs1 !! q = files w !! q) as Hsame.
  { apply replay_other. intros (p & Heq & Hin)%list_elem_of_fmap.
    destruct (proj1 (Forall_forall _ _) Hw1 p Hin) as [k ->]. by apply (Hq k). }
  match goal with |- context [match ?r with Ok _ => _ | Raise _ => _ end] =>
    destruct r as [folder|e] end; [|done].
  pose proof (convert_text_to_excel_follows realpath makedirs_error glob_glob pd_read_csv
    excel_error (fun pb => endswith ".xlsx" pb.1 = true) (arg_max_rows args) folder
    (Some (or_else (arg_output_folder args)
             (path_join (dirname (abspath (arg_input_file args))) "excel_output")))
    (arg_delimiter args)
    (mkWorld (replay realpath (files w) evs1) (trace w ++ evs1))) as H.
  cbv zeta in H. cbn [from_option id] in H.
  destruct (makedirs_error _).
  - rewrite H; [done| |].
    + intros. apply endswith_path_join.
    + intros. unfold split_name. cbn [fst]. rewrite 2!app_assoc. apply endswith_path_join.
  - destruct H as (evs & _ & Hr & Hf & Ht & HQ & _).
    + intros. apply endswith_path_join.
    + intros. unfold split_name. cbn [fst]. rewrite 2!app_assoc. apply endswith_path_join.
    + rewrite Hr. cbn [fst files] in Hf |- *. rewrite Hf, <- Hsame.
      apply replay_other. rewrite written_paths_excel by done.
      intros (pb & Heq & Hin)%list_elem_of_fmap.
      apply list_elem_of_fmap in Hin as ([p b] & -> & Hin). cbn [fst] in Heq.
      apply (Hx p); [|done].
      by apply (proj1 (Forall_forall _ _) HQ (p, b)).
Qed.

End MoreMain.
(** ** Normalised paths

    The example file system satisfies what the properties above ask of the
    canonical paths: in every folder, different plain names have different
    normalised paths. *)

Lemma split_go_no_sep (c : ascii) cur n :
  c ∉ n -> split_go [c] O cur n = [rev cur ++ n].
Proof.
  revert cur. induction n as [|a n IH]; intros cur Hn; [by rewrite app_nil_r|].
  apply not_elem_of_cons in Hn as [Ha Hn]. cbn [split_go startswith].
  rewrite bool_decide_eq_false_2 by done. cbn [andb].
  rewrite IH by done. cbn [rev]. by rewrite <- app_assoc.
Qed.

Lemma split_go_snoc_name (c : ascii) cur s n :
  c ∉ n -> split_go [c] O cur (s ++ c :: n) = split_go [c] O cur s ++ [n].
Proof.
  intros Hn. revert cur. induction s as [|a s IH]; intros cur.
  - cbn [app split_go startswith]. rewrite bool_decide_eq_true_2 by done.
    cbn [andb length pred]. by rewrite split_go_no_sep.
  - cbn [app split_go startswith]. case_bool_decide as Ha; cbn [andb length pred].
    + by rewrite IH.
    + apply IH.
Qed.

Lemma str_join_snoc sep l n :
  str_join sep (l ++ [n]) = match l with [] => n | _ => str_join sep l ++ sep ++ n end.
Proof.
  induction l as [|x l IH]; [done|].
  destruct l as [|y l]; [done|].
  change (str_join sep ((x :: y :: l) ++ [n]))
    with (x ++ sep ++ str_join sep ((y :: l) ++ [n])).
  rewrite IH. change (str_join sep (x :: y :: l)) with (x ++ sep ++ str_join sep (y :: l)).
  by rewrite <- !app_assoc.
Qed.

Lemma normpath_step_plain k stack n :
  plain_name n -> normpath_step k stack n = stack ++ [n].
Proof.
  intros (_ & H0 & H1 & H2). unfold normpath_step.
  rewrite !bool_decide_eq_false_2 by done. done.
Qed.

(** Whether a path starts with slashes does not depend on a plain name at
    its end. *)
Lemma startswith_slashes q P n n' :
  Forall (fun c => c = SLASH) q -> plain_name n -> plain_name n' ->
  startswith q (P ++ n) = startswith q (P ++ n').
Proof.
  intros Hq (Hn & Hn0 & _) (Hn' & Hn0' & _). revert P.
  induction Hq as [|c q -> _ IH]; intros P; [done|].
  destruct P as [|b P].
  - destruct n as [|a n]; [done|]. destruct n' as [|a' n']; [done|].
    apply not_elem_of_cons in Hn as [Ha _]. apply not_elem_of_cons in Hn' as [Ha' _].
    cbn [app startswith]. by rewrite !bool_decide_eq_false_2.
  - cbn [app startswith]. by rewrite IH.
Qed.

(** The normalised path of a plain name after a folder prefix is a front,
    which the prefix determines, followed by the name. *)
Lemma normpath_front P :
  P = [] \/ (exists P', P = P' ++ [SLASH]) ->
  exists front, forall n, plain_name n -> normpath (P ++ n) = front ++ n.
Proof.
  intros HP.
  set (k := if startswith [SLASH] (P ++ ["a"%char])
            then if startswith [SLASH; SLASH] (P ++ ["a"%char])
                    && negb (startswith [SLASH; SLASH; SLASH] (P ++ ["a"%char]))
                 then 2%nat else 1%nat
            else O).
  assert (plain_name ["a"%char]) as Ha.
  { split_and!; [|done..].
    intros H. apply elem_of_cons in H as [H|H]; [discriminate H|by apply elem_of_nil in H]. }
  assert (exists comps, forall n, SLASH ∉ n ->
            split_go [SLASH] O [] (P ++ n) = comps ++ [n]) as [comps Hcomps].
  { destruct HP as [->|[P' ->]].
    - exists []. intros n Hn. by rewrite split_go_no_sep.
    - exists (split_go [SLASH] O [] P'). intros n Hn.
      rewrite <- app_assoc. by apply split_go_snoc_name. }
  set (stack := foldl (normpath_step k) [] comps).
  exists (replicate k SLASH
          ++ match stack with [] => [] | _ => str_join [SLASH] stack ++ [SLASH] end).
  intros n Hn. pose proof Hn as (Hslash & Hne & _).
  unfold normpath. destruct (P ++ n) as [|c0 p0] eqn:Hpath.
  { apply app_eq_nil in Hpath as [_ ->]. done. }
  rewrite <- Hpath. clear c0 p0 Hpath.
  change ("/" : str) with [SLASH]. change ("//" : str) with [SLASH; SLASH].
  change ("///" : str) with [SLASH; SLASH; SLASH].
  rewrite (startswith_slashes [SLASH] P n ["a"%char]),
    (startswith_slashes [SLASH; SLASH] P n ["a"%char]),
    (startswith_slashes [SLASH; SLASH; SLASH] P n ["a"%char])
    by (done || by repeat constructor).
  fold k. rewrite Hcomps by done. rewrite foldl_app. cbn [foldl]. fold stack.
  rewrite normpath_step_plain by done. rewrite str_join_snoc.
  assert (forall x : str, x <> [] -> match x with [] => ("." : str) | c :: p => c :: p end = x)
    as Hnon by (by intros [|??]).
  destruct stack as [|x stack'].
  - rewrite app_nil_r. apply Hnon. intros [_ ->]%app_eq_nil. done.
  - rewrite <- !app_assoc. apply Hnon.
    intros [_ H]%app_eq_nil. apply app_eq_nil in H as [_ H]. by apply app_eq_nil in H as [_ ->].
Qed.

Lemma endswith_slash a : endswith [SLASH] a = true -> exists a', a = a' ++ [SLASH].
Proof.
  unfold endswith. intros H. apply startswith_app in H as [t Ht].
  exists (rev t). apply (f_equal (@rev _)) in Ht. rewrite rev_involutive in Ht.
  rewrite Ht. reflexivity.
Qed.

Lemma names_apart_normpath folder : names_apart ex_realpath folder.
Proof.
  assert (exists P, (P = [] \/ exists P', P = P' ++ [SLASH])
                    /\ forall n, plain_name n -> path_join folder n = P ++ n) as (P & HP & Hj).
  { assert (forall n, plain_name n -> startswith [SLASH] n = false) as Hs.
    { intros [|c n] (Hn & _); [done|]. apply not_elem_of_cons in Hn as [Hc _].
      cbn [startswith]. by rewrite bool_decide_eq_false_2. }
    unfold path_join. destruct (decide (folder = [])) as [->|Hne].
    { exists []. split; [by left|]. intros n Hn. by rewrite Hs. }
    rewrite (bool_decide_eq_false_2 _ Hne). cbn [orb].
    destruct (endswith [SLASH] folder) eqn:He.
    - exists folder. split; [right; by apply endswith_slash|].
      intros n Hn. by rewrite Hs.
    - exists (folder ++ [SLASH]). split; [right; by exists folder|].
      intros n Hn. rewrite Hs by done. by rewrite <- app_assoc. }
  destruct (normpath_front P HP) as [front Hfront].
  intros n1 n2 H1 H2. unfold ex_realpath. rewrite !Hj, !Hfront by done.
  apply app_inv_head.
Qed.

Lemma take_after_last c p :
  take (after_last c p) p = [] \/ exists P', take (after_last c p) p = P' ++ [c].
Proof.
  induction p as [|a p IH]; [by left|].
  cbn [after_last]. destruct (after_last c p) as [|k] eqn:Hk.
  - case_bool_decide as Ha; [|by left]. subst a. right. by exists [].
  - right. destruct IH as [IH|[P' IH]].
    + destruct p; [discriminate Hk|discriminate IH].
    + exists (a :: P'). cbn [take]. by rewrite IH.
Qed.

Lemma startswith_cut q x y :
  SLASH ∉ q -> startswith q (x ++ SLASH :: y) = true -> startswith q x = true.
Proof.
  revert x. induction q as [|c q IH]; intros x Hq H; [done|].
  apply not_elem_of_cons in Hq as [Hc Hq]. destruct x as [|a x].
  - cbn [app startswith] in H. by rewrite bool_decide_eq_false_2 in H by congruence.
  - cbn [app startswith] in H |- *. apply andb_true_iff in H as [-> H]. by apply IH.
Qed.

(** A path that ends in a suffix of three characters or more, none of them
    a slash, has a normalised path that ends so. *)
Lemma normpath_suffix (suffix p : str) :
  (3 <= length suffix)%nat -> SLASH ∉ suffix ->
  endswith suffix p = true -> endswith suffix (normpath p) = true.
Proof.
  intros Hlen Hno Hp.
  assert (SLASH ∉ rev suffix) as Hsuf by by rewrite elem_of_rev.
  pose proof (take_drop (after_last SLASH p) p) as Hsplit. fold (basename p) in Hsplit.
  assert (endswith suffix (basename p) = true) as Hb.
  { destruct (take_after_last SLASH p) as [H0|[P' HP']].
    - by rewrite H0 in Hsplit; cbn [app] in Hsplit; rewrite Hsplit.
    - rewrite HP' in Hsplit. rewrite <- Hsplit in Hp. unfold endswith in Hp |- *.
      rewrite !rev_app_distr in Hp. cbn [rev app] in Hp.
      by apply startswith_cut in Hp. }
  destruct (startswith_app _ _ Hb) as [t Ht].
  apply (f_equal (@rev _)) in Ht. rewrite rev_involutive, rev_app_distr, rev_involutive in Ht.
  assert (plain_name (basename p)) as Hplain.
  { split_and!; [apply basename_no_slash|..]; rewrite Ht; intros H;
      apply (f_equal length) in H; rewrite length_app in H;
      try change (length ("." : str)) with 1%nat in H;
      try change (length (".." : str)) with 2%nat in H; cbn [length] in H; lia. }
  destruct (normpath_front (take (after_last SLASH p) p)) as [front Hfront].
  { destruct (take_after_last SLASH p) as [H0|HP']; [by left|by right]. }
  rewrite <- Hsplit, (Hfront _ Hplain), Ht, app_assoc. apply endswith_app.
Qed.

(** A path that ends in [.xlsx] has a normalised path that ends so. *)
Lemma normpath_xlsx p :
  endswith ".xlsx" p = true -> endswith ".xlsx" (normpath p) = true.
Proof.
  apply normpath_suffix.
  - change (length (".xlsx" : str)) with 5%nat. lia.
  - vm_compute. intros H.
    repeat (apply elem_of_cons in H as [H|H]; [discriminate H|]).
    by apply elem_of_nil in H.
Qed.

(** A path that ends in [.txt] has a normalised path that ends so. *)
Lemma normpath_txt p :
  endswith ".txt" p = true -> endswith ".txt" (normpath p) = true.
Proof.
  apply normpath_suffix.
  - change (length (".txt" : str)) with 4%nat. lia.
  - vm_compute. intros H.
    repeat (apply elem_of_cons in H as [H|H]; [discriminate H|]).
    by apply elem_of_nil in H.
Qed.

(** ** The further properties on the examples *)

Lemma X1_columns_join_back_witness :
  str_join "~" [("1" : str); ("A" : str); ("10" : str)] = strip ("1~A~10" ++ [LF]).
Proof.
  exact (proj2 (X1_columns_join_back ("1~A~10" ++ [LF]) "~"
                  [("1" : str); ("A" : str); ("10" : str)] eq_refl)).
Defined.

Lemma X2_stage1_without_header_witness :
  split_file_by_instruction_code ex_abspath ex_realpath ex_makedirs_ok ex_text_ok
    "/d/none.txt" "~" ex_world
  = (mkWorld (files ex_world) [EvMakedirs ("/d/intermediate" : str)],
     Raise (Exn "FileNotFoundError" "/d/none.txt"))
  /\ split_file_by_instruction_code ex_abspath ex_realpath ex_makedirs_ok ex_text_ok
       "/d/in.txt" "~" (mkWorld {[ ("/d/in.txt" : str) := TextFile [] ]} [])
    = (mkWorld {[ ("/d/in.txt" : str) := TextFile [] ]}
         [EvMakedirs ("/d/intermediate" : str)],
       Raise (Exn "IndexError" "list index out of range")).
Proof.
  split.
  - exact (proj1 (X2_stage1_without_header ex_abspath ex_realpath ex_makedirs_ok ex_text_ok
                    "/d/none.txt" "~" ex_world eq_refl) eq_refl).
  - exact (proj2 (X2_stage1_without_header ex_abspath ex_realpath ex_makedirs_ok ex_text_ok
                    "/d/in.txt" "~" (mkWorld {[ ("/d/in.txt" : str) := TextFile [] ]} [])
                    eq_refl) eq_refl).
Defined.

Lemma X3_stage1_returns_iff_two_fields_witness :
  (split_file_by_instruction_code ex_abspath ex_realpath ex_makedirs_ok ex_text_ok
     "/d/in.txt" "~" ex_world).2
  = Ok ("/d/intermediate" : str)
  /\ exists e, split_file_by_instruction_code ex_abspath ex_realpath ex_makedirs_ok
            ex_text_ok "/d/in.txt" "~" ex_malformed_world
          = (mkWorld (files ex_malformed_world) [EvMakedirs ("/d/intermediate" : str)],
             Raise e).
Proof.
  split.
  - apply (proj1 (X3_stage1_returns_iff_two_fields ex_abspath ex_realpath ex_makedirs_ok
                    ex_text_ok "/d/in.txt" "~" ex_world ex_input
                    ("id~code~amount" ++ [LF]) ex_data_lines eq_refl eq_refl eq_refl)).
    + two_fields_by_computation.
    + reflexivity.
  - apply (proj2 (X3_stage1_returns_iff_two_fields ex_abspath ex_realpath ex_makedirs_ok
                    ex_text_ok "/d/in.txt" "~" ex_malformed_world
                    (unlines ["id~code"; "1~A"; "oops"]%list) ("id~code" ++ [LF])
                    [("1~A" ++ [LF] : str); ("oops" ++ [LF] : str)]
                    eq_refl eq_refl eq_refl)).
    intros Hall. apply Forall_cons in Hall as [_ Hall].
    apply Forall_cons in Hall as [(cols & Hc & Hlen) _].
    vm_compute in Hc. injection Hc as <-. cbn in Hlen. lia.
Defined.

Lemma X4_stage1_empty_delimiter_witness :
  split_file_by_instruction_code ex_abspath ex_realpath ex_makedirs_ok ex_text_ok
    "/d/in.txt" [] ex_world
  = (mkWorld (files ex_world) [EvMakedirs ("/d/intermediate" : str)],
     Raise (Exn "ValueError" "empty separator")).
Proof.
  exact (X4_stage1_empty_delimiter ex_abspath ex_realpath ex_makedirs_ok ex_text_ok
           "/d/in.txt" ex_world ex_input ("id~code~amount" ++ [LF])
           ("1~A~10" ++ [LF]) [("2~B~20" ++ [LF] : str); ("3~A~30" ++ [LF] : str)]
           eq_refl eq_refl eq_refl).
Defined.

Lemma X5_stage1_blank_line_witness :
  split_file_by_instruction_code ex_abspath ex_realpath ex_makedirs_ok ex_text_ok
    "/d/in.txt" "~" ex_blank_line_world
  = (mkWorld (files ex_blank_line_world) [EvMakedirs ("/d/intermediate" : str)],
     Raise (Exn "IndexError" "list index out of range")).
Proof.
  apply (X5_stage1_blank_line ex_abspath ex_realpath ex_makedirs_ok ex_text_ok
           "/d/in.txt" "~" ex_blank_line_world
           (unlines ["id~code"; "1~A"; ""]%list) ("id~code" ++ [LF])
           [("1~A" ++ [LF] : str); [LF]] eq_refl eq_refl eq_refl); [discriminate|].
  apply Exists_cons_tl, Exists_cons_hd. reflexivity.
Defined.

Lemma X6_unwritable_artifact_stops_stage1_witness :
  let run := split_file_by_instruction_code ex_abspath ex_realpath ex_makedirs_ok
               ex_text_error "/d/in.txt" "~" ex_slash_world in
  run.2 = Raise (Exn "FileNotFoundError" "/d/intermediate/x/y.txt")
  /\ new_events ex_slash_world run.1
    = [EvMakedirs ("/d/intermediate" : str);
       EvWriteText ("/d/intermediate/B.txt" : str) (unlines ["id~code"; "1~B"]%list)].
Proof.
  apply (X6_unwritable_artifact_stops_stage1 ex_abspath ex_realpath ex_makedirs_ok
           ex_text_error "/d/in.txt" "~" ex_slash_world
           (unlines ["id~code"; "1~B"; "2~x/y"; "3~C"]%list) ("id~code" ++ [LF])
           [("1~B" ++ [LF] : str); ("2~x/y" ++ [LF] : str); ("3~C" ++ [LF] : str)]
           [("B" : str)] ("x/y" : str) [("C" : str)]
           (Exn "FileNotFoundError" "/d/intermediate/x/y.txt") eq_refl eq_refl).
  - two_fields_by_computation.
  - reflexivity.
  - reflexivity.
  - repeat constructor.
  - reflexivity.
Defined.

Lemma X7_stage1_artifacts_on_disk_witness :
  files (split_file_by_instruction_code ex_abspath ex_realpath ex_makedirs_ok ex_text_ok
           "/d/in.txt" "~" ex_world).1
    !! ("/d/intermediate/A.txt" : str)
  = Some (TextFile (unlines ["id~code~amount"; "1~A~10"; "3~A~30"]%list)).
Proof.
  apply (X7_stage1_artifacts_on_disk ex_abspath ex_realpath ex_makedirs_ok ex_text_ok
           "/d/in.txt" "~" ex_world ex_input ("id~code~amount" ++ [LF]) ex_data_lines
           eq_refl eq_refl eq_refl (fun _ _ => eq_refl)
           (names_apart_normpath ("/d/intermediate" : str)))
    with (line := ("1~A~10" ++ [LF] : str)) (k := ("A" : str)).
  - repeat constructor; (eexists; split; [vm_compute; reflexivity|]);
      vm_compute; intros H;
      repeat (apply elem_of_cons in H as [H|H]; [discriminate H|]);
      by apply elem_of_nil in H.
  - vm_compute. constructor.
  - reflexivity.
Defined.

Lemma X8_stage1_twice_witness :
  let run1 := split_file_by_instruction_code ex_abspath ex_realpath ex_makedirs_ok
                ex_text_ok "/d/in.txt" "~" ex_world in
  let run2 := split_file_by_instruction_code ex_abspath ex_realpath ex_makedirs_ok
                ex_text_ok "/d/in.txt" "~" run1.1 in
  files run2.1 = files run1.1.
Proof.
  exact (proj2 (proj2 (X8_stage1_twice ex_abspath ex_realpath ex_makedirs_ok ex_text_ok
                         "/d/in.txt" "~" ex_world ex_input eq_refl eq_refl))).
Defined.

Lemma X9_created_files_are_the_workbooks_written_witness :
  (convert_text_to_excel ex_realpath ex_makedirs_ok ex_glob ex_read_csv ex_part2_error
     "/d/intermediate" (Some ("/d/excel_output" : str)) "~" 2 ex_world).2
  = Ok [("/d/excel_output/A_part1.xlsx" : str); ("/d/excel_output/empty.xlsx" : str)].
Proof.
  exact (X9_created_files_are_the_workbooks_written ex_realpath ex_makedirs_ok ex_glob
           ex_read_csv ex_part2_error "/d/intermediate" (Some ("/d/excel_output" : str))
           "~" 2 ex_world eq_refl).
Defined.

Lemma X10_stage2_writes_only_xlsx_witness :
  files (convert_text_to_excel ex_realpath ex_makedirs_ok ex_glob ex_read_csv
           ex_no_excel_error "/d/intermediate" (Some ("/d/excel_output" : str)) "~" 2
           ex_world).1 !! ("/d/in.txt" : str)
  = Some (TextFile ex_input).
Proof.
  apply (proj2 (proj2 (X10_stage2_writes_only_xlsx ex_realpath ex_makedirs_ok ex_glob
                         ex_read_csv ex_no_excel_error "/d/intermediate"
                         (Some ("/d/excel_output" : str)) "~" 2 ex_world))
           ("/d/in.txt" : str)).
  intros p Hp Heq. apply normpath_xlsx in Hp. unfold ex_realpath in Heq.
  rewrite Heq in Hp. discriminate Hp.
Defined.

Lemma X11_nonpositive_max_rows_writes_no_row_witness :
  Forall (fun pb : str * DataFrame => df_rows pb.2 = [])
    (excel_writes (new_events ex_world
       (convert_text_to_excel ex_realpath ex_makedirs_ok ex_glob ex_read_csv
          ex_no_excel_error "/d/intermediate" (Some ("/d/excel_output" : str)) "~" (-1)
          ex_world).1)).
Proof.
  apply (X11_nonpositive_max_rows_writes_no_row ex_realpath ex_makedirs_ok ex_glob
           ex_read_csv ex_no_excel_error "/d/intermediate"
           (Some ("/d/excel_output" : str)) "~" (-1) ex_world).
  lia.
Defined.

Lemma X12_negative_max_rows_skips_artifact_witness :
  convert_file ex_realpath ex_read_csv ex_no_excel_error "/d/excel_output" "~" (-1)
    "/d/intermediate/A.txt" ex_conv
  = (mkConv (mkWorld ∅ [EvReadCsv ("/d/intermediate/A.txt" : str) ("~" : str)]) [], Ok tt).
Proof.
  apply (proj2 (X12_negative_max_rows_skips_artifact ex_realpath ex_read_csv
                  ex_no_excel_error "/d/excel_output" "~" (-1) "/d/intermediate/A.txt"
                  ex_conv (ex_df 3) eq_refl ltac:(lia) ltac:(vm_compute; discriminate))).
Defined.

Lemma X13_zero_max_rows_reports_division_witness :
  convert_step ex_realpath ex_read_csv ex_no_excel_error "/d/excel_output" "~" 0
    "/d/intermediate/A.txt" ex_conv
  = (mkConv
       (mkWorld ∅
          [EvReadCsv ("/d/intermediate/A.txt" : str) ("~" : str);
           EvPrint ("Error processing /d/intermediate/A.txt: "
                    ++ exn_msg ZeroDivisionError)])
       [], Ok tt).
Proof.
  apply (X13_zero_max_rows_reports_division ex_realpath ex_read_csv ex_no_excel_error
           "/d/excel_output" "~" "/d/intermediate/A.txt" ex_conv (ex_df 3) eq_refl).
  vm_compute. discriminate.
Defined.

Lemma X14_split_has_two_parts_none_empty_witness :
  (2 <= length (excel_writes (conv_events ex_conv
          (convert_file ex_realpath ex_read_csv ex_no_excel_error "/d/excel_output" "~" 2
             "/d/intermediate/A.txt" ex_conv).1)).*2)%nat.
Proof.
  apply (X14_split_has_two_parts_none_empty ex_realpath ex_read_csv ex_no_excel_error
           "/d/excel_output" "~" 2 "/d/intermediate/A.txt" ex_conv (ex_df 3) eq_refl
           (fun _ _ => eq_refl)).
  split; [lia|vm_compute; reflexivity].
Defined.

Lemma X15_parts_are_all_on_disk_witness :
  files (cv_world (convert_file ex_realpath ex_read_csv ex_no_excel_error
                     "/d/excel_output" "~" 2 "/d/intermediate/A.txt" ex_conv).1)
    !! ("/d/excel_output/A_part2.xlsx" : str)
  = Some (Workbook "Sheet1"
            (mkDataFrame (df_columns (ex_df 3)) (drop 2 (df_rows (ex_df 3))))).
Proof.
  apply (X15_parts_are_all_on_disk ex_realpath ex_read_csv ex_no_excel_error
           "/d/excel_output" "~" 2 "/d/intermediate/A.txt" ex_conv (ex_df 3) eq_refl
           (fun _ _ => eq_refl) (names_apart_normpath ("/d/excel_output" : str))
           ltac:(vm_compute; reflexivity) ltac:(lia) 1).
  split; [lia|vm_compute; reflexivity].
Defined.

Lemma X16_failing_part_keeps_earlier_parts_witness :
  excel_files (convert_step ex_realpath ex_read_csv ex_part2_error "/d/excel_output" "~" 2
                 "/d/intermediate/A.txt" ex_conv).1
  = [("/d/excel_output/A_part1.xlsx" : str)].
Proof.
  apply (X16_failing_part_keeps_earlier_parts ex_realpath ex_read_csv ex_part2_error
           "/d/excel_output" "~" 2 "/d/intermediate/A.txt" ex_conv (ex_df 3) 1
           (Exn "OSError" "No space left on device") eq_refl).
  - vm_compute. reflexivity.
  - lia.
  - split; [lia|vm_compute; reflexivity].
  - intros i Hi. assert (i = 0) as -> by lia. reflexivity.
  - reflexivity.
Defined.

Lemma X17_one_workbook_per_fitting_artifact_witness :
  (convert_text_to_excel ex_realpath ex_makedirs_ok ex_glob_good ex_read_csv
     ex_no_excel_error "/d/intermediate" (Some ("/d/excel_output" : str)) "~" 3 ex_world).2
  = Ok [("/d/excel_output/A.xlsx" : str); ("/d/excel_output/empty.xlsx" : str)].
Proof.
  apply (X17_one_workbook_per_fitting_artifact ex_realpath ex_makedirs_ok ex_glob_good
           ex_read_csv ex_no_excel_error "/d/intermediate"
           (Some ("/d/excel_output" : str)) "~" 3 ex_world).
  - reflexivity.
  - reflexivity.
  - intros fs f Hf. unfold ex_glob_good in Hf.
    apply elem_of_cons in Hf as [->|Hf]; [|apply elem_of_cons in Hf as [->|Hf]].
    + exists (ex_df 3). split; [reflexivity|vm_compute; discriminate].
    + exists (ex_df 0). split; [reflexivity|vm_compute; discriminate].
    + by apply elem_of_nil in Hf.
Defined.

Lemma X18_main_stops_when_a_stage_raises_witness :
  main ex_abspath ex_realpath ex_makedirs_ok ex_text_ok ex_glob ex_read_csv
    ex_no_excel_error ex_args ex_malformed_world
  = (mkWorld (files ex_malformed_world) [EvMakedirs ("/d/intermediate" : str)],
     Raise (Exn "IndexError" "list index out of range"))
  /\ main ex_abspath ex_realpath ex_makedirs_error ex_text_ok ex_glob ex_read_csv
       ex_no_excel_error ex_args_out ex_world
    = ((split_file_by_instruction_code ex_abspath ex_realpath ex_makedirs_error ex_text_ok
          "/d/in.txt" "~" ex_world).1,
       Raise (Exn "FileExistsError" "[Errno 17] File exists: '/d/out'")).
Proof.
  split.
  - exact (proj1 (X18_main_stops_when_a_stage_raises ex_abspath ex_realpath
                    ex_makedirs_ok ex_text_ok ex_glob ex_read_csv ex_no_excel_error
                    ex_args ex_malformed_world) _ eq_refl).
  - exact (proj2 (X18_main_stops_when_a_stage_raises ex_abspath ex_realpath
                    ex_makedirs_error ex_text_ok ex_glob ex_read_csv ex_no_excel_error
                    ex_args_out ex_world) _ _ eq_refl eq_refl).
Defined.

Lemma X19_main_returns_when_grouping_returns_witness :
  (main ex_abspath ex_realpath ex_makedirs_ok ex_text_ok ex_glob ex_read_csv
     ex_no_excel_error ex_args ex_world).2 = Ok tt.
Proof.
  exact (proj1 (X19_main_returns_when_grouping_returns ex_abspath ex_realpath
                  ex_makedirs_ok ex_text_ok ex_glob ex_read_csv ex_no_excel_error ex_args
                  ex_world ("/d/intermediate" : str) eq_refl eq_refl)).
Defined.

Lemma X20_main_changes_only_artifacts_and_workbooks_witness :
  files (main ex_abspath ex_realpath ex_makedirs_ok ex_text_ok ex_glob ex_read_csv
           ex_no_excel_error ex_args ex_notes_world).1
    !! ("/d/notes.md" : str)
  = Some (TextFile "keep").
Proof.
  apply (X20_main_changes_only_artifacts_and_workbooks ex_abspath ex_realpath
           ex_makedirs_ok ex_text_ok ex_glob ex_read_csv ex_no_excel_error ex_args
           ex_notes_world ("/d/notes.md" : str)).
  - intros k Heq.
    pose proof (normpath_txt _ (endswith_path_join ".txt"
      (intermediate_folder ex_abspath (arg_input_file ex_args)) k)) as Hp.
    unfold artifact_path, ex_realpath in Heq. rewrite Heq in Hp. discriminate Hp.
  - intros p Hp Heq. apply normpath_xlsx in Hp. unfold ex_realpath in Heq.
    rewrite Heq in Hp. discriminate Hp.
Defined.
